(** * AI Operations Assistant: plan, execute, verify

    A shallow embedding of the planner, executor, verifier and LLM client
    of [ai_ops_assistant], and the properties of the pipeline proved on it;
    further down, the orchestrator of [main.py], the configuration, and
    the request handling of the three tools.

    Python values that travel through the pipeline (JSON from the model,
    tool results) are the inductive [value].  A function that can raise
    returns an [outcome]; a method that talks to the outside (tools, the
    provider, the clock, [time.sleep]) is a state transformer over a
    [process], whose [world] is the part the program does not control and
    whose [sleeps] records every [time.sleep] call in order.

    Strings are byte strings, the UTF-8 encoding of the text.
    [characters] cuts one into its characters, which is what [len],
    slicing and iteration go by, and [strip] knows the white space of
    Unicode.  [lower] and [upper] act on the ASCII range, which is where
    every keyword of the program lives; [str.isalpha] and [str.isupper],
    which follow the Unicode database, are parameters of what calls
    them. *)

From Stdlib Require Import ZArith List String Ascii Bool Lia DecimalString.
From Stdlib Require Import Floats.PrimFloat Floats.SpecFloat Floats.FloatOps.
Import ListNotations.

Open Scope string_scope.
Open Scope Z_scope.

(* ================================================================== *)
(** ** Strings *)

Definition lower_ascii (c : ascii) : ascii :=
  let n := nat_of_ascii c in
  if (Nat.leb 65 n && Nat.leb n 90)%bool then ascii_of_nat (n + 32) else c.

Definition upper_ascii (c : ascii) : ascii :=
  let n := nat_of_ascii c in
  if (Nat.leb 97 n && Nat.leb n 122)%bool then ascii_of_nat (n - 32) else c.

Fixpoint map_string (f : ascii -> ascii) (s : string) : string :=
  match s with
  | EmptyString => EmptyString
  | String c s' => String (f c) (map_string f s')
  end.

(** [str.lower()] and [str.upper()]. *)
Definition lower : string -> string := map_string lower_ascii.
Definition upper : string -> string := map_string upper_ascii.

(** [needle in s] on strings: [needle] occurs in [s] as a substring. *)
Fixpoint contains (needle s : string) : bool :=
  if String.prefix needle s then true
  else match s with
       | EmptyString => false
       | String _ s' => contains needle s'
       end.

(** The characters [str.isspace()] accepts.  A string is the UTF-8
    encoding of the text, so a white-space character is one byte
    (U+0009..U+000D, U+001C..U+0020), two bytes (U+0085, U+00A0) or
    three (U+1680, U+2000..U+200A, U+2028, U+2029, U+202F, U+205F,
    U+3000). *)
Definition is_space (c : ascii) : bool :=
  let n := nat_of_ascii c in
  ((Nat.leb 9 n && Nat.leb n 13) || (Nat.leb 28 n && Nat.leb n 32))%bool.

Definition is_space2 (c1 c2 : ascii) : bool :=
  let a := nat_of_ascii c1 in
  let b := nat_of_ascii c2 in
  (Nat.eqb a 194 && (Nat.eqb b 133 || Nat.eqb b 160))%bool.

Definition is_space3 (c1 c2 c3 : ascii) : bool :=
  let a := nat_of_ascii c1 in
  let b := nat_of_ascii c2 in
  let c := nat_of_ascii c3 in
  ((Nat.eqb a 225 && Nat.eqb b 154 && Nat.eqb c 128)
   || (Nat.eqb a 226 && Nat.eqb b 128
       && ((Nat.leb 128 c && Nat.leb c 138)
           || Nat.eqb c 168 || Nat.eqb c 169 || Nat.eqb c 175))
   || (Nat.eqb a 226 && Nat.eqb b 129 && Nat.eqb c 159)
   || (Nat.eqb a 227 && Nat.eqb b 128 && Nat.eqb c 128))%bool.

Fixpoint lstrip (s : string) : string :=
  match s with
  | EmptyString => EmptyString
  | String c s' =>
      if is_space c then lstrip s'
      else
        match s' with
        | String c2 s2 =>
            if is_space2 c c2 then lstrip s2
            else
              match s2 with
              | String c3 s3 => if is_space3 c c2 c3 then lstrip s3 else s
              | EmptyString => s
              end
        | EmptyString => s
        end
  end.

(** White space is dropped from the right as long as nothing else
    follows. *)
Fixpoint rstrip (s : string) : string :=
  match s with
  | EmptyString => EmptyString
  | String c s' =>
      if String.eqb (lstrip s) EmptyString then EmptyString
      else String c (rstrip s')
  end.

(** [str.strip()]. *)
Definition strip (s : string) : string := rstrip (lstrip s).

(** [any(keyword in s for keyword in keywords)]. *)
Definition any_keyword_in (keywords : list string) (s : string) : bool :=
  existsb (fun keyword => contains keyword s) keywords.

(** [sep.join(lines)]. *)
Definition join (sep : string) (lines : list string) : string :=
  String.concat sep lines.

(** [c * n] for a one-character string [c]. *)
Fixpoint repeat_string (c : string) (n : nat) : string :=
  match n with
  | O => EmptyString
  | S n' => c ++ repeat_string c n'
  end.

(** A character of a text is a byte with the bytes that continue its
    UTF-8 sequence. *)
Definition is_continuation (c : ascii) : bool :=
  let n := nat_of_ascii c in (Nat.leb 128 n && Nat.ltb n 192)%bool.

Definition starts_with_continuation (s : string) : bool :=
  match s with
  | String c _ => is_continuation c
  | EmptyString => false
  end.

(** The characters of [s], as a [for] loop over the text draws them. *)
Fixpoint characters (s : string) : list string :=
  match s with
  | EmptyString => []
  | String c s' =>
      if starts_with_continuation s' then
        match characters s' with
        | following :: rest => String c following :: rest
        | [] => [String c EmptyString]
        end
      else String c EmptyString :: characters s'
  end.

(** [len(s)]: the number of characters. *)
Definition char_length (s : string) : nat := List.length (characters s).

(** [s[:n]]: the first [n] characters. *)
Definition take_chars (n : nat) (s : string) : string :=
  join "" (firstn n (characters s)).

(* ================================================================== *)
(** ** Python values and exceptions *)

(** The data that [json.loads] builds and that tools return. A dict keeps
    its insertion order; its keys are strings. *)
#[warnings="-register-all"]
Inductive value : Type :=
| VNone
| VBool (b : bool)
| VInt (z : Z)
| VFloat (f : float)
| VStr (s : string)
| VList (l : list value)
| VDict (d : list (string * value)).

(** The exception classes the program raises or tells apart.  Every one
    is a subclass of [Exception], which is what [except Exception]
    catches.  [APIError status] stands for an [openai.APIError] that is
    neither a rate-limit nor a connection error; [status] is its
    [status_code] attribute when it has one. *)
Inductive exn_class : Type :=
| ValueError
| TypeError
| AttributeError
| KeyError
| RateLimitError
| APIConnectionError
| APIError (status_code : option Z)
| PlainException.

(** An exception object: its class and [str(e)]. *)
Record exn : Type := mk_exn { exn_class_of : exn_class; exn_msg : string }.

Inductive outcome (A : Type) : Type :=
| Returns (a : A)
| Raises (e : exn).
Arguments Returns {A} a.
Arguments Raises {A} e.

(** The name [type(v).__name__] that error messages quote. *)
Definition type_name (v : value) : string :=
  match v with
  | VNone => "NoneType"
  | VBool _ => "bool"
  | VInt _ => "int"
  | VFloat _ => "float"
  | VStr _ => "str"
  | VList _ => "list"
  | VDict _ => "dict"
  end.

Fixpoint lookup (key : string) (d : list (string * value)) : option value :=
  match d with
  | [] => None
  | (k, v) :: d' => if String.eqb k key then Some v else lookup key d'
  end.

(** The value of a float as [m * 2^e], compared with an integer exactly,
    as Python compares an [int] with a [float]. *)
Definition float_compare_Z (f : float) (z : Z) : option comparison :=
  match Prim2SF f with
  | S754_nan => None
  | S754_infinity true => Some Lt
  | S754_infinity false => Some Gt
  | S754_zero _ => Some (0 ?= z)
  | S754_finite s m e =>
      let sm := if s then Z.neg m else Z.pos m in
      if 0 <=? e then Some (sm * 2 ^ e ?= z)
      else Some (sm ?= z * 2 ^ (- e))
  end.

(** Truth value of [v], as [not v] and [if v] read it. *)
Definition truthy (v : value) : bool :=
  match v with
  | VNone => false
  | VBool b => b
  | VInt z => negb (z =? 0)
  | VFloat f => negb (PrimFloat.eqb f 0%float)
  | VStr s => negb (String.eqb s "")
  | VList l => match l with [] => false | _ => true end
  | VDict d => match d with [] => false | _ => true end
  end.

(** [v == n] for an integer [n]: numbers compare by value (and [True] is
    1, [False] is 0); anything else is unequal. *)
Definition eq_int (v : value) (n : Z) : bool :=
  match v with
  | VInt z => z =? n
  | VBool b => (if b then 1 else 0) =? n
  | VFloat f => match float_compare_Z f n with Some Eq => true | _ => false end
  | _ => false
  end.

(** [v == s] for a string [s]. *)
Definition eq_str (v : value) (s : string) : bool :=
  match v with
  | VStr t => String.eqb t s
  | _ => false
  end.

(** [v < n] and [v > n] for an integer [n]; ordering a non-number against
    an [int] raises [TypeError]. *)
Definition compare_int (op : string) (v : value) (n : Z)
  : outcome (option comparison) :=
  match v with
  | VInt z => Returns (Some (z ?= n))
  | VBool b => Returns (Some ((if b then 1 else 0) ?= n))
  | VFloat f => Returns (float_compare_Z f n)
  | _ => Raises (mk_exn TypeError
           ("'" ++ op ++ "' not supported between instances of '"
            ++ type_name v ++ "' and 'int'"))
  end.

Definition lt_int (v : value) (n : Z) : outcome bool :=
  match compare_int "<" v n with
  | Returns (Some Lt) => Returns true
  | Returns _ => Returns false
  | Raises e => Raises e
  end.

Definition gt_int (v : value) (n : Z) : outcome bool :=
  match compare_int ">" v n with
  | Returns (Some Gt) => Returns true
  | Returns _ => Returns false
  | Raises e => Raises e
  end.

(** [v in strings] for a list of string literals. *)
Definition in_strings (v : value) (strings : list string) : bool :=
  existsb (eq_str v) strings.

(** [key in container] for a string [key]. *)
Definition str_in (key : string) (container : value) : outcome bool :=
  match container with
  | VDict d => Returns (match lookup key d with Some _ => true | None => false end)
  | VList l => Returns (existsb (fun x => eq_str x key) l)
  | VStr s => Returns (contains key s)
  | _ => Raises (mk_exn TypeError
           ("argument of type '" ++ type_name container ++ "' is not iterable"))
  end.

(** [obj.get(key, default)]: only a dict has the method. *)
Definition get (obj : value) (key : string) (default : value) : outcome value :=
  match obj with
  | VDict d => Returns (match lookup key d with Some v => v | None => default end)
  | _ => Raises (mk_exn AttributeError
           ("'" ++ type_name obj ++ "' object has no attribute 'get'"))
  end.

(** [obj[key]] for a string [key]. *)
Definition getitem (obj : value) (key : string) : outcome value :=
  match obj with
  | VDict d =>
      match lookup key d with
      | Some v => Returns v
      | None => Raises (mk_exn KeyError ("'" ++ key ++ "'"))
      end
  | VList _ =>
      Raises (mk_exn TypeError "list indices must be integers or slices, not str")
  | VStr _ =>
      Raises (mk_exn TypeError "string indices must be integers, not 'str'")
  | _ => Raises (mk_exn TypeError
           ("'" ++ type_name obj ++ "' object is not subscriptable"))
  end.

(** [len(v)]. *)
Definition len (v : value) : outcome Z :=
  match v with
  | VStr s => Returns (Z.of_nat (char_length s))
  | VList l => Returns (Z.of_nat (List.length l))
  | VDict d => Returns (Z.of_nat (List.length d))
  | _ => Raises (mk_exn TypeError
           ("object of type '" ++ type_name v ++ "' has no len()"))
  end.

Definition chars (s : string) : list value := map VStr (characters s).

(** The items a [for] loop (or [list.extend]) draws from [v]. *)
Definition iterate (v : value) : outcome (list value) :=
  match v with
  | VList l => Returns l
  | VStr s => Returns (chars s)
  | VDict d => Returns (map (fun kv => VStr (fst kv)) d)
  | _ => Raises (mk_exn TypeError
           ("'" ++ type_name v ++ "' object is not iterable"))
  end.

Definition is_dict (v : value) : bool :=
  match v with VDict _ => true | _ => false end.

Definition is_list (v : value) : bool :=
  match v with VList _ => true | _ => false end.

(** Sequencing of computations that may raise. *)
Definition obind {A B : Type} (m : outcome A) (k : A -> outcome B) : outcome B :=
  match m with
  | Returns a => k a
  | Raises e => Raises e
  end.

Notation "'let?' x ':=' m 'in' k" := (obind m (fun x => k))
  (at level 10, x name, m at level 100, k at level 200).

(* ================================================================== *)
(** ** The process: the outside world and the sleeps made so far *)

(** [world] is everything outside the program (tool back ends, the
    provider, the clock); [sleeps] lists the arguments of the
    [time.sleep] calls made so far, oldest first. *)
Record process (W : Type) : Type := mk_process {
  world : W;
  sleeps : list value
}.
Arguments mk_process {W} world sleeps.
Arguments world {W} p.
Arguments sleeps {W} p.

(** What the program takes from its runtime and from the outside.
    [str_of] is the builtin [str] on data values (what an f-string
    inserts); [json_loads] parses a completion or gives the decoder's
    error text; [asleep d w] is the world after [time.sleep(d)]; the two
    provider entries are the calls [chat.completions.create] (returning
    the first choice's content) and [generate_content] (returning
    [response.text]). *)
Record runtime (W : Type) : Type := mk_runtime {
  str_of : value -> string;
  json_loads : string -> string + value;
  time_time : W -> float;
  strftime_now : W -> string;
  asleep : value -> W -> W;
  openai_create :
    list (string * string) -> Z -> value -> W -> outcome (option string) * W;
  gemini_generate_content :
    string -> Z -> bool -> W -> outcome string * W
}.
Arguments mk_runtime {W} str_of json_loads time_time strftime_now asleep
  openai_create gemini_generate_content.
Arguments str_of {W} r v.
Arguments json_loads {W} r s.
Arguments time_time {W} r w.
Arguments strftime_now {W} r w.
Arguments asleep {W} r d w.
Arguments openai_create {W} r messages max_tokens response_format w.
Arguments gemini_generate_content {W} r prompt max_output_tokens json_mime w.

(** A computation on a state [S] that returns or raises. *)
Definition M (S A : Type) : Type := S -> outcome A * S.

Definition ret {S A : Type} (a : A) : M S A := fun s => (Returns a, s).

Definition raise {S A : Type} (e : exn) : M S A := fun s => (Raises e, s).

Definition bind {S A B : Type} (m : M S A) (k : A -> M S B) : M S B :=
  fun s =>
    match m s with
    | (Returns a, s') => k a s'
    | (Raises e, s') => (Raises e, s')
    end.

(** [try: m  except Exception as e: handler e]. *)
Definition try_except {S A : Type} (m : M S A) (handler : exn -> M S A) : M S A :=
  fun s =>
    match m s with
    | (Returns a, s') => (Returns a, s')
    | (Raises e, s') => handler e s'
    end.

(** A computation that cannot touch the state. *)
Definition pure_outcome {S A : Type} (o : outcome A) : M S A := fun s => (o, s).

Notation "x <- m ;; k" := (bind m (fun x => k))
  (at level 200, m at level 100, k at level 200, right associativity).

Definition new_line : string := String (ascii_of_nat 10) EmptyString.

(* ================================================================== *)
(** ** llm/llm_client.py *)

(** The fields of an [LLMClient] that [generate_completion] reads, and
    the module flag [OPENAI_AVAILABLE]. *)
Record LLMClient : Type := mk_LLMClient {
  provider : string;
  max_retries : Z;
  OPENAI_AVAILABLE : bool
}.

(** The two system prompts are long literals that no decision of the
    program reads; they are carried as data. *)
Record prompt_texts : Type := mk_prompt_texts {
  planning_system_message : string;
  verification_system_message : string
}.

Definition retryable_keywords : list string :=
  ["rate limit"; "quota"; "429"; "503"; "timeout"; "connection"].

(** [min(2 ** attempt, 60)]. *)
Definition _calculate_backoff (attempt : Z) : Z := Z.min (2 ^ attempt) 60.

(** [str(last_error)]. *)
Definition str_of_error (last_error : option exn) : string :=
  match last_error with
  | Some e => exn_msg e
  | None => "None"
  end.

(** [_log_response] slices and measures the completion: [None] has no
    length. *)
Definition _log_response (response : option string) : outcome string :=
  match response with
  | Some text => Returns text
  | None => Raises (mk_exn TypeError "object of type 'NoneType' has no len()")
  end.

Definition gemini_part (msg : string * string) : list string :=
  let (role, content) := msg in
  if String.eqb role "system" then ["Instructions: " ++ content ++ new_line]
  else if String.eqb role "user" then ["User: " ++ content ++ new_line]
  else if String.eqb role "assistant" then ["Assistant: " ++ content ++ new_line]
  else [].

Definition gemini_json_instruction : string :=
  new_line ++ new_line ++
  "IMPORTANT: You MUST respond with valid JSON only. Do not include any text before or after the JSON. Start your response with { and end with }.".

(** [response_format and response_format.get("type") == "json_object"]. *)
Definition wants_json (response_format : value) : outcome bool :=
  if truthy response_format then
    let? t := get response_format "type" VNone in Returns (eq_str t "json_object")
  else Returns false.

Section Model.

Context {W : Type}.
Variable rt : runtime W.

(** [time.sleep(d)]: the call is recorded and the world moves on. *)
Definition time_sleep (d : value) : M (process W) unit :=
  fun p =>
    let slept := (Returns tt, mk_process (asleep rt d (world p)) (sleeps p ++ [d])) in
    match d with
    | VInt z =>
        if 0 <=? z then slept
        else (Raises (mk_exn ValueError "sleep length must be non-negative"), p)
    | VBool _ => slept
    | VFloat f =>
        if PrimFloat.leb 0%float f then slept
        else if PrimFloat.eqb f f
        then (Raises (mk_exn ValueError "sleep length must be non-negative"), p)
        else (Raises (mk_exn ValueError "Invalid value NaN (not a number)"), p)
    | _ => (Raises (mk_exn TypeError
              ("'" ++ type_name d ++ "' object cannot be interpreted as an integer")), p)
    end.

(** A call that only the world answers. *)
Definition external {A : Type} (call : W -> outcome A * W) : M (process W) A :=
  fun p => let (r, w) := call (world p) in (r, mk_process w (sleeps p)).

Definition _generate_openai (messages : list (string * string)) (max_tokens : Z)
    (response_format : value) : M (process W) (option string) :=
  external (openai_create rt messages max_tokens
              (if truthy response_format then response_format else VNone)).

Definition _generate_gemini (messages : list (string * string)) (max_tokens : Z)
    (response_format : value) : M (process W) (option string) :=
  let prompt := join new_line (flat_map gemini_part messages) in
  json <- pure_outcome (wants_json response_format) ;;
  let prompt := if json then prompt ++ gemini_json_instruction else prompt in
  text <- external (gemini_generate_content rt prompt max_tokens json) ;;
  ret (Some text).

(** The body of the [try] in [generate_completion]. *)
Definition attempt_completion (c : LLMClient) (messages : list (string * string))
    (max_tokens : Z) (response_format : value) : M (process W) string :=
  completion <-
    (if String.eqb (provider c) "openai" then _generate_openai messages max_tokens response_format
     else if String.eqb (provider c) "gemini" then _generate_gemini messages max_tokens response_format
     else raise (mk_exn ValueError ("Unsupported provider: " ++ provider c))) ;;
  pure_outcome (_log_response completion).

(** The loop [for attempt in range(self.max_retries)], with [n] attempts
    left, and the statements after it. *)
Fixpoint completion_loop (c : LLMClient) (messages : list (string * string))
    (max_tokens : Z) (response_format : value)
    (n : nat) (attempt : Z) (last_error : option exn) : M (process W) string :=
  match n with
  | O =>
      raise (mk_exn PlainException
               ("Failed after " ++ str_of rt (VInt (max_retries c))
                ++ " attempts. Last error: " ++ str_of_error last_error))
  | S n' =>
      try_except (attempt_completion c messages max_tokens response_format)
        (fun e =>
           let retry :=
             _ <- time_sleep (VInt (_calculate_backoff attempt)) ;;
             completion_loop c messages max_tokens response_format
               n' (attempt + 1) (Some e) in
           let by_keyword :=
             let error_str := lower (exn_msg e) in
             let is_retryable := any_keyword_in retryable_keywords error_str in
             if is_retryable && (attempt <? max_retries c - 1) then retry
             else raise e in
           if String.eqb (provider c) "openai" && OPENAI_AVAILABLE c then
             match exn_class_of e with
             | RateLimitError => retry
             | APIConnectionError => retry
             | APIError status_code =>
                 match status_code with
                 | Some code =>
                     if (500 <=? code) && (code <? 600) then retry else raise e
                 | None => raise e
                 end
             | _ => by_keyword
             end
           else by_keyword)
  end.

(** The rest of the loop once attempt [attempt] has failed with [e]
    and is retried: the sleep, then the next turn. *)
Definition retried (c : LLMClient) (messages : list (string * string))
    (max_tokens : Z) (response_format : value)
    (n : nat) (attempt : Z) (e : exn) (p : process W) : outcome string * process W :=
  completion_loop c messages max_tokens response_format n (attempt + 1) (Some e)
    (mk_process (asleep rt (VInt (_calculate_backoff attempt)) (world p))
       (sleeps p ++ [VInt (_calculate_backoff attempt)])).

Definition generate_completion (c : LLMClient) (messages : list (string * string))
    (max_tokens : Z) (response_format : value) : M (process W) string :=
  match messages with
  | [] => raise (mk_exn ValueError "Messages list cannot be empty")
  | _ =>
      completion_loop c messages max_tokens response_format
        (Z.to_nat (max_retries c)) 0 None
  end.

Definition generate_json_completion (c : LLMClient)
    (messages : list (string * string)) (max_tokens : Z) : M (process W) value :=
  let response_format := VDict [("type", VStr "json_object")] in
  completion_text <- generate_completion c messages max_tokens response_format ;;
  match json_loads rt completion_text with
  | inr json_response => ret json_response
  | inl e => raise (mk_exn ValueError ("Failed to parse JSON response: " ++ e))
  end.

End Model.

(* ================================================================== *)
(** ** agents/planner.py *)

Definition required_fields : list string :=
  ["task_description"; "intent"; "steps"].

Definition step_required_fields : list string :=
  ["step_number"; "action"; "tool"; "parameters"; "expected_output"].

Definition valid_intents : list string :=
  ["search"; "compare"; "summarize"; "mixed"].

Definition valid_tools : list string := ["github"; "weather"; "wikipedia"].

Definition comparison_keywords : list string :=
  ["compare"; "comparison"; "vs"; "versus"; "difference between";
   "differences between"; "which is better"; "better than"; "contrast";
   " and "; " or "].

Definition _detect_comparison_intent (user_query : string) : bool :=
  let query_lower := lower user_query in
  if any_keyword_in comparison_keywords query_lower then true
  else if contains "," query_lower
          && (contains " and " query_lower || contains " or " query_lower)
       then true
       else false.

(** [for field in fields: if field not in obj: return False]: the first
    field that is missing, if any. *)
Fixpoint first_missing (fields : list string) (obj : value)
  : outcome (option string) :=
  match fields with
  | [] => Returns None
  | field :: rest =>
      let? present := str_in field obj in
      if present then first_missing rest obj else Returns (Some field)
  end.

(** The check of lines 331-335: the step at index [i] carries [i + 1]. *)
Definition step_number_matches (i : Z) (step : value) : outcome bool :=
  let expected_step_num := i + 1 in
  let? actual_step_num := get step "step_number" VNone in
  Returns (eq_int actual_step_num expected_step_num).

(** One turn of [for i, step in enumerate(steps)]; [false] is the early
    [return False]. *)
Definition validate_step (i : Z) (step : value) : outcome bool :=
  let? missing := first_missing step_required_fields step in
  match missing with
  | Some _ => Returns false
  | None =>
      let? sequential := step_number_matches i step in
      if negb sequential then Returns false
      else
        let? tool := get step "tool" VNone in
        if negb (in_strings tool valid_tools) then Returns false
        else
          let? parameters := get step "parameters" VNone in
          if negb (is_dict parameters) then Returns false
          else Returns true
  end.

Fixpoint validate_steps (i : Z) (steps : list value) : outcome bool :=
  match steps with
  | [] => Returns true
  | step :: rest =>
      let? ok := validate_step i step in
      if ok then validate_steps (i + 1) rest else Returns false
  end.

(** The body of the [try] in [_validate_plan]. *)
Definition validate_plan_body (plan : value) : outcome bool :=
  let? missing := first_missing required_fields plan in
  match missing with
  | Some _ => Returns false
  | None =>
      let? intent := get plan "intent" VNone in
      if negb (in_strings intent valid_intents) then Returns false
      else
        let? steps := get plan "steps" (VList []) in
        if negb (truthy steps) || negb (is_list steps) then Returns false
        else
          let? items := iterate steps in
          let? ok := validate_steps 0 items in
          if negb ok then Returns false
          else
            (* comparison_mode without entities only logs a warning *)
            let? comparison_mode := get plan "comparison_mode" (VBool false) in
            let? _ := (if truthy comparison_mode
                       then get plan "entities" (VList [])
                       else Returns VNone) in
            Returns true
  end.

Definition _validate_plan (plan : value) : bool :=
  match validate_plan_body plan with
  | Returns ok => ok
  | Raises _ => false
  end.

Section Planner.

Context {W : Type}.
Variable rt : runtime W.
Variable texts : prompt_texts.
Variable llm_client : LLMClient.

Definition _build_planning_prompt (user_query : string) : list (string * string) :=
  let system_message := planning_system_message texts in
  let user_message := "Create an execution plan for this query: " ++ user_query in
  [("system", system_message); ("user", user_message)].

(** The two log lines after a successful validation measure and print
    a plan that is a dict with a list of steps, which cannot raise. *)
Definition create_plan (user_query : string) : M (process W) value :=
  if String.eqb user_query "" || String.eqb (strip user_query) "" then
    raise (mk_exn ValueError "User query cannot be empty")
  else
    let user_query := strip user_query in
    let is_comparison := _detect_comparison_intent user_query in
    let messages := _build_planning_prompt user_query in
    try_except
      (plan <- generate_json_completion rt llm_client messages 2000 ;;
       if negb (_validate_plan plan) then
         raise (mk_exn ValueError "Generated plan failed validation")
       else ret plan)
      (fun e => raise e).

End Planner.

(* ================================================================== *)
(** ** agents/executor.py *)

(** The dict a step leaves in [results]. *)
Record StepResult : Type := mk_StepResult {
  step_number : value;
  status : string;
  data : value;
  error : option string;
  execution_time : float
}.

(** The dict [execute_plan] returns. *)
Record ExecutionResult : Type := mk_ExecutionResult {
  success : bool;
  steps_completed : Z;
  steps_failed : Z;
  results : list StepResult;
  execution_log : list string
}.

(** A tool instance: a method name and keyword arguments, answered by
    the world. *)
Definition tool (W : Type) : Type :=
  string -> list (string * value) -> W -> outcome value * W.

(** The executor while it runs: the process and [self.execution_log]. *)
Record executor_state (W : Type) : Type := mk_executor_state {
  proc : process W;
  self_execution_log : list string
}.
Arguments mk_executor_state {W} proc self_execution_log.
Arguments proc {W} e.
Arguments self_execution_log {W} e.

Definition transient_keywords : list string :=
  ["timeout"; "rate limit"; "429"; "503"; "502"; "connection"; "network"].

(** [str(e).lower()] names one of the transient keywords. *)
Definition is_transient (e : exn) : bool :=
  any_keyword_in transient_keywords (lower (exn_msg e)).

(** An optional string as an f-string prints it. *)
Definition str_of_optional (o : option string) : string :=
  match o with
  | Some text => text
  | None => "None"
  end.

Section Executor.

Context {W : Type}.
Variable rt : runtime W.
Variable tools : list (string * tool W).

(** The loop [for attempt in range(max_retries + 1)], with [n] attempts
    left, and the statements after it. *)
Fixpoint retry_loop (func : M (process W) value) (max_retries : Z)
    (backoff_factor : float) (n : nat) (attempt : Z) (delay : float)
    (last_exception : option exn) : M (process W) value :=
  match n with
  | O =>
      match last_exception with
      | Some e => raise e
      | None => raise (mk_exn PlainException "Function failed with unknown error")
      end
  | S n' =>
      try_except func
        (fun e =>
           if negb (is_transient e) || (max_retries <=? attempt) then raise e
           else
             _ <- time_sleep rt (VFloat delay) ;;
             retry_loop func max_retries backoff_factor n' (attempt + 1)
               (PrimFloat.mul delay backoff_factor) (Some e))
  end.

Definition _retry_with_backoff (func : M (process W) value) (max_retries : Z)
    (initial_delay backoff_factor : float) : M (process W) value :=
  retry_loop func max_retries backoff_factor
    (Z.to_nat (max_retries + 1)) 0 initial_delay None.

Definition _call_tool_method (t : tool W) (tool_name : string)
    (parameters : value) : M (process W) value :=
  let has key := pure_outcome (str_in key parameters) in
  let item key := pure_outcome (getitem parameters key) in
  let option_or key default := pure_outcome (get parameters key default) in
  if String.eqb tool_name "github" then
    present <- has "query" ;;
    if present then
      query <- item "query" ;;
      sort <- option_or "sort" (VStr "stars") ;;
      limit <- option_or "limit" (VInt 5) ;;
      external (t "search_repositories"
                  [("query", query); ("sort", sort); ("limit", limit)])
    else raise (mk_exn ValueError "GitHub tool requires 'query' parameter")
  else if String.eqb tool_name "weather" then
    single <- has "city" ;;
    if single then
      city <- item "city" ;;
      units <- option_or "units" (VStr "metric") ;;
      external (t "get_current_weather" [("city", city); ("units", units)])
    else
      several <- has "cities" ;;
      if several then
        cities <- item "cities" ;;
        units <- option_or "units" (VStr "metric") ;;
        external (t "compare_weather" [("cities", cities); ("units", units)])
      else raise (mk_exn ValueError
                    "Weather tool requires 'city' or 'cities' parameter")
  else if String.eqb tool_name "wikipedia" then
    summary <- has "topic" ;;
    if summary then
      topic <- item "topic" ;;
      sentences <- option_or "sentences" (VInt 3) ;;
      external (t "get_summary" [("topic", topic); ("sentences", sentences)])
    else
      search <- has "query" ;;
      if search then
        query <- item "query" ;;
        limit <- option_or "limit" (VInt 5) ;;
        external (t "search_articles" [("query", query); ("limit", limit)])
      else
        several <- has "topics" ;;
        if several then
          topics <- item "topics" ;;
          external (t "compare_topics" [("topics", topics)])
        else raise (mk_exn ValueError
                      "Wikipedia tool requires 'topic', 'query', or 'topics' parameter")
  else raise (mk_exn ValueError ("Unknown tool: " ++ tool_name)).

Fixpoint find_tool (name : string) (ts : list (string * tool W)) : option (tool W) :=
  match ts with
  | [] => None
  | (k, t) :: ts' => if String.eqb k name then Some t else find_tool name ts'
  end.

(** [self.tools[tool_name]] behind [tool_name not in self.tools]: the
    key is hashed first, and a list or a dict has no hash. *)
Definition lookup_tool (tool_name : value) : outcome (option (string * tool W)) :=
  match tool_name with
  | VStr name =>
      Returns (match find_tool name tools with
               | Some t => Some (name, t)
               | None => None
               end)
  | VList _ | VDict _ =>
      Raises (mk_exn TypeError ("unhashable type: '" ++ type_name tool_name ++ "'"))
  | _ => Returns None
  end.

Definition now : M (process W) float :=
  fun p => (Returns (time_time rt (world p)), p).

Definition _execute_step (step : value) : M (process W) StepResult :=
  step_number <- pure_outcome (get step "step_number" (VInt 0)) ;;
  tool_name <- pure_outcome (get step "tool" (VStr "")) ;;
  parameters <- pure_outcome (get step "parameters" (VDict [])) ;;
  found <- pure_outcome (lookup_tool tool_name) ;;
  match found with
  | None =>
      let error_msg :=
        "Tool '" ++ str_of rt tool_name ++ "' not found in available tools" in
      ret (mk_StepResult step_number "failed" VNone (Some error_msg) 0%float)
  | Some (name, t) =>
      start_time <- now ;;
      try_except
        (result_data <-
           _retry_with_backoff (_call_tool_method t name parameters)
             3 1.0%float 2.0%float ;;
         end_time <- now ;;
         let execution_time := PrimFloat.sub end_time start_time in
         ret (mk_StepResult step_number "success" result_data None execution_time))
        (fun e =>
           end_time <- now ;;
           let execution_time := PrimFloat.sub end_time start_time in
           let error_msg := exn_msg e in
           ret (mk_StepResult step_number "failed" VNone (Some error_msg)
                  execution_time))
  end.

Definition _summarize_result (result : value) : string :=
  match result with
  | VNone => "No data"
  | VList l =>
      "Retrieved " ++ str_of rt (VInt (Z.of_nat (List.length l))) ++ " items"
  | VDict d =>
      let field key :=
        str_of rt (match lookup key d with Some v => v | None => VStr "unknown" end) in
      match lookup "city" d, lookup "name" d, lookup "title" d with
      | Some _, _, _ => "Weather data for " ++ field "city"
      | None, Some _, _ => "Data for " ++ field "name"
      | None, None, Some _ => "Article: " ++ field "title"
      | None, None, None =>
          "Dictionary with " ++ str_of rt (VInt (Z.of_nat (List.length d)))
          ++ " fields"
      end
  | _ => "Data: " ++ substring 0 50 (str_of rt result)
  end.

(** [_log_execution] appends one line to [self.execution_log]; it has
    no way to raise. *)
Definition _log_execution (step_number : value) (status : string)
    (result : value) (error : option string) : M (executor_state W) unit :=
  fun st =>
    let timestamp := strftime_now rt (world (proc st)) in
    let log_entry :=
      if String.eqb status "success" then
        "[" ++ timestamp ++ "] Step " ++ str_of rt step_number
        ++ ": SUCCESS - " ++ _summarize_result result
      else
        "[" ++ timestamp ++ "] Step " ++ str_of rt step_number
        ++ ": FAILED - " ++ str_of_optional error in
    (Returns tt, mk_executor_state (proc st) (self_execution_log st ++ [log_entry])).

(** A computation of the process, run inside the executor. *)
Definition in_process {A : Type} (m : M (process W) A) : M (executor_state W) A :=
  fun st => let (r, p) := m (proc st) in (r, mk_executor_state p (self_execution_log st)).

(** The counters and the list that the loop of [execute_plan] updates. *)
Record tally : Type := mk_tally {
  completed : Z;
  failed : Z;
  collected : list StepResult
}.

(** One turn of [for step in plan["steps"]].  [step.get] stands before
    the [try]; inside it only [_execute_step] can raise, and it does so
    before a counter is touched. *)
Definition run_step (step : value) (t : tally) : M (executor_state W) tally :=
  step_number <- pure_outcome (get step "step_number" (VInt 0)) ;;
  try_except
    (step_result <- in_process (_execute_step step) ;;
     if String.eqb (status step_result) "success" then
       _ <- _log_execution step_number "success" (data step_result) None ;;
       ret (mk_tally (completed t + 1) (failed t) (collected t ++ [step_result]))
     else
       _ <- _log_execution step_number "failed" VNone (error step_result) ;;
       ret (mk_tally (completed t) (failed t + 1) (collected t ++ [step_result])))
    (fun e =>
       let error_result :=
         mk_StepResult step_number "failed" VNone
           (Some ("Unexpected error: " ++ exn_msg e)) 0%float in
       _ <- _log_execution step_number "failed" VNone
              (Some ("Unexpected error: " ++ exn_msg e)) ;;
       ret (mk_tally (completed t) (failed t + 1) (collected t ++ [error_result]))).

Fixpoint run_steps (steps : list value) (t : tally) : M (executor_state W) tally :=
  match steps with
  | [] => ret t
  | step :: rest => t' <- run_step step t ;; run_steps rest t'
  end.

Definition execute_plan (plan : value) : M (executor_state W) ExecutionResult :=
  if negb (truthy plan) || negb (is_dict plan) then
    raise (mk_exn ValueError "Plan must be a non-empty dictionary")
  else
    has_steps <- pure_outcome (str_in "steps" plan) ;;
    if negb has_steps then
      raise (mk_exn ValueError "Plan must contain at least one step")
    else
      plan_steps <- pure_outcome (getitem plan "steps") ;;
      if negb (truthy plan_steps) then
        raise (mk_exn ValueError "Plan must contain at least one step")
      else
        (* the second log line measures the steps *)
        _ <- pure_outcome (len plan_steps) ;;
        _ <- (fun st => (Returns tt, mk_executor_state (proc st) [])) ;;
        steps <- pure_outcome (iterate plan_steps) ;;
        t <- run_steps steps (mk_tally 0 0 []) ;;
        let overall_success := 0 <? completed t in
        fun st =>
          (Returns (mk_ExecutionResult overall_success (completed t) (failed t)
                      (collected t) (self_execution_log st)), st).

End Executor.

(* ================================================================== *)
(** ** agents/verifier.py *)

(** The dict [verify_results] returns.  What the model answers is kept
    as it came, so four fields are plain values. *)
Record VerificationResult : Type := mk_VerificationResult {
  is_complete : bool;
  is_correct : bool;
  confidence_score : value;
  issues : list value;
  formatted_output : value;
  summary : value;
  recommendations : value
}.

(** A step result as the dict it is, for printing. *)
Definition StepResult_value (r : StepResult) : value :=
  VDict [("step_number", step_number r);
         ("status", VStr (status r));
         ("data", data r);
         ("error", match error r with Some text => VStr text | None => VNone end);
         ("execution_time", VFloat (execution_time r))].

Section Verifier.

Context {W : Type}.
Variable rt : runtime W.
Variable texts : prompt_texts.
Variable llm_client : LLMClient.

(** [len(plan.get("steps", []))]. *)
Definition expected_steps_of (plan : value) : outcome Z :=
  let? steps := get plan "steps" (VList []) in len steps.

Definition _check_completeness (plan : value) (execution_result : ExecutionResult)
  : outcome bool :=
  let? expected_steps := expected_steps_of plan in
  let completed_steps := steps_completed execution_result in
  Returns (completed_steps =? expected_steps).

(** What one turn of the loop of [_check_for_anomalies] appends. *)
Definition anomalies_of (result : StepResult) : outcome (list string) :=
  if negb (String.eqb (status result) "success") then Returns []
  else
    let data := data result in
    if negb (truthy data) then Returns []
    else
      let? weather :=
        match data with
        | VDict d =>
            match lookup "temperature" d with
            | Some temp =>
                match temp with
                | VNone => Returns []
                | _ =>
                    let? low := lt_int temp (-100) in
                    let? unusual := (if low then Returns true else gt_int temp 60) in
                    if unusual
                    then Returns ["Unusual temperature value: " ++ str_of rt temp ++ "°C"]
                    else Returns []
                end
            | None => Returns []
            end
        | _ => Returns []
        end in
      let empty :=
        match data with
        | VList [] => ["Empty result set returned"]
        | _ => []
        end in
      Returns (List.app weather empty).

Fixpoint scan_results (rs : list StepResult) (anomalies : list string)
  : outcome (list string) :=
  match rs with
  | [] => Returns anomalies
  | result :: rest =>
      let? found := anomalies_of result in
      scan_results rest (anomalies ++ found)
  end.

Definition _check_for_anomalies (execution_result : ExecutionResult)
  : outcome (list string) :=
  scan_results (results execution_result) [].

Definition _build_verification_prompt (plan : value)
    (execution_result : ExecutionResult) : outcome (list (string * string)) :=
  let system_message := verification_system_message texts in
  let? task := get plan "task_description" (VStr "No description") in
  let? steps := expected_steps_of plan in
  let? comparison_mode := get plan "comparison_mode" (VBool false) in
  let plan_summary :=
    VDict [("task", task); ("steps", VInt steps);
           ("comparison_mode", comparison_mode)] in
  let result_summary :=
    VDict [("success", VBool (success execution_result));
           ("steps_completed", VInt (steps_completed execution_result));
           ("steps_failed", VInt (steps_failed execution_result));
           ("results", VList (map StepResult_value (results execution_result)))] in
  let user_message :=
    "Please verify these execution results:" ++ new_line ++ new_line
    ++ "PLAN:" ++ new_line ++ str_of rt plan_summary ++ new_line ++ new_line
    ++ "EXECUTION RESULTS:" ++ new_line ++ str_of rt result_summary
    ++ new_line ++ new_line ++ "Provide your verification in JSON format." in
  Returns [("system", system_message); ("user", user_message)].

Definition _verify_with_llm (plan : value) (execution_result : ExecutionResult)
  : M (process W) value :=
  messages <- pure_outcome (_build_verification_prompt plan execution_result) ;;
  generate_json_completion rt llm_client messages 1500.

Definition _format_item (item : value) : value :=
  match item with
  | VDict d =>
      match lookup "name" d, lookup "title" d, lookup "city" d with
      | Some name, _, _ => name
      | None, Some title, _ => title
      | None, None, Some city =>
          let temperature :=
            match lookup "temperature" d with Some t => t | None => VStr "N/A" end in
          VStr (str_of rt city ++ " (" ++ str_of rt temperature ++ "°C)")
      | None, None, None =>
          VStr ("Dict with " ++ str_of rt (VInt (Z.of_nat (List.length d)))
                ++ " fields")
      end
  | _ => VStr (str_of rt item)
  end.

Definition _format_data (data : value) : value :=
  match data with
  | VList l =>
      let n := str_of rt (VInt (Z.of_nat (List.length l))) in
      if Nat.eqb (List.length l) 0 then VStr "Empty list"
      else if Nat.leb (List.length l) 3 then
        VStr (n ++ " items: " ++ str_of rt (VList (map _format_item l)))
      else
        VStr (n ++ " items (showing first 3): "
              ++ str_of rt (VList (map _format_item (firstn 3 l))))
  | VDict _ => _format_item data
  | _ => VStr (str_of rt data)
  end.

(** The lines [_format_for_display] adds for one result. *)
Definition display_result (result : StepResult) : list string :=
  let step_num := step_number result in
  let status := status result in
  let heading := "Step " ++ str_of rt step_num ++ ": " ++ upper status in
  let detail :=
    if String.eqb status "success" then
      let data := data result in
      if truthy data then ["  Data: " ++ str_of rt (_format_data data)] else []
    else
      ["  Error: " ++ str_of_optional (error result)] in
  heading :: List.app detail [""].

Definition _format_for_display (execution_result : ExecutionResult) : string :=
  let rule := repeat_string "=" 60 in
  let overall :=
    if success execution_result
    then "✓ Overall Status: SUCCESS"
    else "✗ Overall Status: FAILED" in
  let lines :=
    List.app
      [rule; "EXECUTION RESULTS"; rule; overall;
       "Steps Completed: " ++ str_of rt (VInt (steps_completed execution_result));
       "Steps Failed: " ++ str_of rt (VInt (steps_failed execution_result));
       ""]
      (List.app (flat_map display_result (results execution_result)) [rule]) in
  join new_line lines.

(** Lines 70-96 of [verify_results]: the guards, completeness, and the
    issues found without the model.  An [ExecutionResult] is a dict with
    five keys, so the guard on [execution_result] lets it through. *)
Definition collect_issues (plan : value) (execution_result : ExecutionResult)
  : outcome (bool * list value) :=
  if negb (truthy plan) || negb (is_dict plan) then
    Raises (mk_exn ValueError "Plan must be a non-empty dictionary")
  else
    let? is_complete := _check_completeness plan execution_result in
    let issues : list value := [] in
    let issues : list value :=
      if 0 <? steps_failed execution_result then
        List.app issues
          [VStr (str_of rt (VInt (steps_failed execution_result))
                 ++ " step(s) failed during execution")]
      else issues in
    let? issues :=
      (if negb is_complete then
         let? expected_steps := expected_steps_of plan in
         let completed_steps := steps_completed execution_result in
         Returns (List.app issues
                    [VStr ("Only " ++ str_of rt (VInt completed_steps)
                           ++ " of " ++ str_of rt (VInt expected_steps)
                           ++ " steps completed successfully")])
       else Returns issues) in
    let? anomalies := _check_for_anomalies execution_result in
    Returns (is_complete, List.app issues (map VStr anomalies)).

(** What the [try] of [verify_results] computes: the four presentation
    fields and the issues after the model's were added. *)
Record quality : Type := mk_quality {
  q_formatted_output : value;
  q_summary : value;
  q_recommendations : value;
  q_confidence_score : value;
  q_issues : list value
}.

Definition quality_pass (plan : value) (execution_result : ExecutionResult)
    (issues : list value) : M (process W) quality :=
  try_except
    (llm_verification <- _verify_with_llm plan execution_result ;;
     formatted_output <- pure_outcome (get llm_verification "formatted_output" (VStr "")) ;;
     summary <- pure_outcome (get llm_verification "summary" (VStr "")) ;;
     recommendations <- pure_outcome (get llm_verification "recommendations" (VList [])) ;;
     confidence_score <- pure_outcome (get llm_verification "confidence_score" (VFloat 0.5)) ;;
     llm_issues <- pure_outcome (get llm_verification "issues" (VList [])) ;;
     more <- pure_outcome (iterate llm_issues) ;;
     ret (mk_quality formatted_output summary recommendations confidence_score
            (issues ++ more)))
    (fun e =>
       let formatted_output := VStr (_format_for_display execution_result) in
       let summary :=
         VStr "Verification completed with basic formatting (LLM unavailable)" in
       let recommendations := VList [] in
       let confidence_score := VFloat 0.5 in
       ret (mk_quality formatted_output summary recommendations confidence_score
              issues)).

Definition verify_results (plan : value) (execution_result : ExecutionResult)
  : M (process W) VerificationResult :=
  checked <- pure_outcome (collect_issues plan execution_result) ;;
  let (is_complete, issues) := checked in
  q <- quality_pass plan execution_result issues ;;
  let issues := q_issues q in
  let is_correct :=
    match issues with [] => true | _ => false end && success execution_result in
  ret (mk_VerificationResult is_complete is_correct (q_confidence_score q) issues
         (q_formatted_output q) (q_summary q) (q_recommendations q)).

End Verifier.

(* ================================================================== *)
(** ** The properties, in the specification's words *)

(** The keyword set the specification lists for the comparison flag. *)
Definition listed_comparison_keywords : list string :=
  ["compare"; "vs"; "versus"; "difference between"; "which is better";
   "better than"; "contrast"].

(** The comparison flag as the specification states it: a listed keyword,
    or a comma together with a conjunction. *)
Definition stated_comparison_flag (query : string) : bool :=
  any_keyword_in listed_comparison_keywords query
  || (contains "," query && (contains " and " query || contains " or " query)).

(** The steps carry the numbers [n], [n + 1], ... in order. *)
Fixpoint numbered_from (n : Z) (steps : list value) : bool :=
  match steps with
  | [] => true
  | step :: rest =>
      match step with
      | VDict fields =>
          match lookup "step_number" fields with
          | Some v => eq_int v n
          | None => false
          end
      | _ => false
      end && numbered_from (n + 1) rest
  end.

(** The integers [n], [n + 1], ..., [count] of them. *)
Fixpoint run_from (n : Z) (count : nat) : list Z :=
  match count with
  | O => []
  | S k => n :: run_from (n + 1) k
  end.

(** The step numbers of the steps, when every step is a dict whose
    [step_number] is an [int]. *)
Fixpoint int_step_numbers (steps : list value) : option (list Z) :=
  match steps with
  | [] => Some []
  | VDict fields :: rest =>
      match lookup "step_number" fields, int_step_numbers rest with
      | Some (VInt z), Some zs => Some (z :: zs)
      | _, _ => None
      end
  | _ :: _ => None
  end.

(** The step numbers of a plan are exactly the run 1..N.  Numbers are
    compared as Python's [==] compares them; on [int] step numbers this
    is equality with the list [1; 2; ...; N]. *)
Definition has_sequential_numbers (plan : value) : bool :=
  match plan with
  | VDict fields =>
      match lookup "steps" fields with
      | Some (VList steps) => numbered_from 1 steps
      | _ => false
      end
  | _ => false
  end.

Definition has_key (fields : list (string * value)) (key : string) : bool :=
  match lookup key fields with Some _ => true | None => false end.

(** Everything [_validate_plan] asks of a step, its number apart. *)
Definition step_otherwise_valid (step : value) : bool :=
  match step with
  | VDict fields =>
      forallb (has_key fields) step_required_fields
      && match lookup "tool" fields with
         | Some t => in_strings t valid_tools
         | None => false
         end
      && match lookup "parameters" fields with
         | Some ps => is_dict ps
         | None => false
         end
  | _ => false
  end.

(** Everything [_validate_plan] asks of a plan, the step numbers apart. *)
Definition plan_otherwise_valid (plan : value) : bool :=
  match plan with
  | VDict fields =>
      forallb (has_key fields) required_fields
      && match lookup "intent" fields with
         | Some i => in_strings i valid_intents
         | None => false
         end
      && match lookup "steps" fields with
         | Some (VList (step :: rest)) => forallb step_otherwise_valid (step :: rest)
         | _ => false
         end
  | _ => false
  end.

(** [plan["steps"]], as the loop of [execute_plan] walks it. *)
Definition plan_steps (plan : value) : outcome (list value) :=
  let? steps := getitem plan "steps" in iterate steps.

(** [len(plan["steps"])]. *)
Definition plan_length (plan : value) : outcome Z :=
  let? steps := getitem plan "steps" in len steps.

(** How many of the results carry the status [s]. *)
Fixpoint count_status (s : string) (rs : list StepResult) : Z :=
  match rs with
  | [] => 0
  | r :: rest => (if String.eqb (status r) s then 1 else 0) + count_status s rest
  end.

(** [step.get("step_number", 0)] of a step of the plan. *)
Definition step_number_of (step : value) : value :=
  match step with
  | VDict fields =>
      match lookup "step_number" fields with Some v => v | None => VInt 0 end
  | _ => VInt 0
  end.

(** The errors the OpenAI branch of [generate_completion] always retries. *)
Definition is_provider_transient (e : exn) : bool :=
  match exn_class_of e with
  | RateLimitError | APIConnectionError => true
  | APIError (Some code) => (500 <=? code) && (code <? 600)
  | _ => false
  end.

(** An error that reaches the keyword test of [generate_completion] and
    passes it. *)
Definition is_keyword_retryable (c : LLMClient) (e : exn) : bool :=
  any_keyword_in retryable_keywords (lower (exn_msg e))
  && negb (String.eqb (provider c) "openai" && OPENAI_AVAILABLE c
           && match exn_class_of e with
              | RateLimitError | APIConnectionError | APIError _ => true
              | _ => false
              end).

(** The waits [_calculate_backoff 0], ..., one per attempt index. *)
Definition backoff_waits (first : nat) (count : nat) : list value :=
  map (fun i => VInt (_calculate_backoff (Z.of_nat i))) (seq first count).

(** The issue that the anomaly scan words for an empty list. *)
Definition empty_set_message : string := "Empty result set returned".

(** The summary the specification gives for the fallback path. *)
Definition stated_fallback_summary : string :=
  "Verification completed with basic formatting".

(* ================================================================== *)
(** ** A small world to run the model in

    The world is the number of calls the outside has answered.  Nothing
    here is part of the program: it is the stub that the examples at the
    end of the file run against. *)

(** A stand-in for [str]: exact on [None], booleans, integers and
    strings, schematic on the rest. *)
Fixpoint plain_str (v : value) : string :=
  match v with
  | VNone => "None"
  | VBool true => "True"
  | VBool false => "False"
  | VInt z => NilZero.string_of_int (Z.to_int z)
  | VFloat _ => "<float>"
  | VStr s => s
  | VList l => "[" ++ join ", " (map plain_str l) ++ "]"
  | VDict d =>
      "{" ++ join ", " (map (fun kv => fst kv ++ ": " ++ plain_str (snd kv)) d) ++ "}"
  end.

(** A runtime whose provider answers call number [n] with [reply n], and
    whose JSON decoder always gives [parsed]. *)
Definition scripted_runtime (reply : nat -> outcome string)
    (parsed : string + value) : runtime nat :=
  mk_runtime plain_str (fun _ => parsed) (fun _ => 0%float)
    (fun _ => "2024-01-01 00:00:00") (fun _ w => w)
    (fun _ _ _ n =>
       (match reply n with
        | Returns text => Returns (Some text)
        | Raises e => Raises e
        end, S n))
    (fun _ _ _ n => (reply n, S n)).

Definition rate_limited : exn := mk_exn RateLimitError "Rate limit exceeded".

Definition unavailable : exn := mk_exn PlainException "503 Service Unavailable".

Definition connection_timeout : exn := mk_exn PlainException "Connection timeout".

Definition not_found : exn := mk_exn PlainException "City not found".

(** A provider that is down, and a decoder that is never reached. *)
Definition offline_runtime (e : exn) : runtime nat :=
  scripted_runtime (fun _ => Raises e) (inl "Expecting value").

Definition openai_client : LLMClient := mk_LLMClient "openai" 3 true.

Definition gemini_client : LLMClient := mk_LLMClient "gemini" 3 true.

Definition no_texts : prompt_texts := mk_prompt_texts "" "".

Definition paris_weather : value :=
  VDict [("city", VStr "Paris"); ("temperature", VInt 18)].

(** A tool call that fails with [e] until [failures] calls were made. *)
Definition flaky (e : exn) (failures : nat) : nat -> outcome value * nat :=
  fun n => if Nat.ltb n failures then (Raises e, S n) else (Returns paris_weather, S n).

Definition weather_tools (e : exn) (failures : nat) : list (string * tool nat) :=
  [("weather", fun _ _ => flaky e failures)].

Definition weather_step (n : Z) (city : string) : value :=
  VDict [("step_number", VInt n);
         ("action", VStr "Get current weather");
         ("tool", VStr "weather");
         ("parameters", VDict [("city", VStr city); ("units", VStr "metric")]);
         ("expected_output", VStr "Current weather")].

Definition plan_fields (steps : list value) : list (string * value) :=
  [("task_description", VStr "Weather lookup");
   ("intent", VStr "search");
   ("steps", VList steps)].

Definition plan_of (steps : list value) : value := VDict (plan_fields steps).

Definition start : process nat := mk_process O [].

Definition fresh : executor_state nat := mk_executor_state start [].

(** Three steps: a weather lookup, a step whose tool is not a name at
    all, and a step that names a tool nobody registered. *)
Definition mixed_steps : list value :=
  [weather_step 1 "Paris";
   VDict [("step_number", VInt 2); ("tool", VList [])];
   VDict [("step_number", VInt 3); ("tool", VStr "calendar")]].

Definition mixed_plan : value := plan_of mixed_steps.

(** Plans whose step numbers are 1,3 and 2,1 and 1,1 and 1,2. *)
Definition gap_plan : value :=
  plan_of [weather_step 1 "Paris"; weather_step 3 "Rome"].

Definition swapped_plan : value :=
  plan_of [weather_step 2 "Paris"; weather_step 1 "Rome"].

Definition repeated_plan : value :=
  plan_of [weather_step 1 "Paris"; weather_step 1 "Rome"].

Definition sequential_plan : value :=
  plan_of [weather_step 1 "Paris"; weather_step 2 "Rome"].

(** A provider whose reply always decodes to [plan]. *)
Definition replying_runtime (plan : value) : runtime nat :=
  scripted_runtime (fun _ => Returns "{}") (inr plan).

(** One successful weather step. *)
Definition paris_execution : ExecutionResult :=
  mk_ExecutionResult true 1 0
    [mk_StepResult (VInt 1) "success" paris_weather None 0%float]
    ["[2024-01-01 00:00:00] Step 1: SUCCESS - Weather data for Paris"].

Definition paris_plan : value := plan_of [weather_step 1 "Paris"].

(** What the OpenAI client raises once the provider has refused three
    times. *)
Definition gave_up : exn :=
  mk_exn PlainException "Failed after 3 attempts. Last error: Rate limit exceeded".

(** One successful step whose tool returned an empty list. *)
Definition empty_list_execution : ExecutionResult :=
  mk_ExecutionResult true 1 0
    [mk_StepResult (VInt 1) "success" (VList []) None 0%float] [].

(* ================================================================== *)
(** ** Further readings of the code, used by the properties *)

(** What the [except] clause of [generate_completion] decides for the
    error [e] caught at attempt [attempt]: [true] is sleep and
    [continue], [false] is [raise]. *)
Definition will_retry (c : LLMClient) (attempt : Z) (e : exn) : bool :=
  let by_keyword :=
    any_keyword_in retryable_keywords (lower (exn_msg e))
    && (attempt <? max_retries c - 1) in
  if String.eqb (provider c) "openai" && OPENAI_AVAILABLE c then
    match exn_class_of e with
    | RateLimitError | APIConnectionError => true
    | APIError (Some code) => (500 <=? code) && (code <? 600)
    | APIError None => false
    | _ => by_keyword
    end
  else by_keyword.

(** The delays [d], [d * factor], [d * factor * factor], ..., [count]
    of them, as [_retry_with_backoff] computes them. *)
Fixpoint delays (d factor : float) (count : nat) : list float :=
  match count with
  | O => []
  | S k => d :: delays (PrimFloat.mul d factor) factor k
  end.

(** A step result is a success without an error, or a failure without
    data and with an error text. *)
Definition well_shaped (r : StepResult) : bool :=
  (String.eqb (status r) "success"
   && match error r with None => true | Some _ => false end)
  || (String.eqb (status r) "failed"
      && match data r with VNone => true | _ => false end
      && match error r with Some _ => true | None => false end).

(** The temperature of a result that the anomaly scan looks at: the
    result succeeded, its data is a non-empty dict, and the dict has an
    integer under "temperature". *)
Definition scanned_temperature (r : StepResult) : option Z :=
  if String.eqb (status r) "success" then
    match data r with
    | VDict d =>
        match lookup "temperature" d with
        | Some (VInt t) => Some t
        | _ => None
        end
    | _ => None
    end
  else None.

(** Nothing for the anomaly scan to read in [r]: the step failed, or its
    data is not a dict with a temperature, or the temperature is [None]
    or an integer between -100 and 60. *)
Definition unremarkable (r : StepResult) : bool :=
  negb (String.eqb (status r) "success")
  || match data r with
     | VDict d =>
         match lookup "temperature" d with
         | None | Some VNone => true
         | Some (VInt t) => (-100 <=? t) && (t <=? 60)
         | Some _ => false
         end
     | _ => true
     end.

(** The text the scan reports for the temperature [t]. *)
Definition unusual_temperature {W : Type} (rt : runtime W) (t : Z) : string :=
  "Unusual temperature value: " ++ str_of rt (VInt t) ++ "°C".

(** [d.get(key, default)] on the fields of a dict. *)
Definition or_default (ps : list (string * value)) (key : string) (default : value)
  : value :=
  match lookup key ps with Some v => v | None => default end.

(** A provider that raises [e] on its first [failures] calls and
    answers [text] from then on; the decoder gives [parsed]. *)
Definition recovering_runtime (failures : nat) (e : exn) (text : string)
    (parsed : string + value) : runtime nat :=
  scripted_runtime
    (fun n => if Nat.ltb n failures then Raises e else Returns text) parsed.

Definition bad_request : exn := mk_exn (APIError (Some 400)) "Bad request".

Definition idle_client : LLMClient := mk_LLMClient "openai" 0 true.

Definition hello : list (string * string) := [("user", "hello")].

(** What [verify_results] returns when the [try] around the model call
    has failed. *)
Definition fallback_result {W : Type} (rt : runtime W) (complete : bool)
    (found : list value) (execution_result : ExecutionResult) : VerificationResult :=
  mk_VerificationResult complete
    (match found with [] => true | _ => false end && success execution_result)
    (VFloat 0.5) found
    (VStr (_format_for_display rt execution_result))
    (VStr "Verification completed with basic formatting (LLM unavailable)")
    (VList []).

(** A tool that answers every operation with its name and arguments. *)
Definition echo : tool nat :=
  fun method kwargs n => (Returns (VList [VStr method; VDict kwargs]), S n).

(** Parameters that name a city and a list of cities at once. *)
Definition city_and_cities : list (string * value) :=
  [("cities", VList [VStr "Rome"; VStr "Oslo"]); ("city", VStr "Paris")].

(** A weather step whose parameters name no city. *)
Definition cityless_step : list (string * value) :=
  [("step_number", VInt 1);
   ("tool", VStr "weather");
   ("parameters", VDict [("units", VStr "metric")])].

(** A step for a tool nobody registered, and one whose tool is a list. *)
Definition calendar_step : list (string * value) :=
  [("step_number", VInt 3); ("tool", VStr "calendar")].

Definition listed_tool_step : list (string * value) :=
  [("step_number", VInt 2); ("tool", VList [])].

(** One successful weather step that reports 75 degrees. *)
Definition heatwave : StepResult :=
  mk_StepResult (VInt 1) "success"
    (VDict [("city", VStr "Paris"); ("temperature", VInt 75)]) None 0%float.

Definition heatwave_execution : ExecutionResult :=
  mk_ExecutionResult true 1 0 [heatwave] [].

(** A reply of the model that reports one issue of its own. *)
Definition stale_reply : list (string * value) :=
  [("summary", VStr "Weather for Paris");
   ("issues", VList [VStr "Data may be stale"])].

(* ================================================================== *)
(** ** main.py: the orchestrator *)

(** The dict [process_query] returns; "error" is present or not. *)
Record QueryResult : Type := mk_QueryResult {
  r_query : string;
  r_plan : option value;
  r_execution : option ExecutionResult;
  r_verification : option VerificationResult;
  r_total_time : float;
  r_success : bool;
  r_error : option string
}.

(** [any(c.isalpha() for c in s)]; [isalpha] is the method of [str] on
    one character, which follows the Unicode database. *)
Definition any_alpha (isalpha : string -> bool) (s : string) : bool :=
  existsb isalpha (characters s).

(** The early answer of [process_query] to a query it does not run. *)
Definition refused (query error : string) : QueryResult :=
  mk_QueryResult query None None None 0%float false (Some error).

(** The text [process_query] reports for an exception of the planner. *)
Definition planning_error_text (e : exn) : string :=
  let error_msg := exn_msg e in
  match exn_class_of e with
  | ValueError =>
      "Planning failed: " ++ error_msg ++ ". Please try a simpler or clearer query."
  | _ =>
      let low := lower error_msg in
      if contains "rate limit" low || contains "quota" low then
        "API quota exceeded. Please wait for the quota to reset or try again later."
      else if contains "api key" low || contains "authentication" low then
        "API authentication failed. Please check your API keys configuration."
      else if contains "network" low || contains "connection" low then
        "Network connection error. Please check your internet connection and try again."
      else "Planning failed: " ++ error_msg
  end.

(** The text [process_query] reports for an exception of the executor. *)
Definition execution_error_text (e : exn) : string :=
  let error_msg := exn_msg e in
  match exn_class_of e with
  | ValueError => "Execution failed: Invalid request parameters. " ++ error_msg
  | _ =>
      let low := lower error_msg in
      if contains "not found" low || contains "404" error_msg then
        "The requested information was not found. Please check your query and try again."
      else if contains "rate limit" low || contains "429" error_msg then
        "API rate limit exceeded. Please wait a moment and try again."
      else if contains "timeout" low then
        "Request timed out. The service might be slow. Please try again."
      else "Execution failed: " ++ error_msg
  end.

(** The verification [process_query] substitutes when the verifier
    raised. *)
Definition verification_unavailable (e : exn) : VerificationResult :=
  mk_VerificationResult false false (VFloat 0%float)
    [VStr ("Verification failed: " ++ exn_msg e)]
    (VStr "Verification unavailable") (VStr "Verification failed") (VList []).

(** Run [m] and hand back how it ended, as a [try] does before its
    [except] clauses choose. *)
Definition caught {S A : Type} (m : M S A) : M S (outcome A) :=
  fun s => let (o, s') := m s in (Returns o, s').

Section Orchestrator.

Context {W : Type}.
Variable rt : runtime W.

(** [c.isalpha()] on a character. *)
Variable isalpha : string -> bool.

Variable texts : prompt_texts.
Variable llm_client : LLMClient.
Variable tools : list (string * tool W).

(** [str(e)] of the [UnboundLocalError] that reading the local
    [verification] raises when no value was bound to it; its wording
    depends on the interpreter. *)
Variable unbound_verification : string.

(** [time.time()] in the orchestrator. *)
Definition clock : M (executor_state W) float := in_process (now rt).

(** [process_query].  The three stages run inside an outer [try]; each
    has its own [except] clauses, so the only statement that can reach
    the outer clause is the one that reads the local [verification],
    which the [except] clause of the third stage does not bind. *)
Definition process_query (user_query : string) : M (executor_state W) QueryResult :=
  if String.eqb user_query "" || String.eqb (strip user_query) "" then
    ret (refused "" "Please enter a query. Your question cannot be empty.")
  else
    let user_query := strip user_query in
    if Nat.ltb 1000 (char_length user_query) then
      ret (refused (take_chars 100 user_query ++ "...")
             "Your query is too long. Please keep it under 1000 characters and try again.")
    else if negb (any_alpha isalpha user_query) then
      ret (refused user_query
             "Please enter a meaningful question with words, not just numbers or symbols.")
    else
      start_time <- clock ;;
      let elapsed (t : float) := PrimFloat.sub t start_time in
      (* Stage 1: Planning *)
      plan_start <- clock ;;
      planned <- caught (in_process (create_plan rt texts llm_client user_query)) ;;
      match planned with
      | Raises e =>
          t <- clock ;;
          ret (mk_QueryResult user_query None None None (elapsed t) false
                 (Some (planning_error_text e)))
      | Returns plan =>
          plan_end <- clock ;;
          (* Stage 2: Execution *)
          exec_start <- clock ;;
          executed <- caught (execute_plan rt tools plan) ;;
          match executed with
          | Raises e =>
              t <- clock ;;
              ret (mk_QueryResult user_query (Some plan) None None (elapsed t) false
                     (Some (execution_error_text e)))
          | Returns execution_result =>
              exec_end <- clock ;;
              (* Stage 3: Verification *)
              verify_start <- clock ;;
              verified <-
                caught (in_process
                          (verify_results rt texts llm_client plan execution_result)) ;;
              match verified with
              | Returns verification =>
                  verify_end <- clock ;;
                  t <- clock ;;
                  ret (mk_QueryResult user_query (Some plan) (Some execution_result)
                         (Some verification) (elapsed t)
                         (success execution_result && is_complete verification)
                         None)
              | Raises e =>
                  let substitute := verification_unavailable e in
                  t <- clock ;;
                  if success execution_result then
                    (* [verification] is read and was never bound *)
                    t' <- clock ;;
                    ret (mk_QueryResult user_query (Some plan)
                           (Some execution_result) (Some substitute) (elapsed t')
                           false
                           (Some ("Unexpected error: " ++ unbound_verification)))
                  else
                    ret (mk_QueryResult user_query (Some plan)
                           (Some execution_result) (Some substitute) (elapsed t)
                           false None)
              end
          end
      end.

End Orchestrator.

(** The wording of the [UnboundLocalError] in Python 3.11 and later. *)
Definition unbound_text : string :=
  "cannot access local variable 'verification' where it is not associated with a value".

(** A weather tool that reports the temperature as text. *)
Definition text_thermometer : list (string * tool nat) :=
  [("weather",
    fun _ _ n =>
      (Returns (VDict [("city", VStr "Paris"); ("temperature", VStr "18")]), S n))].

(** The code point of a character, from its UTF-8 bytes. *)
Definition code_point (ch : string) : option N :=
  match ch with
  | String a EmptyString =>
      if N.ltb (N_of_ascii a) 128 then Some (N_of_ascii a) else None
  | String a (String b EmptyString) =>
      Some ((N_of_ascii a - 192) * 64 + (N_of_ascii b - 128))%N
  | String a (String b (String c EmptyString)) =>
      Some ((N_of_ascii a - 224) * 4096 + (N_of_ascii b - 128) * 64
            + (N_of_ascii c - 128))%N
  | String a (String b (String c (String d EmptyString))) =>
      Some ((N_of_ascii a - 240) * 262144 + (N_of_ascii b - 128) * 4096
            + (N_of_ascii c - 128) * 64 + (N_of_ascii d - 128))%N
  | _ => None
  end.

Definition between (low high n : N) : bool := (N.leb low n && N.leb n high)%bool.

(** [str.isalpha] and [str.isupper] on the blocks the examples draw
    their characters from: Basic Latin, the Latin-1 Supplement, the
    hiragana and the CJK ideographs U+4E00 to U+9FA5.  The examples hold
    no character of another block. *)
Definition sample_isalpha (ch : string) : bool :=
  match code_point ch with
  | Some n =>
      (between 65 90 n || between 97 122 n
       || N.eqb n 170 || N.eqb n 181 || N.eqb n 186
       || between 192 214 n || between 216 246 n || between 248 255 n
       || between 12353 12438 n || between 19968 40869 n)%bool
  | None => false
  end.

Definition sample_isupper (ch : string) : bool :=
  match code_point ch with
  | Some n => (between 65 90 n || between 192 214 n || between 216 222 n)%bool
  | None => false
  end.

(** [s * n]. *)
Fixpoint replicate (n : nat) (s : string) : string :=
  match n with
  | O => EmptyString
  | S n' => (s ++ replicate n' s)%string
  end.

(** U+00A0, NO-BREAK SPACE. *)
Definition no_break_space : string :=
  String (ascii_of_nat 194) (String (ascii_of_nat 160) EmptyString).

(* ================================================================== *)
(** ** The tools: what they take from [requests]

    A tool reaches the outside through [session.get].  The model keeps of
    a response what the tools read: the status, what [raise_for_status]
    quotes, the headers, and the body as [response.json()] decodes it.
    The tools raise exceptions of [requests] and of Python that the
    agents' model did not need, so they have an exception type of their
    own; [as_exn] is what the executor sees of them. *)

Record Response : Type := mk_Response {
  status_code : Z;
  reason : string;
  url : string;
  headers : string -> option string;
  json : string + value
}.

(** [HTTPError] carries [e.response.status_code]; [RequestException]
    stands for the other exceptions of [requests] (connection errors,
    timeouts); [JSONDecodeError] is what [response.json()] raises, a
    [ValueError]; [Builtin] is an exception of Python itself. *)
Inductive tool_exn_class : Type :=
| HTTPError (status : Z)
| RequestException
| JSONDecodeError
| IndexError
| Builtin (c : exn_class).

Record tool_exn : Type := mk_tool_exn {
  tool_exn_class_of : tool_exn_class;
  tool_exn_msg : string
}.

Inductive tool_outcome (A : Type) : Type :=
| Gives (a : A)
| Throws (e : tool_exn).
Arguments Gives {A} a.
Arguments Throws {A} e.

Definition tbind {A B : Type} (m : tool_outcome A) (k : A -> tool_outcome B)
  : tool_outcome B :=
  match m with
  | Gives a => k a
  | Throws e => Throws e
  end.

Notation "'let!' x ':=' m 'in' k" := (tbind m (fun x => k))
  (at level 10, x name, m at level 100, k at level 200).

(** An operation of the data model, inside a tool. *)
Definition builtin {A : Type} (o : outcome A) : tool_outcome A :=
  match o with
  | Returns a => Gives a
  | Raises e => Throws (mk_tool_exn (Builtin (exn_class_of e)) (exn_msg e))
  end.

(** [isinstance(e, ValueError)]. *)
Definition is_value_error (e : tool_exn) : bool :=
  match tool_exn_class_of e with
  | JSONDecodeError | Builtin ValueError => true
  | _ => false
  end.

(** [isinstance(e, requests.exceptions.HTTPError)]. *)
Definition is_http_error (e : tool_exn) : bool :=
  match tool_exn_class_of e with
  | HTTPError _ => true
  | _ => false
  end.

(** The exception as the executor holds it: its text, and its class as
    far as the agents tell classes apart. *)
Definition as_exn (e : tool_exn) : exn :=
  mk_exn (match tool_exn_class_of e with
          | Builtin c => c
          | JSONDecodeError => ValueError
          | _ => PlainException
          end) (tool_exn_msg e).

Definition called {W A : Type} (m : W -> tool_outcome A * W) : W -> outcome A * W :=
  fun w =>
    match m w with
    | (Gives a, w') => (Returns a, w')
    | (Throws e, w') => (Raises (as_exn e), w')
    end.

(** [response.raise_for_status()] of [requests]. *)
Definition raise_for_status {W : Type} (rt : runtime W) (response : Response)
  : tool_outcome unit :=
  let code := status_code response in
  if (400 <=? code) && (code <? 500) then
    Throws (mk_tool_exn (HTTPError code)
              (str_of rt (VInt code) ++ " Client Error: " ++ reason response
               ++ " for url: " ++ url response))
  else if (500 <=? code) && (code <? 600) then
    Throws (mk_tool_exn (HTTPError code)
              (str_of rt (VInt code) ++ " Server Error: " ++ reason response
               ++ " for url: " ++ url response))
  else Gives tt.

(** [response.json()]. *)
Definition response_json (response : Response) : tool_outcome value :=
  match json response with
  | inr v => Gives v
  | inl msg => Throws (mk_tool_exn JSONDecodeError msg)
  end.

(** [v[0]]. *)
Definition first_item (v : value) : tool_outcome value :=
  match v with
  | VList (x :: _) => Gives x
  | VList [] => Throws (mk_tool_exn IndexError "list index out of range")
  | VStr (String c _) => Gives (VStr (String c EmptyString))
  | VStr EmptyString => Throws (mk_tool_exn IndexError "string index out of range")
  | VDict _ => Throws (mk_tool_exn (Builtin KeyError) "0")
  | _ => Throws (mk_tool_exn (Builtin TypeError)
                   ("'" ++ type_name v ++ "' object is not subscriptable"))
  end.

(** [str.capitalize()] in the ASCII range. *)
Definition capitalize_string (s : string) : string :=
  match s with
  | EmptyString => EmptyString
  | String c s' => String (upper_ascii c) (lower s')
  end.

(** [v.capitalize()]: only a string has the method. *)
Definition capitalize (v : value) : tool_outcome value :=
  match v with
  | VStr s => Gives (VStr (capitalize_string s))
  | _ => Throws (mk_tool_exn (Builtin AttributeError)
                   ("'" ++ type_name v ++ "' object has no attribute 'capitalize'"))
  end.

(* ================================================================== *)
(** ** tools/weather_tool.py *)

Module WeatherTool.

Definition BASE_URL : string := "https://api.openweathermap.org/data/2.5".

Definition valid_units : list string := ["metric"; "imperial"; "standard"].

Definition rate_limit_message : string :=
  "OpenWeather API rate limit exceeded (60 calls/minute on free tier)".

(** The dict [compare_weather] puts in place of a city it could not
    fetch. *)
Definition failed_city (city units : value) (error : string) : value :=
  VDict [("city", city);
         ("country", VStr "Unknown");
         ("error", VStr error);
         ("temperature", VNone);
         ("feels_like", VNone);
         ("conditions", VStr "Error");
         ("humidity", VNone);
         ("wind_speed", VNone);
         ("timestamp", VNone);
         ("units", units)].

(** The symbol [_parse_weather_data] gives to a temperature. *)
Definition temp_unit_of (units : value) : string :=
  if eq_str units "metric" then "°C"
  else if eq_str units "imperial" then "°F" else "K".

Definition _parse_weather_data (raw_data units : value) : tool_outcome value :=
  let! main := builtin (get raw_data "main" (VDict [])) in
  let! listed := builtin (get raw_data "weather" (VList [VDict []])) in
  let! weather := first_item listed in
  let! wind := builtin (get raw_data "wind" (VDict [])) in
  let! sys := builtin (get raw_data "sys" (VDict [])) in
  let temp_unit := temp_unit_of units in
  let speed_unit :=
    if eq_str units "metric" then "m/s"
    else if eq_str units "imperial" then "mph" else "m/s" in
  let! city := builtin (get raw_data "name" (VStr "Unknown")) in
  let! country := builtin (get sys "country" (VStr "Unknown")) in
  let! temperature := builtin (get main "temp" VNone) in
  let! feels_like := builtin (get main "feels_like" VNone) in
  let! description := builtin (get weather "description" (VStr "")) in
  let! conditions := capitalize description in
  let! conditions_main := builtin (get weather "main" (VStr "")) in
  let! humidity := builtin (get main "humidity" VNone) in
  let! wind_speed := builtin (get wind "speed" VNone) in
  let! pressure := builtin (get main "pressure" VNone) in
  let! visibility := builtin (get raw_data "visibility" VNone) in
  let! clouds := builtin (get raw_data "clouds" (VDict [])) in
  let! cloudiness := builtin (get clouds "all" VNone) in
  let! timestamp := builtin (get raw_data "dt" VNone) in
  let! timezone := builtin (get raw_data "timezone" VNone) in
  Gives (VDict [("city", city);
                ("country", country);
                ("temperature", temperature);
                ("temperature_unit", VStr temp_unit);
                ("feels_like", feels_like);
                ("conditions", conditions);
                ("conditions_main", conditions_main);
                ("humidity", humidity);
                ("wind_speed", wind_speed);
                ("wind_speed_unit", VStr speed_unit);
                ("pressure", pressure);
                ("visibility", visibility);
                ("cloudiness", cloudiness);
                ("timestamp", timestamp);
                ("timezone", timezone);
                ("units", units)]).

Section Tool.

Context {W : Type}.
Variable rt : runtime W.

(** [self.session.get(url, params=params, timeout=30)]: a response, or
    the text of the exception of [requests] that it raised. *)
Variable session_get :
  string -> list (string * value) -> W -> (Response + string) * W.

Variable api_key : string.

(** [_handle_rate_limit] always raises; this is what it raises. *)
Definition _handle_rate_limit (response : Response) : tool_exn :=
  mk_tool_exn (HTTPError (status_code response)) rate_limit_message.

Definition _make_request (endpoint : string) (params : list (string * value))
  : W -> tool_outcome value * W :=
  fun w =>
    match session_get (BASE_URL ++ endpoint) params w with
    | (inr msg, w') => (Throws (mk_tool_exn RequestException msg), w')
    | (inl response, w') =>
        if status_code response =? 429 then
          (Throws (_handle_rate_limit response), w')
        else
          (let! _ := raise_for_status rt response in response_json response, w')
    end.

(** The units [get_current_weather] asks for. *)
Definition checked_units (units : value) : value :=
  if in_strings units valid_units then units else VStr "metric".

Definition request_params (city units : value) : list (string * value) :=
  [("q", city); ("appid", VStr api_key); ("units", checked_units units)].

Definition get_current_weather (city units : value) : W -> tool_outcome value * W :=
  fun w =>
    let units := checked_units units in
    let params := [("q", city); ("appid", VStr api_key); ("units", units)] in
    let (fetched, w') := _make_request "/weather" params w in
    let body := let! response := fetched in _parse_weather_data response units in
    match body with
    | Gives weather_data => (Gives weather_data, w')
    | Throws e =>
        match tool_exn_class_of e with
        | HTTPError code =>
            if code =? 404 then
              (Throws (mk_tool_exn (Builtin ValueError)
                         ("City '" ++ str_of rt city
                          ++ "' not found. Please check the spelling or try adding a country code (e.g., 'London,GB')")),
               w')
            else if code =? 401 then
              (Throws (mk_tool_exn (Builtin ValueError)
                         "Invalid OpenWeather API key. Please check your configuration."),
               w')
            else (Throws e, w')
        | _ => (Throws e, w')
        end
    end.

(** What one turn of the loop of [compare_weather] appends. *)
Definition city_entry (city units : value) (fetched : tool_outcome value) : value :=
  match fetched with
  | Gives weather_data => weather_data
  | Throws e =>
      if is_value_error e then failed_city city units (tool_exn_msg e)
      else failed_city city units ("Unexpected error: " ++ tool_exn_msg e)
  end.

Fixpoint compare_cities (cities : list value) (units : value)
    (results : list value) (w : W) : list value * W :=
  match cities with
  | [] => (results, w)
  | city :: rest =>
      let (fetched, w') := get_current_weather city units w in
      compare_cities rest units (results ++ [city_entry city units fetched]) w'
  end.

Definition compare_weather (cities units : value) : W -> tool_outcome value * W :=
  fun w =>
    match builtin (len cities) with
    | Throws e => (Throws e, w)
    | Gives _ =>
        match builtin (iterate cities) with
        | Throws e => (Throws e, w)
        | Gives each =>
            let (results, w') := compare_cities each units [] w in
            (Gives (VList results), w')
        end
    end.

(** [t] is this tool, as the executor calls it. *)
Definition is_weather_tool (t : tool W) : Prop :=
  (forall city units,
     t "get_current_weather" [("city", city); ("units", units)]
     = called (get_current_weather city units))
  /\ (forall cities units,
        t "compare_weather" [("cities", cities); ("units", units)]
        = called (compare_weather cities units)).

End Tool.

End WeatherTool.

(** *** A small network to run the tools against

    The world is the number of requests answered so far; request number
    [n] gets [reply n]. *)

Definition scripted_session (reply : nat -> Response + string)
  : string -> list (string * value) -> nat -> (Response + string) * nat :=
  fun _ _ n => (reply n, S n).

Definition answer (code : Z) (reason : string) (body : string + value) : Response :=
  mk_Response code reason "https://api.openweathermap.org/data/2.5/weather"
    (fun _ => None) body.

Definition oslo_body : value :=
  VDict [("name", VStr "Oslo");
         ("sys", VDict [("country", VStr "NO")]);
         ("main", VDict [("temp", VInt 75); ("humidity", VInt 40)]);
         ("weather", VList [VDict [("main", VStr "Clear");
                                   ("description", VStr "clear sky")]])].

(** Oslo is known; whatever is asked next is not. *)
Definition oslo_then_unknown : nat -> Response + string :=
  fun n =>
    match n with
    | O => inl (answer 200 "OK" (inr oslo_body))
    | _ => inl (answer 404 "Not Found" (inr (VDict [("cod", VStr "404")])))
    end.

Definition unauthorized : nat -> Response + string :=
  fun _ => inl (answer 401 "Unauthorized" (inr (VDict [("cod", VInt 401)]))).

Definition too_many_requests : nat -> Response + string :=
  fun _ => inl (answer 429 "Too Many Requests" (inl "Expecting value")).

(** The weather tool over a scripted network, as the executor holds
    it. *)
Definition weather_tool_over (reply : nat -> Response + string) : tool nat :=
  fun method kwargs =>
    if String.eqb method "get_current_weather" then
      called (WeatherTool.get_current_weather (offline_runtime rate_limited)
                (scripted_session reply) "key"
                (or_default kwargs "city" VNone) (or_default kwargs "units" VNone))
    else
      called (WeatherTool.compare_weather (offline_runtime rate_limited)
                (scripted_session reply) "key"
                (or_default kwargs "cities" VNone) (or_default kwargs "units" VNone)).

Definition oslo_step : list (string * value) :=
  [("step_number", VInt 1);
   ("tool", VStr "weather");
   ("parameters", VDict [("city", VStr "Oslo")])].

(* ================================================================== *)
(** ** config.py *)

Module Config.

(** The attributes of a [Config] object. *)
Record Config : Type := mk_Config {
  llm_provider : string;
  openai_api_key : string;
  openai_model : string;
  openai_base_url : option string;
  gemini_api_key : string;
  gemini_model : string;
  github_token : option string;
  openweather_api_key : string;
  log_level : string;
  max_retries : Z;
  request_timeout : Z
}.

Definition valid_log_levels : list string :=
  ["DEBUG"; "INFO"; "WARNING"; "ERROR"; "CRITICAL"].

(** The list [errors] that [validate] has built when it reaches its
    last [if]. *)
Definition validation_errors (c : Config) : list string :=
  let errors : list string := [] in
  let errors :=
    if String.eqb (llm_provider c) "openai" then
      let errors :=
        if String.eqb (openai_api_key c) "" then
          List.app errors ["OPENAI_API_KEY is required when using OpenAI provider. Get your key from: https://platform.openai.com/api-keys"]
        else errors in
      if negb (String.eqb (openai_api_key c) "")
         && negb (String.prefix "sk-" (openai_api_key c)) then
        List.app errors ["OPENAI_API_KEY appears to be invalid (should start with 'sk-')"]
      else errors
    else if String.eqb (llm_provider c) "gemini" then
      if String.eqb (gemini_api_key c) "" then
        List.app errors ["GEMINI_API_KEY is required when using Gemini provider. Get your key from: https://aistudio.google.com/app/apikey"]
      else errors
    else
      List.app errors ["Invalid LLM_PROVIDER: " ++ llm_provider c
                 ++ ". Must be 'openai' or 'gemini'"] in
  let errors :=
    if String.eqb (openweather_api_key c) "" then
      List.app errors ["OPENWEATHER_API_KEY is required. Get your key from: https://openweathermap.org/api"]
    else errors in
  let errors :=
    if max_retries c <? 0 then
      List.app errors ["MAX_RETRIES must be a non-negative integer"]
    else errors in
  let errors :=
    if request_timeout c <=? 0 then
      List.app errors ["REQUEST_TIMEOUT must be a positive integer"]
    else errors in
  if negb (existsb (String.eqb (upper (log_level c))) valid_log_levels) then
    List.app errors ["LOG_LEVEL must be one of: " ++ join ", " valid_log_levels]
  else errors.

Definition validate (c : Config) : outcome unit :=
  match validation_errors c with
  | [] => Returns tt
  | errors =>
      Raises (mk_exn ValueError
                ("Configuration validation failed:" ++ new_line
                 ++ join new_line (map (fun error => "  - " ++ error) errors)))
  end.

(** ['*' * 8 if secret else 'NOT SET']. *)
Definition masked (is_set : bool) : string :=
  if is_set then repeat_string "*" 8 else "NOT SET".

Definition is_some_text (o : option string) : bool :=
  match o with
  | Some s => negb (String.eqb s "")
  | None => false
  end.

(** [__repr__]; [str_int] is [str] on integers. *)
Definition __repr__ (str_int : Z -> string) (c : Config) : string :=
  "Config(" ++ new_line
  ++ "  openai_api_key=" ++ masked (negb (String.eqb (openai_api_key c) ""))
  ++ "," ++ new_line
  ++ "  openai_model=" ++ openai_model c ++ "," ++ new_line
  ++ "  openai_base_url="
  ++ (match openai_base_url c with
      | Some s => if String.eqb s "" then "default" else s
      | None => "default"
      end)
  ++ "," ++ new_line
  ++ "  github_token=" ++ masked (is_some_text (github_token c)) ++ "," ++ new_line
  ++ "  openweather_api_key="
  ++ masked (negb (String.eqb (openweather_api_key c) "")) ++ "," ++ new_line
  ++ "  log_level=" ++ log_level c ++ "," ++ new_line
  ++ "  max_retries=" ++ str_int (max_retries c) ++ "," ++ new_line
  ++ "  request_timeout=" ++ str_int (request_timeout c) ++ new_line
  ++ ")".

End Config.

(* ================================================================== *)
(** ** The constructors that check their arguments *)

(** [LLMClient.__init__], with the two module flags. *)
Definition LLMClient__init__ (api_key : string) (provider : string)
    (max_retries : Z) (OPENAI_AVAILABLE GEMINI_AVAILABLE : bool) : outcome LLMClient :=
  if String.eqb api_key "" then Raises (mk_exn ValueError "API key is required")
  else
    let self_provider := lower provider in
    if String.eqb self_provider "openai" then
      if negb OPENAI_AVAILABLE then
        Raises (mk_exn ValueError "OpenAI library not installed. Run: pip install openai")
      else Returns (mk_LLMClient self_provider max_retries OPENAI_AVAILABLE)
    else if String.eqb self_provider "gemini" then
      if negb GEMINI_AVAILABLE then
        Raises (mk_exn ValueError
                  "Gemini library not installed. Run: pip install google-generativeai")
      else Returns (mk_LLMClient self_provider max_retries OPENAI_AVAILABLE)
    else
      Raises (mk_exn ValueError
                ("Unsupported provider: " ++ provider
                 ++ ". Must be 'openai' or 'gemini'")).

(** [WeatherTool.__init__]. *)
Definition WeatherTool__init__ (api_key : string) : outcome string :=
  if String.eqb api_key "" then
    Raises (mk_exn ValueError "OpenWeather API key is required")
  else Returns api_key.

(** [AIOperationsAssistant.__init__] for a given [config]: the checks
    made on the way, and the client it builds.  The client is created
    without [max_retries], so with the default 3. *)
Definition AIOperationsAssistant__init__ (config : Config.Config)
    (OPENAI_AVAILABLE GEMINI_AVAILABLE : bool) : outcome LLMClient :=
  let? _ := Config.validate config in
  let api_key :=
    if String.eqb (Config.llm_provider config) "gemini"
    then Config.gemini_api_key config
    else Config.openai_api_key config in
  let? llm_client :=
    LLMClient__init__ api_key (Config.llm_provider config) 3
      OPENAI_AVAILABLE GEMINI_AVAILABLE in
  let? _ := WeatherTool__init__ (Config.openweather_api_key config) in
  Returns llm_client.

(* ================================================================== *)
(** ** tools/github_tool.py: requests and the rate limit *)

Module GitHubTool.

Definition BASE_URL : string := "https://api.github.com".

Section Tool.

Context {W : Type}.
Variable rt : runtime W.

(** [self.session.get(url, params=params, timeout=30)]. *)
Variable session_get :
  string -> option (list (string * value)) -> W -> (Response + string) * W.

Variable api_token : option string.

(** [int(s)] on a header value: [None] stands for its [ValueError]. *)
Variable int_of_str : string -> option Z.

(** [int(time.time())]. *)
Variable int_time : W -> Z.

Definition header_or (response : Response) (name default : string) : string :=
  match headers response name with
  | Some v => v
  | None => default
  end.

(** What [_handle_rate_limit] raises when it does not wait; the
    [except (ValueError, TypeError)] clause leads there as well. *)
Definition rate_limit_error (response : Response) : tool_exn :=
  let error_message := "GitHub API rate limit exceeded" in
  let error_message :=
    if negb (Config.is_some_text api_token) then
      error_message ++ " (consider using authentication token for higher limits)"
    else error_message in
  mk_tool_exn (HTTPError (status_code response)) error_message.

Definition _handle_rate_limit (response : Response)
  : process W -> tool_outcome unit * process W :=
  fun p =>
    let remaining := header_or response "X-RateLimit-Remaining" "0" in
    let reset_time := header_or response "X-RateLimit-Reset" "0" in
    if String.eqb remaining "0" then
      match int_of_str reset_time with
      | Some reset_timestamp =>
          let current_time := int_time (world p) in
          let wait_time := reset_timestamp - current_time in
          if (0 <? wait_time) && (wait_time <? 300) then
            match time_sleep rt (VInt (wait_time + 1)) p with
            | (Returns u, p') => (Gives u, p')
            | (Raises _, p') => (Throws (rate_limit_error response), p')
            end
          else (Throws (rate_limit_error response), p)
      | None => (Throws (rate_limit_error response), p)
      end
    else (Throws (rate_limit_error response), p).

Definition _make_request (endpoint : string) (params : option (list (string * value)))
  : process W -> tool_outcome value * process W :=
  fun p =>
    match session_get (BASE_URL ++ endpoint) params (world p) with
    | (inr msg, w') =>
        (Throws (mk_tool_exn RequestException msg), mk_process w' (sleeps p))
    | (inl response, w') =>
        let p1 := mk_process w' (sleeps p) in
        let (handled, p2) :=
          if status_code response =? 403 then _handle_rate_limit response p1
          else (Gives tt, p1) in
        (let! _ := handled in
         let! _ := raise_for_status rt response in
         response_json response, p2)
    end.

End Tool.

End GitHubTool.

(* ================================================================== *)
(** ** tools/wikipedia_tool.py: the short extract *)

Module WikipediaTool.

Section Extract.

(** [c.isupper()] on a character; it follows the Unicode database. *)
Variable isupper : string -> bool.

(** The test for a sentence end at a full stop, on the text that
    follows it: the text ends there, or a space and then an upper-case
    character follow. *)
Definition ends_sentence (rest : string) : bool :=
  match rest with
  | EmptyString => true
  | String c rest' =>
      (Ascii.eqb c " "%char
       && match characters rest' with
          | next :: _ => isupper next
          | [] => false
          end)%bool
  end.

(** The loop of [_extract_sentences] over the text that is left: the
    sentences found and [current] when the loop is left.  A full stop
    is one byte and no part of another character, so the loop can go
    byte by byte. *)
Fixpoint split_sentences (rest : string) (num_sentences : Z)
    (sentences : list string) (current : string) : list string * string :=
  match rest with
  | EmptyString => (sentences, current)
  | String char rest' =>
      let current := current ++ String char EmptyString in
      if (Ascii.eqb char "."%char && ends_sentence rest')%bool then
        let sentences := List.app sentences [strip current] in
        if num_sentences <=? Z.of_nat (List.length sentences)
        then (sentences, EmptyString)
        else split_sentences rest' num_sentences sentences EmptyString
      else split_sentences rest' num_sentences sentences current
  end.

(** [l[:n]]. *)
Definition up_to {A : Type} (l : list A) (n : Z) : list A :=
  if 0 <=? n then firstn (Z.to_nat n) l
  else firstn (List.length l - Z.to_nat (- n)) l.

Definition _extract_sentences (text : string) (num_sentences : Z) : string :=
  if String.eqb text "" then ""
  else
    let (sentences, current) := split_sentences text num_sentences [] "" in
    let sentences :=
      if negb (String.eqb (strip current) "")
         && (Z.of_nat (List.length sentences) <? num_sentences)
      then List.app sentences [strip current]
      else sentences in
    let result := join " " (up_to sentences num_sentences) in
    if Nat.ltb (char_length result) (char_length text)
    then result ++ "..."
    else result.

End Extract.

(** [title.replace(" ", "_")]. *)
Definition _encode_title (title : string) : string :=
  map_string (fun c => if Ascii.eqb c " "%char then "_"%char else c) title.

End WikipediaTool.

(** *** Examples for the configuration and the GitHub tool *)

Definition office_config : Config.Config :=
  Config.mk_Config "openai" "sk-office-key" "gpt-4" None "" "gemini-1.5-pro"
    (Some "ghp_office") "weather-key-1" "info" 3 30.

(** The same settings after every secret was rotated, and with another
    provider. *)
Definition rotated_config : Config.Config :=
  Config.mk_Config "gemini" "sk-rotated-key" "gpt-4" None "gemini-key"
    "gemini-1.5-flash" (Some "ghp_rotated") "weather-key-2" "info" 3 30.

Definition decimal (z : Z) : string := plain_str (VInt z).

(** A 403 whose rate limit resets at second 100, seen at second 40. *)
Definition forbidden : Response :=
  mk_Response 403 "rate limit exceeded" "https://api.github.com/search/repositories"
    (fun name =>
       if String.eqb name "X-RateLimit-Remaining" then Some "0"
       else if String.eqb name "X-RateLimit-Reset" then Some "100"
       else None)
    (inr (VDict [("message", VStr "API rate limit exceeded")])).

Definition github_session
  : string -> option (list (string * value)) -> nat -> (Response + string) * nat :=
  fun _ _ n => (inl forbidden, S n).

Definition reset_parser (s : string) : option Z :=
  if String.eqb s "100" then Some 100 else None.

(* ================================================================== *)
(** * Properties *)

(** ** Reading a computation backwards *)

Lemma bind_returns {S A B : Type} (m : M S A) (k : A -> M S B) s b s' :
  bind m k s = (Returns b, s') ->
  exists a s1, m s = (Returns a, s1) /\ k a s1 = (Returns b, s').
Proof.
  unfold bind. destruct (m s) as [[a | e] s1]; intros H.
  - exists a, s1. split; [reflexivity | exact H].
  - discriminate H.
Qed.

Lemma pure_outcome_returns {S A : Type} (o : outcome A) (s s' : S) a :
  pure_outcome o s = (Returns a, s') -> o = Returns a /\ s' = s.
Proof.
  unfold pure_outcome. intros H. inversion H. split; reflexivity.
Qed.

Lemma ret_returns {S A : Type} (a b : A) (s s' : S) :
  ret a s = (Returns b, s') -> b = a /\ s' = s.
Proof.
  unfold ret. intros H. inversion H. split; reflexivity.
Qed.

Lemma get_of_dict step key default v :
  get step key default = Returns v ->
  exists fields, step = VDict fields
    /\ v = match lookup key fields with Some x => x | None => default end.
Proof.
  destruct step; simpl; intros H; try discriminate H.
  inversion H. eexists. split; reflexivity.
Qed.

Ltac bind_inv H a s1 H1 :=
  apply bind_returns in H; destruct H as (a & s1 & H1 & H).

Ltac pure_inv H :=
  apply pure_outcome_returns in H; destruct H as [H ?]; subst.

Ltac ret_inv H :=
  apply ret_returns in H; destruct H as [? ?]; subst.

(** ** The executor *)

Section ExecutorFacts.

Context {W : Type}.
Variable rt : runtime W.
Variable tools : list (string * tool W).

Lemma execute_step_keeps_number step p r p' :
  _execute_step rt tools step p = (Returns r, p') ->
  step_number r = step_number_of step.
Proof.
  unfold _execute_step. intros H.
  bind_inv H number p1 Hget. pure_inv Hget.
  apply get_of_dict in Hget as (fields & -> & ->).
  simpl in H. unfold bind at 1, pure_outcome at 1 in H.
  unfold bind at 1, pure_outcome at 1 in H.
  unfold bind at 1, pure_outcome at 1 in H.
  destruct (lookup_tool tools _) as [[[name t] | ] | e]; try discriminate H.
  - bind_inv H start_time p2 Hnow. unfold try_except in H.
    destruct (bind _ _ _) as [[v | e] p3] eqn:Hcall.
    + inversion H; subst; clear H.
      bind_inv Hcall result_data p4 Hretry. bind_inv Hcall end_time p5 Hend.
      ret_inv Hcall. reflexivity.
    + bind_inv H end_time p4 Hend. ret_inv H. reflexivity.
  - ret_inv H. reflexivity.
Qed.

Lemma in_process_returns {A : Type} (m : M (process W) A) st a st' :
  in_process m st = (Returns a, st') -> m (proc st) = (Returns a, proc st').
Proof.
  unfold in_process. destruct (m (proc st)) as [o p]. intros H.
  inversion H. reflexivity.
Qed.

Lemma same_tally {S : Type} (st : S) c c' f f' l l' :
  c = c' -> f = f' -> l = l' ->
  (Returns (mk_tally c f l), st) = (Returns (mk_tally c' f' l'), st).
Proof. intros -> -> ->. reflexivity. Qed.

(** One turn of the loop on a step that is a dict: it returns, adds one
    result carrying the step's number, and moves exactly one counter. *)
Lemma run_step_dict fields t st :
  exists r st',
    run_step rt tools (VDict fields) t st
    = (Returns (mk_tally (completed t + count_status "success" [r])
                  (failed t + (1 - count_status "success" [r]))
                  (collected t ++ [r])), st')
    /\ step_number r = step_number_of (VDict fields).
Proof.
  unfold run_step. simpl get. unfold bind at 1, pure_outcome at 1.
  unfold try_except.
  destruct (in_process (_execute_step rt tools (VDict fields)) st)
    as [[r | e] st1] eqn:Hstep.
  - unfold bind at 1. rewrite Hstep.
    apply in_process_returns, execute_step_keeps_number in Hstep.
    destruct (String.eqb (status r) "success") eqn:Hs;
      unfold bind, _log_execution, ret;
      exists r; eexists; (split; [ | exact Hstep ]);
      simpl count_status; rewrite Hs; apply same_tally; (lia || reflexivity).
  - unfold bind at 1. rewrite Hstep.
    unfold bind, _log_execution, ret.
    exists (mk_StepResult (step_number_of (VDict fields)) "failed" VNone
              (Some ("Unexpected error: " ++ exn_msg e)) 0%float).
    eexists. split; [ | reflexivity ].
    simpl. apply same_tally; (lia || reflexivity).
Qed.

Lemma run_step_needs_dict step t st t' st' :
  run_step rt tools step t st = (Returns t', st') -> is_dict step = true.
Proof.
  unfold run_step. intros H. bind_inv H number st1 Hget. pure_inv Hget.
  apply get_of_dict in Hget as (fields & -> & _). reflexivity.
Qed.

Lemma run_steps_dicts steps : forall t st,
  forallb is_dict steps = true ->
  exists rs st',
    run_steps rt tools steps t st
    = (Returns (mk_tally (completed t + count_status "success" rs)
                  (failed t + (Z.of_nat (List.length rs) - count_status "success" rs))
                  (collected t ++ rs)), st')
    /\ map step_number rs = map step_number_of steps.
Proof.
  induction steps as [ | step rest IH]; intros t st Hd.
  - exists [], st. simpl. unfold ret. rewrite app_nil_r.
    split; [ | reflexivity ]. destruct t; simpl.
    apply same_tally; (lia || reflexivity).
  - simpl in Hd. apply andb_true_iff in Hd as [Hstep Hrest].
    destruct step; try discriminate Hstep.
    destruct (run_step_dict d t st) as (r & st1 & Hrun & Hnum).
    destruct (IH (mk_tally (completed t + count_status "success" [r])
                    (failed t + (1 - count_status "success" [r]))
                    (collected t ++ [r])) st1 Hrest)
      as (rs & st2 & Hruns & Hnums).
    exists (r :: rs), st2. split.
    + simpl run_steps. unfold bind at 1. rewrite Hrun, Hruns.
      cbn [completed failed collected]. rewrite <- app_assoc.
      cbn [count_status List.length List.app].
      rewrite Nat2Z.inj_succ. apply same_tally; (lia || reflexivity).
    + simpl. rewrite Hnum, Hnums. reflexivity.
Qed.

Lemma run_steps_need_dicts steps : forall t st t' st',
  run_steps rt tools steps t st = (Returns t', st') ->
  forallb is_dict steps = true.
Proof.
  induction steps as [ | step rest IH]; intros t st t' st' H.
  - reflexivity.
  - simpl in H. bind_inv H t1 st1 Hrun. simpl.
    rewrite (run_step_needs_dict _ _ _ _ _ Hrun). simpl.
    exact (IH _ _ _ _ H).
Qed.

Lemma chars_length s : List.length (chars s) = char_length s.
Proof. apply length_map. Qed.

Lemma len_of_iterate v steps :
  iterate v = Returns steps -> len v = Returns (Z.of_nat (List.length steps)).
Proof.
  destruct v; simpl; intros H; try discriminate H; inversion H; subst.
  - rewrite chars_length. reflexivity.
  - reflexivity.
  - rewrite length_map. reflexivity.
Qed.

(** What a returning [execute_plan] has done. *)
Lemma execute_plan_returns plan st res st' :
  execute_plan rt tools plan st = (Returns res, st') ->
  exists steps,
    plan_steps plan = Returns steps
    /\ forallb is_dict steps = true
    /\ map step_number (results res) = map step_number_of steps
    /\ steps_completed res = count_status "success" (results res)
    /\ steps_failed res
       = Z.of_nat (List.length (results res)) - count_status "success" (results res)
    /\ success res = (0 <? steps_completed res).
Proof.
  unfold execute_plan, plan_steps. intros H.
  destruct plan as [ | b | z | f | s | l | fields];
    cbn [is_dict negb] in H; rewrite ?orb_true_r in H; try discriminate H.
  destruct fields as [ | kv fields]; [discriminate H | ].
  cbn [truthy negb orb] in H.
  bind_inv H has_steps st1 Hin. pure_inv Hin.
  destruct has_steps; cbn [negb] in H; [ | discriminate H ].
  bind_inv H steps_value st2 Hitem. pure_inv Hitem. rewrite Hitem. cbn [obind].
  destruct (truthy steps_value); cbn [negb] in H; [ | discriminate H ].
  bind_inv H n st3 Hlen. pure_inv Hlen.
  bind_inv H u st4 Hreset. inversion Hreset; subst; clear Hreset.
  bind_inv H steps st5 Hiter. pure_inv Hiter.
  bind_inv H t st6 Hloop. inversion H; subst; clear H.
  exists steps. split; [exact Hiter | ].
  pose proof (run_steps_need_dicts _ _ _ _ _ Hloop) as Hd.
  destruct (run_steps_dicts steps (mk_tally 0 0 [])
              (mk_executor_state (proc st) []) Hd)
    as (rs & st7 & Hruns & Hnums).
  rewrite Hruns in Hloop. inversion Hloop; subst; clear Hloop.
  cbn. repeat split; try assumption; lia.
Qed.

Lemma execute_plan_total fields steps st :
  lookup "steps" fields = Some (VList steps) ->
  truthy (VList steps) = true ->
  forallb is_dict steps = true ->
  exists res st',
    execute_plan rt tools (VDict fields) st = (Returns res, st')
    /\ map step_number (results res) = map step_number_of steps.
Proof.
  intros Hsteps Hsome Hdicts. unfold execute_plan.
  destruct fields as [ | kv fields]; [discriminate Hsteps | ].
  cbn [truthy is_dict negb orb].
  unfold bind at 1, pure_outcome at 1. cbn [str_in]. rewrite Hsteps. cbn [negb].
  unfold bind at 1, pure_outcome at 1. cbn [getitem]. rewrite Hsteps.
  rewrite Hsome. cbn [negb].
  unfold bind at 1, pure_outcome at 1. cbn [len].
  unfold bind at 1.
  unfold bind at 1, pure_outcome at 1. cbn [iterate].
  destruct (run_steps_dicts steps (mk_tally 0 0 [])
              (mk_executor_state (proc st) []) Hdicts)
    as (rs & st1 & Hruns & Hnums).
  unfold bind. rewrite Hruns. eexists. eexists. split; [reflexivity | ].
  exact Hnums.
Qed.

(** A step that names a tool nobody registered fails with a message
    that quotes the name, and nothing is raised. *)
Lemma unknown_tool_fails fields name p :
  lookup "tool" fields = Some (VStr name) ->
  find_tool name tools = None ->
  _execute_step rt tools (VDict fields) p
  = (Returns (mk_StepResult (step_number_of (VDict fields)) "failed" VNone
                (Some ("Tool '" ++ str_of rt (VStr name)
                       ++ "' not found in available tools")) 0%float), p).
Proof.
  intros Htool Hnone. unfold _execute_step. cbn [get]. rewrite Htool.
  unfold bind, pure_outcome, lookup_tool. rewrite Hnone. reflexivity.
Qed.

(** C1. Whenever [execute_plan] returns, [success] is true exactly when
    [steps_completed] is positive, and [steps_completed] counts the
    results whose status is "success": one successful step among failed
    ones gives success, and no successful step gives failure. *)
Theorem execute_plan_success_iff_completed plan st res st' :
  execute_plan rt tools plan st = (Returns res, st') ->
  (success res = true <-> 0 < steps_completed res)
  /\ steps_completed res = count_status "success" (results res).
Proof.
  intros H. apply execute_plan_returns in H
    as (steps & _ & _ & _ & Hcount & _ & Hsuccess).
  split; [ | exact Hcount ].
  rewrite Hsuccess. apply Z.ltb_lt.
Qed.

(** C2. Whenever [execute_plan] returns, the two counters add up to
    [len(plan["steps"])], which is also the number of results: every
    step is tallied once, as completed or as failed. *)
Theorem execute_plan_tallies_every_step plan st res st' :
  execute_plan rt tools plan st = (Returns res, st') ->
  plan_length plan = Returns (steps_completed res + steps_failed res)
  /\ steps_completed res + steps_failed res
     = Z.of_nat (List.length (results res)).
Proof.
  intros H. apply execute_plan_returns in H
    as (steps & Hsteps & _ & Hnums & Hc & Hf & _).
  assert (Hlen : List.length (results res) = List.length steps).
  { rewrite <- (length_map step_number), Hnums. apply length_map. }
  split; [ | lia ].
  unfold plan_length. unfold plan_steps in Hsteps.
  destruct (getitem plan "steps") as [v | e]; [ | discriminate Hsteps ].
  cbn [obind] in *. rewrite (len_of_iterate _ _ Hsteps).
  f_equal. lia.
Qed.

(** C10, for the plans the planner hands over.  A plan whose steps are a
    non-empty list of dicts is run to the end: [execute_plan] returns, and the results carry the step numbers
    of the plan's steps, one result per step and in the plan's order.
    Nothing a step does, an unknown or unhashable tool name included,
    raises out of [execute_plan]. *)
Theorem execute_plan_one_result_per_step fields steps st :
  lookup "steps" fields = Some (VList steps) ->
  truthy (VList steps) = true ->
  forallb is_dict steps = true ->
  exists res st',
    execute_plan rt tools (VDict fields) st = (Returns res, st')
    /\ map step_number (results res) = map step_number_of steps
    /\ List.length (results res) = List.length steps.
Proof.
  intros Hsteps Hsome Hdicts.
  destruct (execute_plan_total fields steps st Hsteps Hsome Hdicts)
    as (res & st' & Hrun & Hnums).
  exists res, st'. repeat split; try assumption.
  rewrite <- (length_map step_number), Hnums. apply length_map.
Qed.

End ExecutorFacts.

(** The run of [mixed_plan] with a weather tool that times out three
    times: one step completes and two fail. *)
Lemma mixed_plan_success :
  exists res st',
    execute_plan (offline_runtime rate_limited)
      (weather_tools connection_timeout 3) mixed_plan fresh = (Returns res, st')
    /\ steps_completed res = 1
    /\ ((success res = true <-> 0 < steps_completed res)
        /\ steps_completed res = count_status "success" (results res)).
Proof.
  eexists. eexists. split; [vm_compute; reflexivity | ].
  split; [reflexivity | ].
  eapply (execute_plan_success_iff_completed (offline_runtime rate_limited)
           (weather_tools connection_timeout 3) mixed_plan fresh).
  vm_compute. reflexivity.
Defined.

Lemma mixed_plan_tally :
  exists res st',
    execute_plan (offline_runtime rate_limited)
      (weather_tools connection_timeout 3) mixed_plan fresh = (Returns res, st')
    /\ steps_failed res = 2
    /\ (plan_length mixed_plan = Returns (steps_completed res + steps_failed res)
        /\ steps_completed res + steps_failed res
           = Z.of_nat (List.length (results res))).
Proof.
  eexists. eexists. split; [vm_compute; reflexivity | ].
  split; [reflexivity | ].
  eapply (execute_plan_tallies_every_step (offline_runtime rate_limited)
           (weather_tools connection_timeout 3) mixed_plan fresh).
  vm_compute. reflexivity.
Defined.

Lemma mixed_plan_results :
  exists res st',
    execute_plan (offline_runtime rate_limited)
      (weather_tools connection_timeout 3) mixed_plan fresh = (Returns res, st')
    /\ map step_number (results res) = [VInt 1; VInt 2; VInt 3]
    /\ List.length (results res) = 3%nat.
Proof.
  exact (execute_plan_one_result_per_step (offline_runtime rate_limited)
           (weather_tools connection_timeout 3)
           (plan_fields mixed_steps) mixed_steps fresh
           eq_refl eq_refl eq_refl).
Defined.

(** Against C10 as stated: a plan whose only step is the number 5 passes
    both guards of [execute_plan], and the [AttributeError] of
    [step.get("step_number", 0)], which stands before the [try], leaves
    [execute_plan]. *)
Lemma non_dict_step_escapes :
  truthy (plan_of [VInt 5]) && is_dict (plan_of [VInt 5]) = true
  /\ getitem (plan_of [VInt 5]) "steps" = Returns (VList [VInt 5])
  /\ truthy (VList [VInt 5]) = true
  /\ execute_plan (offline_runtime rate_limited)
       (weather_tools connection_timeout 3) (plan_of [VInt 5]) fresh
     = (Raises (mk_exn AttributeError "'int' object has no attribute 'get'"), fresh).
Proof. repeat split; vm_compute; reflexivity. Qed.


(** ** The retry wrapper of the executor *)

Section RetryFacts.

Context {W : Type}.
Variable rt : runtime W.

Lemma external_runs {A : Type} (f : W -> outcome A * W) w sl r w' :
  f w = (r, w') -> external f (mk_process w sl) = (r, mk_process w' sl).
Proof. unfold external. simpl. intros ->. reflexivity. Qed.

Lemma time_sleep_float d p :
  PrimFloat.leb 0%float d = true ->
  time_sleep rt (VFloat d) p
  = (Returns tt, mk_process (asleep rt (VFloat d) (world p)) (sleeps p ++ [VFloat d])).
Proof. unfold time_sleep. intros ->. reflexivity. Qed.

Lemma retry_loop_returns func mr bf n a d last p v p' :
  func p = (Returns v, p') ->
  retry_loop rt func mr bf (S n) a d last p = (Returns v, p').
Proof. simpl. unfold try_except. intros ->. reflexivity. Qed.

Lemma retry_loop_gives_up func mr bf n a d last p e p' :
  func p = (Raises e, p') ->
  negb (is_transient e) || (mr <=? a) = true ->
  retry_loop rt func mr bf (S n) a d last p = (Raises e, p').
Proof. simpl. unfold try_except. intros -> ->. reflexivity. Qed.

Lemma retry_loop_sleeps func mr bf n a d last p e p' :
  func p = (Raises e, p') ->
  is_transient e = true ->
  a < mr ->
  PrimFloat.leb 0%float d = true ->
  retry_loop rt func mr bf (S n) a d last p
  = retry_loop rt func mr bf n (a + 1) (PrimFloat.mul d bf) (Some e)
      (mk_process (asleep rt (VFloat d) (world p')) (sleeps p' ++ [VFloat d])).
Proof.
  simpl. unfold try_except. intros -> Ht Ha Hd. rewrite Ht.
  replace (mr <=? a) with false by (symmetry; apply Z.leb_gt; exact Ha).
  cbn [negb orb]. unfold bind. rewrite (time_sleep_float _ _ Hd). reflexivity.
Qed.

(** Once [_retry_with_backoff] has raised, the step is a failed result
    that carries the error's text. *)
Lemma execute_step_reports_error tools fields name t p e p' :
  lookup_tool tools
    (match lookup "tool" fields with Some v => v | None => VStr "" end)
  = Returns (Some (name, t)) ->
  _retry_with_backoff rt
    (_call_tool_method t name
       (match lookup "parameters" fields with Some v => v | None => VDict [] end))
    3 1%float 2%float p = (Raises e, p') ->
  exists r,
    _execute_step rt tools (VDict fields) p = (Returns r, p')
    /\ status r = "failed" /\ error r = Some (exn_msg e).
Proof.
  intros Htool Hretry. unfold _execute_step. cbn [get].
  unfold bind at 1, pure_outcome at 1.
  unfold bind at 1, pure_outcome at 1.
  unfold bind at 1, pure_outcome at 1.
  unfold bind at 1, pure_outcome at 1. rewrite Htool.
  unfold bind at 1, now at 1. unfold try_except.
  unfold bind at 1. rewrite Hretry.
  unfold bind, now, ret. eexists. split; [reflexivity | ].
  split; reflexivity.
Qed.

(** C6. The retry wrapper as [_execute_step] calls it (3 retries, first
    delay 1.0, factor 2.0).  Two transient failures and then a value:
    the value is returned after the sleeps 1.0 and 2.0 and no other.  An
    error whose text has no transient keyword: it is raised at once, with
    no sleep.  Four transient failures: the fourth is raised after the
    sleeps 1.0, 2.0 and 4.0, with no fifth attempt, and the step that
    called the wrapper fails with that error's text. *)
Theorem retry_with_backoff_schedule (f : W -> outcome value * W) w0 sl :
  (forall e1 w1 e2 w2 v w3,
      f w0 = (Raises e1, w1) -> is_transient e1 = true ->
      f (asleep rt (VFloat 1) w1) = (Raises e2, w2) -> is_transient e2 = true ->
      f (asleep rt (VFloat 2) w2) = (Returns v, w3) ->
      _retry_with_backoff rt (external f) 3 1%float 2%float (mk_process w0 sl)
      = (Returns v, mk_process w3 (sl ++ [VFloat 1; VFloat 2])))
  /\ (forall e w1,
         f w0 = (Raises e, w1) -> is_transient e = false ->
         _retry_with_backoff rt (external f) 3 1%float 2%float (mk_process w0 sl)
         = (Raises e, mk_process w1 sl))
  /\ (forall e1 w1 e2 w2 e3 w3 e4 w4,
         f w0 = (Raises e1, w1) -> is_transient e1 = true ->
         f (asleep rt (VFloat 1) w1) = (Raises e2, w2) -> is_transient e2 = true ->
         f (asleep rt (VFloat 2) w2) = (Raises e3, w3) -> is_transient e3 = true ->
         f (asleep rt (VFloat 4) w3) = (Raises e4, w4) ->
         _retry_with_backoff rt (external f) 3 1%float 2%float (mk_process w0 sl)
         = (Raises e4, mk_process w4 (sl ++ [VFloat 1; VFloat 2; VFloat 4])))
  /\ (forall tools fields name t p e p',
         lookup_tool tools
           (match lookup "tool" fields with Some v => v | None => VStr "" end)
         = Returns (Some (name, t)) ->
         _retry_with_backoff rt
           (_call_tool_method t name
              (match lookup "parameters" fields with
               | Some v => v
               | None => VDict []
               end))
           3 1%float 2%float p = (Raises e, p') ->
         exists r,
           _execute_step rt tools (VDict fields) p = (Returns r, p')
           /\ status r = "failed" /\ error r = Some (exn_msg e)).
Proof.
  unfold _retry_with_backoff.
  change (Z.to_nat (3 + 1)) with 4%nat.
  repeat split.
  - intros e1 w1 e2 w2 v w3 H1 T1 H2 T2 H3.
    rewrite (retry_loop_sleeps _ _ _ _ _ _ _ _ _ _
               (external_runs f _ _ _ _ H1) T1) by (lia || reflexivity).
    cbn [world sleeps].
    rewrite (retry_loop_sleeps _ _ _ _ _ _ _ _ _ _
               (external_runs f _ _ _ _ H2) T2) by (lia || reflexivity).
    cbn [world sleeps].
    rewrite (retry_loop_returns _ _ _ _ _ _ _ _ _ _
               (external_runs f _ _ _ _ H3)).
    rewrite <- app_assoc. reflexivity.
  - intros e w1 H1 T1.
    apply retry_loop_gives_up with (1 := external_runs f _ _ _ _ H1).
    rewrite T1. reflexivity.
  - intros e1 w1 e2 w2 e3 w3 e4 w4 H1 T1 H2 T2 H3 T3 H4.
    rewrite (retry_loop_sleeps _ _ _ _ _ _ _ _ _ _
               (external_runs f _ _ _ _ H1) T1) by (lia || reflexivity).
    cbn [world sleeps].
    rewrite (retry_loop_sleeps _ _ _ _ _ _ _ _ _ _
               (external_runs f _ _ _ _ H2) T2) by (lia || reflexivity).
    cbn [world sleeps].
    rewrite (retry_loop_sleeps _ _ _ _ _ _ _ _ _ _
               (external_runs f _ _ _ _ H3) T3) by (lia || reflexivity).
    cbn [world sleeps].
    rewrite (retry_loop_gives_up _ _ _ _ _ _ _ _ _ _
               (external_runs f _ _ _ _ H4)).
    + rewrite <- !app_assoc. reflexivity.
    + apply orb_true_r.
  - intros tools fields name t p e p'. apply execute_step_reports_error.
Qed.

End RetryFacts.

(** The wrapper run against a tool call that times out twice, one that
    does not know the city, and one that times out four times. *)
Lemma retry_schedule_on_flaky_tool :
  _retry_with_backoff (offline_runtime rate_limited)
    (external (flaky connection_timeout 2)) 3 1%float 2%float start
  = (Returns paris_weather, mk_process 3%nat [VFloat 1; VFloat 2])
  /\ _retry_with_backoff (offline_runtime rate_limited)
       (external (flaky not_found 1)) 3 1%float 2%float start
     = (Raises not_found, mk_process 1%nat [])
  /\ _retry_with_backoff (offline_runtime rate_limited)
       (external (flaky connection_timeout 4)) 3 1%float 2%float start
     = (Raises connection_timeout, mk_process 4%nat [VFloat 1; VFloat 2; VFloat 4]).
Proof.
  split; [ | split ].
  - apply (proj1 (retry_with_backoff_schedule (offline_runtime rate_limited)
                    (flaky connection_timeout 2) O []))
      with (e1 := connection_timeout) (w1 := 1%nat)
           (e2 := connection_timeout) (w2 := 2%nat);
      reflexivity.
  - apply (proj1 (proj2 (retry_with_backoff_schedule (offline_runtime rate_limited)
                           (flaky not_found 1) O [])));
      reflexivity.
  - apply (proj1 (proj2 (proj2 (retry_with_backoff_schedule
                                  (offline_runtime rate_limited)
                                  (flaky connection_timeout 4) O []))))
      with (e1 := connection_timeout) (w1 := 1%nat)
           (e2 := connection_timeout) (w2 := 2%nat)
           (e3 := connection_timeout) (w3 := 3%nat);
      reflexivity.
Defined.

(** ** The LLM client *)

Section GatewayFacts.

Context {W : Type}.
Variable rt : runtime W.
Variable c : LLMClient.
Variable messages : list (string * string).
Variable max_tokens : Z.
Variable response_format : value.

Lemma backoff_nonnegative a : 0 <= _calculate_backoff a.
Proof.
  unfold _calculate_backoff. apply Z.min_glb; [ | lia ].
  apply Z.pow_nonneg. lia.
Qed.

Lemma time_sleep_backoff a p :
  time_sleep rt (VInt (_calculate_backoff a)) p
  = (Returns tt,
     mk_process (asleep rt (VInt (_calculate_backoff a)) (world p))
       (sleeps p ++ [VInt (_calculate_backoff a)])).
Proof.
  unfold time_sleep.
  replace (0 <=? _calculate_backoff a) with true
    by (symmetry; apply Z.leb_le, backoff_nonnegative).
  reflexivity.
Qed.

Lemma completion_loop_typed m a last p e p' :
  attempt_completion rt c messages max_tokens response_format p = (Raises e, p') ->
  String.eqb (provider c) "openai" && OPENAI_AVAILABLE c = true ->
  is_provider_transient e = true ->
  completion_loop rt c messages max_tokens response_format (S m) a last p
  = retried rt c messages max_tokens response_format m a e p'.
Proof.
  intros Hcall Hopenai Htransient. cbn [completion_loop]. unfold try_except.
  rewrite Hcall, Hopenai. unfold is_provider_transient in Htransient.
  unfold retried.
  destruct (exn_class_of e) as [ | | | | | | [code | ] | ];
    try discriminate Htransient;
    rewrite ?Htransient; unfold bind; rewrite time_sleep_backoff; reflexivity.
Qed.

Lemma keyword_branch e :
  is_keyword_retryable c e = true ->
  any_keyword_in retryable_keywords (lower (exn_msg e)) = true
  /\ (String.eqb (provider c) "openai" && OPENAI_AVAILABLE c = true ->
      match exn_class_of e with
      | RateLimitError | APIConnectionError | APIError _ => False
      | _ => True
      end).
Proof.
  unfold is_keyword_retryable. intros H.
  apply andb_true_iff in H as [Hk Hn]. split; [exact Hk | ].
  intros Hopenai. rewrite Hopenai in Hn.
  destruct (exn_class_of e); try exact I; discriminate Hn.
Qed.

Lemma completion_loop_keyword m a last p e p' :
  attempt_completion rt c messages max_tokens response_format p = (Raises e, p') ->
  is_keyword_retryable c e = true ->
  completion_loop rt c messages max_tokens response_format (S m) a last p
  = if a <? max_retries c - 1
    then retried rt c messages max_tokens response_format m a e p'
    else (Raises e, p').
Proof.
  intros Hcall Hkey. cbn [completion_loop]. unfold try_except.
  rewrite Hcall. apply keyword_branch in Hkey as [Hk Hclass].
  rewrite Hk. cbn [andb]. unfold retried.
  assert (Hgen :
    (if a <? max_retries c - 1
     then
       bind (time_sleep rt (VInt (_calculate_backoff a)))
         (fun _ => completion_loop rt c messages max_tokens response_format
                     m (a + 1) (Some e))
     else raise e) p'
    = if a <? max_retries c - 1
      then completion_loop rt c messages max_tokens response_format m
             (a + 1) (Some e)
             (mk_process (asleep rt (VInt (_calculate_backoff a)) (world p'))
                (sleeps p' ++ [VInt (_calculate_backoff a)]))
      else (Raises e, p')).
  { destruct (a <? max_retries c - 1); [ | reflexivity ].
    unfold bind. rewrite time_sleep_backoff. reflexivity. }
  destruct (String.eqb (provider c) "openai" && OPENAI_AVAILABLE c) eqn:Ho.
  - specialize (Hclass eq_refl).
    destruct (exn_class_of e); try contradiction; exact Hgen.
  - exact Hgen.
Qed.

Lemma backoff_waits_step k m :
  backoff_waits k (S m) = VInt (_calculate_backoff (Z.of_nat k)) :: backoff_waits (S k) m.
Proof. reflexivity. Qed.

Section Attempts.

Variables before after : nat -> W.
Variable errs : nat -> exn.
Variable n : nat.

Hypothesis attempts_fail : forall i sl,
  (i <= n)%nat ->
  attempt_completion rt c messages max_tokens response_format
    (mk_process (before i) sl)
  = (Raises (errs i), mk_process (after i) sl).

Hypothesis worlds_follow : forall i,
  (i <= n)%nat ->
  before (S i) = asleep rt (VInt (_calculate_backoff (Z.of_nat i))) (after i).

(** The OpenAI branch: every attempt is followed by a sleep, and the
    statements after the loop raise the wrapping exception. *)
Lemma typed_attempts_exhaust :
  String.eqb (provider c) "openai" && OPENAI_AVAILABLE c = true ->
  (forall i, (i <= n)%nat -> is_provider_transient (errs i) = true) ->
  forall m k sl last,
    (k + m = S n)%nat ->
    completion_loop rt c messages max_tokens response_format m (Z.of_nat k) last
      (mk_process (before k) sl)
    = (Raises (mk_exn PlainException
                 ("Failed after " ++ str_of rt (VInt (max_retries c))
                  ++ " attempts. Last error: "
                  ++ str_of_error (match m with O => last | S _ => Some (errs n) end))),
       mk_process (before (S n)) (sl ++ backoff_waits k m)).
Proof.
  intros Hopenai Htransient.
  induction m as [ | m IH]; intros k sl last Hk.
  - replace k with (S n) by lia. cbn [completion_loop]. unfold raise.
    unfold backoff_waits. cbn [seq map]. rewrite app_nil_r. reflexivity.
  - rewrite (completion_loop_typed _ _ _ _ _ _
               (attempts_fail k sl ltac:(lia)) Hopenai (Htransient k ltac:(lia))).
    unfold retried. cbn [world sleeps].
    rewrite <- (worlds_follow k) by lia.
    replace (Z.of_nat k + 1) with (Z.of_nat (S k)) by lia.
    rewrite (IH (S k)) by lia.
    rewrite backoff_waits_step, <- app_assoc. cbn [List.app].
    destruct m as [ | m'].
    + replace k with n by lia. reflexivity.
    + reflexivity.
Qed.

(** The keyword branch: the last attempt re-raises what it caught. *)
Lemma keyword_attempts_reraise :
  max_retries c = Z.of_nat (S n) ->
  (forall i, (i <= n)%nat -> is_keyword_retryable c (errs i) = true) ->
  forall m k sl last,
    (k + S m = S n)%nat ->
    completion_loop rt c messages max_tokens response_format (S m) (Z.of_nat k) last
      (mk_process (before k) sl)
    = (Raises (errs n), mk_process (after n) (sl ++ backoff_waits k m)).
Proof.
  intros Hmax Hkey.
  induction m as [ | m IH]; intros k sl last Hk.
  - rewrite (completion_loop_keyword _ _ _ _ _ _
               (attempts_fail k sl ltac:(lia)) (Hkey k ltac:(lia))).
    replace (Z.of_nat k <? max_retries c - 1) with false
      by (symmetry; apply Z.ltb_ge; lia).
    replace k with n by lia. unfold backoff_waits. cbn [seq map].
    rewrite app_nil_r. reflexivity.
  - rewrite (completion_loop_keyword _ _ _ _ _ _
               (attempts_fail k sl ltac:(lia)) (Hkey k ltac:(lia))).
    replace (Z.of_nat k <? max_retries c - 1) with true
      by (symmetry; apply Z.ltb_lt; lia).
    unfold retried. cbn [world sleeps].
    rewrite <- (worlds_follow k) by lia.
    replace (Z.of_nat k + 1) with (Z.of_nat (S k)) by lia.
    rewrite (IH (S k)) by lia.
    rewrite backoff_waits_step, <- app_assoc. reflexivity.
Qed.

End Attempts.

(** C9, as the code has it.  Let every one of the [max_retries]
    attempts fail.  If the client is the OpenAI one and the failures are
    rate-limit, connection or 5xx API errors, every attempt is followed
    by a sleep of [min(2 ** attempt, 60)] seconds and [generate_completion]
    raises one new exception whose text names the attempt count and the
    last error.  If the failures are retried on the keyword test instead
    (the Gemini client, or errors of other classes), the sleeps stand
    between the attempts only and the last attempt raises the error it
    caught, unchanged. *)
Theorem generate_completion_exhaustion (before after : nat -> W)
    (errs : nat -> exn) (n : nat) (sl : list value) :
  (0 < List.length messages)%nat ->
  max_retries c = Z.of_nat (S n) ->
  (forall i sl', (i <= n)%nat ->
     attempt_completion rt c messages max_tokens response_format
       (mk_process (before i) sl')
     = (Raises (errs i), mk_process (after i) sl')) ->
  (forall i, (i <= n)%nat ->
     before (S i) = asleep rt (VInt (_calculate_backoff (Z.of_nat i))) (after i)) ->
  (String.eqb (provider c) "openai" && OPENAI_AVAILABLE c = true ->
   (forall i, (i <= n)%nat -> is_provider_transient (errs i) = true) ->
   generate_completion rt c messages max_tokens response_format
     (mk_process (before O) sl)
   = (Raises (mk_exn PlainException
                ("Failed after " ++ str_of rt (VInt (max_retries c))
                 ++ " attempts. Last error: " ++ exn_msg (errs n))),
      mk_process (before (S n)) (sl ++ backoff_waits O (S n))))
  /\ ((forall i, (i <= n)%nat -> is_keyword_retryable c (errs i) = true) ->
      generate_completion rt c messages max_tokens response_format
        (mk_process (before O) sl)
      = (Raises (errs n), mk_process (after n) (sl ++ backoff_waits O n)))
  /\ (forall attempt, _calculate_backoff attempt = Z.min (2 ^ attempt) 60).
Proof.
  intros Hmsgs Hmax Hfail Hworlds.
  assert (Hloop :
    generate_completion rt c messages max_tokens response_format
      (mk_process (before O) sl)
    = completion_loop rt c messages max_tokens response_format (S n) 0 None
        (mk_process (before O) sl)).
  { unfold generate_completion. destruct messages; [simpl in Hmsgs; lia | ].
    rewrite Hmax, Nat2Z.id. reflexivity. }
  rewrite Hloop. split; [ | split ].
  - intros Hopenai Htransient.
    exact (typed_attempts_exhaust before after errs n Hfail Hworlds
             Hopenai Htransient (S n) O sl None eq_refl).
  - intros Hkey.
    exact (keyword_attempts_reraise before after errs n Hfail Hworlds
             Hmax Hkey n O sl None eq_refl).
  - reflexivity.
Qed.

End GatewayFacts.

(** Three rate-limit errors from the OpenAI client, and three "503"
    errors from the Gemini client. *)
Lemma exhaustion_on_offline_provider :
  generate_completion (offline_runtime rate_limited) openai_client
    [("user", "hello")] 2000 VNone start
  = (Raises (mk_exn PlainException
               "Failed after 3 attempts. Last error: Rate limit exceeded"),
     mk_process 3%nat [VInt 1; VInt 2; VInt 4])
  /\ generate_completion (offline_runtime unavailable) gemini_client
       [("user", "hello")] 2000 VNone start
     = (Raises unavailable, mk_process 3%nat [VInt 1; VInt 2]).
Proof.
  split.
  - apply (proj1 (generate_completion_exhaustion (offline_runtime rate_limited)
                    openai_client [("user", "hello")] 2000 VNone
                    (fun i => i) S (fun _ => rate_limited) 2 []
                    ltac:(simpl; lia) eq_refl
                    (fun i sl' _ => eq_refl) (fun i _ => eq_refl)));
      [reflexivity | intros i _; reflexivity].
  - apply (proj1 (proj2 (generate_completion_exhaustion
                           (offline_runtime unavailable)
                           gemini_client [("user", "hello")] 2000 VNone
                           (fun i => i) S (fun _ => unavailable) 2 []
                           ltac:(simpl; lia) eq_refl
                           (fun i sl' _ => eq_refl) (fun i _ => eq_refl))));
      intros i _; reflexivity.
Defined.

(** Against C9 as stated: with the Gemini client every attempt fails
    with a retryable "503" error, and what [generate_completion] raises
    after the third attempt is that error itself, not an exception that
    wraps it. *)
Lemma gemini_exhaustion_reraises :
  is_keyword_retryable gemini_client unavailable = true
  /\ gemini_generate_content (offline_runtime unavailable)
       ("User: hello" ++ new_line) 2000 false 2%nat
     = (Raises unavailable, 3%nat)
  /\ generate_completion (offline_runtime unavailable) gemini_client
       [("user", "hello")] 2000 VNone start
     = (Raises unavailable, mk_process 3%nat [VInt 1; VInt 2]).
Proof. repeat split; vm_compute; reflexivity. Qed.

(** ** The verifier *)

Section VerifierFacts.

Context {W : Type}.
Variable rt : runtime W.
Variable texts : prompt_texts.
Variable llm_client : LLMClient.

Lemma anomalies_of_never_empty_set r :
  match anomalies_of rt r with
  | Returns found => existsb (String.eqb empty_set_message) found = false
  | Raises _ => True
  end.
Proof.
  unfold anomalies_of.
  destruct (negb (String.eqb (status r) "success")); [reflexivity | ].
  destruct (data r) as [ | b | z | f | s | l | d]; cbn [truthy];
    try (destruct (negb _); reflexivity).
  - destruct l; reflexivity.
  - destruct d as [ | kv d]; [reflexivity | ]. cbn [negb].
    destruct (lookup "temperature" (kv :: d)) as [temp | ]; [ | reflexivity ].
    destruct temp; try reflexivity;
      (destruct (lt_int _ _) as [[ | ] | ]; cbn [obind];
       [ | destruct (gt_int _ _) as [[ | ] | ]; cbn [obind] | ];
       first [reflexivity | exact I]).
Qed.

Lemma scan_results_never_empty_set rs : forall acc,
  existsb (String.eqb empty_set_message) acc = false ->
  match scan_results rt rs acc with
  | Returns found => existsb (String.eqb empty_set_message) found = false
  | Raises _ => True
  end.
Proof.
  induction rs as [ | r rs IH]; intros acc Hacc.
  - exact Hacc.
  - cbn [scan_results]. pose proof (anomalies_of_never_empty_set r) as Hr.
    destruct (anomalies_of rt r) as [found | e]; [ | exact I ].
    cbn [obind]. apply IH. rewrite existsb_app, Hacc, Hr. reflexivity.
Qed.

Lemma quality_pass_keeps_issues plan execution_result found p q p' :
  quality_pass rt texts llm_client plan execution_result found p = (Returns q, p') ->
  exists more, q_issues q = (found ++ more)%list.
Proof.
  unfold quality_pass, try_except. intros H.
  destruct (bind _ _ p) as [[q0 | e] p0] eqn:Htry.
  - inversion H; subst; clear H.
    bind_inv Htry v p1 H1. bind_inv Htry v1 p2 H2. bind_inv Htry v2 p3 H3.
    bind_inv Htry v3 p4 H4. bind_inv Htry v4 p5 H5. bind_inv Htry v5 p6 H6.
    bind_inv Htry more p7 H7. ret_inv Htry. exists more. reflexivity.
  - ret_inv H. exists []. symmetry. apply app_nil_r.
Qed.

Lemma quality_pass_fallback plan execution_result found p e p' :
  _verify_with_llm rt texts llm_client plan execution_result p = (Raises e, p') ->
  quality_pass rt texts llm_client plan execution_result found p
  = (Returns (mk_quality (VStr (_format_for_display rt execution_result))
                (VStr "Verification completed with basic formatting (LLM unavailable)")
                (VList []) (VFloat 0.5) found), p').
Proof.
  intros H. unfold quality_pass, try_except. unfold bind at 1. rewrite H.
  reflexivity.
Qed.

Lemma collect_issues_nonempty plan execution_result complete found :
  collect_issues rt plan execution_result = Returns (complete, found) ->
  (0 < steps_failed execution_result -> found <> [])
  /\ (complete = false -> found <> [])
  /\ (forall anomalies,
        _check_for_anomalies rt execution_result = Returns anomalies ->
        anomalies <> [] -> found <> []).
Proof.
  unfold collect_issues. intros H.
  destruct (negb (truthy plan) || negb (is_dict plan)); [discriminate H | ].
  destruct (_check_completeness plan execution_result) as [is_c | e];
    [ | discriminate H ].
  cbn [obind] in H.
  destruct (_check_for_anomalies rt execution_result) as [scanned | e] eqn:Hscan.
  - destruct (0 <? steps_failed execution_result) eqn:Hfailed;
      destruct is_c; cbn [negb obind List.app] in H.
    all: try (destruct (expected_steps_of plan) as [expected | e];
              cbn [obind List.app] in H; [ | discriminate H ]).
    all: inversion H; subst; clear H.
    all: split; [ | split ].
    all: try (intros Hpos; apply Z.ltb_lt in Hpos; congruence).
    all: try (intros Hc; discriminate Hc).
    all: try (intros _; discriminate).
    all: intros anomalies Heq Hne; inversion Heq; subst;
      destruct anomalies; [contradiction | discriminate].
  - destruct (0 <? steps_failed execution_result);
      destruct is_c; cbn [negb obind] in H;
      try (destruct (expected_steps_of plan); cbn [obind] in H);
      discriminate H.
Qed.

(** C7. Whenever [verify_results] returns, [is_correct] is true exactly
    when the returned issues are empty and the execution succeeded; a
    failed step, an incomplete run or a detected anomaly each make it
    false. *)
Theorem verify_results_is_correct plan execution_result p vr p' :
  verify_results rt texts llm_client plan execution_result p = (Returns vr, p') ->
  (is_correct vr = true <-> issues vr = [] /\ success execution_result = true)
  /\ (0 < steps_failed execution_result -> is_correct vr = false)
  /\ (is_complete vr = false -> is_correct vr = false)
  /\ (forall anomalies,
        _check_for_anomalies rt execution_result = Returns anomalies ->
        anomalies <> [] -> is_correct vr = false).
Proof.
  unfold verify_results. intros H.
  bind_inv H checked p1 Hcheck. pure_inv Hcheck.
  destruct checked as [complete found].
  bind_inv H q p2 Hq. ret_inv H.
  apply quality_pass_keeps_issues in Hq as [more Hmore].
  apply collect_issues_nonempty in Hcheck as (Hf & Hc & Ha).
  cbn [is_correct issues is_complete].
  assert (Hfalse : found <> [] ->
            match q_issues q with [] => true | _ :: _ => false end
            && success execution_result = false).
  { intros Hne. rewrite Hmore. destruct found; [contradiction | reflexivity]. }
  split; [ | split; [ | split ] ].
  - destruct (q_issues q); cbn [andb]; split.
    + intros Hs. split; [reflexivity | exact Hs].
    + intros [_ Hs]. exact Hs.
    + discriminate.
    + intros [Hnil _]. discriminate Hnil.
  - intros Hpos. apply Hfalse, Hf, Hpos.
  - intros Hinc. apply Hfalse, Hc, Hinc.
  - intros anomalies Hscan Hne. apply Hfalse. exact (Ha anomalies Hscan Hne).
Qed.

(** C8, as the code has it.  When the guards and the deterministic
    checks have returned and the model call raises (a gateway error or a
    reply that is not JSON), [verify_results] returns all the same: the
    output of [_format_for_display], confidence 0.5, no recommendations,
    the issues found so far, and the summary "Verification completed with
    basic formatting (LLM unavailable)". *)
Theorem verify_results_fallback plan execution_result p e p' complete found :
  collect_issues rt plan execution_result = Returns (complete, found) ->
  _verify_with_llm rt texts llm_client plan execution_result p = (Raises e, p') ->
  verify_results rt texts llm_client plan execution_result p
  = (Returns
       (mk_VerificationResult complete
          (match found with [] => true | _ => false end && success execution_result)
          (VFloat 0.5) found
          (VStr (_format_for_display rt execution_result))
          (VStr "Verification completed with basic formatting (LLM unavailable)")
          (VList [])),
     p').
Proof.
  intros Hcheck Hllm. unfold verify_results.
  unfold bind at 1, pure_outcome at 1. rewrite Hcheck.
  unfold bind at 1. rewrite (quality_pass_fallback _ _ found _ _ _ Hllm).
  reflexivity.
Qed.

(** C3, on the code.  The scan never reports an empty result set: a
    step whose data is an empty list is skipped by the test [if not data]
    before the test for empty lists is reached.  On one successful step
    with [data = []] the scan finds nothing. *)
Theorem empty_result_set_is_never_reported :
  _check_for_anomalies rt empty_list_execution = Returns []
  /\ forall execution_result,
       match _check_for_anomalies rt execution_result with
       | Returns found => existsb (String.eqb empty_set_message) found = false
       | Raises _ => True
       end.
Proof.
  split; [reflexivity | ].
  intros execution_result. unfold _check_for_anomalies.
  apply scan_results_never_empty_set. reflexivity.
Qed.

End VerifierFacts.

(** The verifier on a successful weather step while the provider refuses
    every call. *)
Lemma verify_paris_is_correct :
  exists vr p',
    verify_results (offline_runtime rate_limited) no_texts openai_client
      paris_plan paris_execution start = (Returns vr, p')
    /\ is_correct vr = true
    /\ ((is_correct vr = true <-> issues vr = [] /\ success paris_execution = true)
        /\ (0 < steps_failed paris_execution -> is_correct vr = false)
        /\ (is_complete vr = false -> is_correct vr = false)
        /\ (forall anomalies,
              _check_for_anomalies (offline_runtime rate_limited) paris_execution
              = Returns anomalies ->
              anomalies <> [] -> is_correct vr = false)).
Proof.
  eexists. eexists. split; [vm_compute; reflexivity | ].
  split; [reflexivity | ].
  eapply (verify_results_is_correct (offline_runtime rate_limited) no_texts
            openai_client paris_plan paris_execution start).
  vm_compute. reflexivity.
Defined.

Lemma verify_paris_falls_back :
  verify_results (offline_runtime rate_limited) no_texts openai_client
    paris_plan paris_execution start
  = (Returns
       (mk_VerificationResult true true (VFloat 0.5) []
          (VStr (_format_for_display (offline_runtime rate_limited) paris_execution))
          (VStr "Verification completed with basic formatting (LLM unavailable)")
          (VList [])),
     mk_process 3%nat [VInt 1; VInt 2; VInt 4]).
Proof.
  apply (verify_results_fallback (offline_runtime rate_limited) no_texts
           openai_client paris_plan paris_execution start gave_up
           (mk_process 3%nat [VInt 1; VInt 2; VInt 4]) true []);
    vm_compute; reflexivity.
Defined.

(** Against C8 as stated: the model call fails, the fallback runs, and
    the summary is not the sentence the claim gives. *)
Lemma fallback_summary_is_longer :
  _verify_with_llm (offline_runtime rate_limited) no_texts openai_client
    paris_plan paris_execution start
  = (Raises gave_up, mk_process 3%nat [VInt 1; VInt 2; VInt 4])
  /\ exists vr p',
       verify_results (offline_runtime rate_limited) no_texts openai_client
         paris_plan paris_execution start = (Returns vr, p')
       /\ summary vr
          = VStr "Verification completed with basic formatting (LLM unavailable)"
       /\ eq_str (summary vr) stated_fallback_summary = false.
Proof.
  split; [vm_compute; reflexivity | ].
  eexists. eexists. split; [vm_compute; reflexivity | ].
  split; reflexivity.
Qed.

(** The failing input of C3 through the whole verifier: no issue is
    raised and the result counts as correct. *)
Lemma empty_list_passes_verification :
  exists vr p',
    verify_results (offline_runtime rate_limited) no_texts openai_client
      paris_plan empty_list_execution start = (Returns vr, p')
    /\ issues vr = [] /\ is_correct vr = true.
Proof.
  eexists. eexists. split; [vm_compute; reflexivity | ].
  split; reflexivity.
Qed.

(** ** The planner *)

(** C4, as the code has it.  The flag is true exactly when the query in
    lower case contains one of the eleven keywords of the code, among
    them " and " and " or " on their own; so a query with " and " is
    flagged whether or not it has a comma, and every query the
    specification's rule flags is flagged. *)
Theorem detect_comparison_intent_keywords (user_query : string) :
  (_detect_comparison_intent user_query = true <->
   exists keyword,
     In keyword comparison_keywords
     /\ contains keyword (lower user_query) = true)
  /\ (contains " and " (lower user_query) = true ->
      _detect_comparison_intent user_query = true)
  /\ (stated_comparison_flag (lower user_query) = true ->
      _detect_comparison_intent user_query = true).
Proof.
  unfold _detect_comparison_intent, stated_comparison_flag, any_keyword_in.
  set (q := lower user_query).
  destruct (existsb (fun keyword => contains keyword q) comparison_keywords)
    eqn:Hany.
  - split; [ | split ]; try (intros _; reflexivity).
    split; [intros _ | reflexivity].
    apply existsb_exists in Hany as (keyword & Hin & Hc).
    exists keyword. split; assumption.
  - pose proof Hany as Hall. unfold comparison_keywords in Hall.
    cbn [existsb] in Hall. repeat rewrite orb_false_iff in Hall.
    destruct Hall as (H1 & _ & H3 & H4 & H5 & _ & H7 & H8 & H9 & Hand & Hor & _).
    rewrite Hand, Hor, andb_false_r.
    split; [ | split ].
    + split; [discriminate | ].
      intros (keyword & Hin & Hc).
      assert (Hex : existsb (fun keyword => contains keyword q) comparison_keywords
                    = true)
        by (apply existsb_exists; exists keyword; split; assumption).
      congruence.
    + discriminate.
    + unfold listed_comparison_keywords. cbn [existsb].
      rewrite H1, H3, H4, H5, H7, H8, H9. discriminate.
Qed.

(** Against C4 as stated: " and " without a comma and without any of the
    seven listed keywords is flagged. *)
Lemma conjunction_alone_is_flagged :
  _detect_comparison_intent "weather in london and paris" = true
  /\ any_keyword_in listed_comparison_keywords "weather in london and paris" = false
  /\ contains "," "weather in london and paris" = false
  /\ stated_comparison_flag "weather in london and paris" = false.
Proof. repeat split; reflexivity. Qed.

Lemma first_missing_present fields names :
  forallb (has_key fields) names = true ->
  first_missing names (VDict fields) = Returns None.
Proof.
  induction names as [ | name names IH]; intros H; [reflexivity | ].
  cbn [forallb] in H. apply andb_true_iff in H as [Hname Hrest].
  cbn [first_missing str_in obind]. unfold has_key in Hname.
  destruct (lookup name fields); [exact (IH Hrest) | discriminate Hname].
Qed.

Lemma first_missing_step_number step :
  first_missing step_required_fields step = Returns None ->
  str_in "step_number" step = Returns true.
Proof.
  unfold step_required_fields. cbn [first_missing].
  destruct (str_in "step_number" step) as [[ | ] | e]; cbn [obind];
    intros H; try discriminate H; reflexivity.
Qed.

Lemma validate_step_number i step :
  validate_step i step = Returns true ->
  exists fields v,
    step = VDict fields /\ lookup "step_number" fields = Some v
    /\ eq_int v (i + 1) = true.
Proof.
  unfold validate_step. intros H.
  destruct (first_missing step_required_fields step) as [[missing | ] | e] eqn:Hm;
    cbn [obind] in H; try discriminate H.
  apply first_missing_step_number in Hm.
  unfold step_number_matches in H.
  destruct step as [ | b | z | f | s | l | fields]; try discriminate H.
  cbn [str_in] in Hm. cbn [get obind] in H.
  destruct (lookup "step_number" fields) as [v | ] eqn:Hv; [ | discriminate Hm ].
  exists fields, v. split; [reflexivity | split; [exact Hv | ] ].
  destruct (eq_int v (i + 1)); [reflexivity | discriminate H].
Qed.

Lemma validate_steps_numbered steps : forall i,
  validate_steps i steps = Returns true -> numbered_from (i + 1) steps = true.
Proof.
  induction steps as [ | step rest IH]; intros i H; [reflexivity | ].
  cbn [validate_steps] in H.
  destruct (validate_step i step) as [[ | ] | e] eqn:Hstep; cbn [obind] in H;
    try discriminate H.
  apply validate_step_number in Hstep as (fields & v & -> & Hv & Heq).
  cbn [numbered_from]. rewrite Hv, Heq. exact (IH _ H).
Qed.

(** A plan that passes validation has the step numbers 1..N. *)
Lemma validate_plan_sequential plan :
  _validate_plan plan = true -> has_sequential_numbers plan = true.
Proof.
  unfold _validate_plan, validate_plan_body. intros H.
  destruct (first_missing required_fields plan) as [[missing | ] | e];
    cbn [obind] in H; try discriminate H.
  destruct plan as [ | b | z | f | s | l | fields]; try discriminate H.
  cbn [get obind] in H.
  destruct (negb (in_strings _ valid_intents)); [discriminate H | ].
  unfold has_sequential_numbers.
  destruct (lookup "steps" fields) as [steps | ]; [ | discriminate H ].
  destruct steps as [ | b | z | f | s | steps | d];
    cbn [is_list negb] in H; rewrite ?orb_true_r in H; try discriminate H.
  destruct (negb (truthy (VList steps)) || false); [discriminate H | ].
  cbn [iterate obind] in H.
  destruct (validate_steps 0 steps) as [[ | ] | e] eqn:Hsteps; cbn [obind negb] in H;
    try discriminate H.
  exact (validate_steps_numbered steps 0 Hsteps).
Qed.

Lemma validate_step_passes i step :
  step_otherwise_valid step = true ->
  numbered_from (i + 1) [step] = true ->
  validate_step i step = Returns true.
Proof.
  unfold step_otherwise_valid, validate_step, step_number_matches.
  destruct step as [ | b | z | f | s | l | fields]; try discriminate.
  intros Hvalid Hnum. cbn [numbered_from] in Hnum.
  apply andb_true_iff in Hvalid as [Hvalid Hparams].
  apply andb_true_iff in Hvalid as [Hfields Htool].
  rewrite (first_missing_present _ _ Hfields). cbn [obind get].
  destruct (lookup "step_number" fields) as [v | ]; [ | discriminate Hnum ].
  rewrite andb_true_r in Hnum. rewrite Hnum. cbn [negb].
  destruct (lookup "tool" fields) as [t | ]; [ | discriminate Htool ].
  rewrite Htool. cbn [negb].
  destruct (lookup "parameters" fields) as [ps | ]; [ | discriminate Hparams ].
  rewrite Hparams. reflexivity.
Qed.

Lemma validate_steps_pass steps : forall i,
  forallb step_otherwise_valid steps = true ->
  numbered_from (i + 1) steps = true ->
  validate_steps i steps = Returns true.
Proof.
  induction steps as [ | step rest IH]; intros i Hvalid Hnum; [reflexivity | ].
  cbn [forallb] in Hvalid. apply andb_true_iff in Hvalid as [Hstep Hrest].
  cbn [numbered_from] in Hnum. apply andb_true_iff in Hnum as [Hn Hns].
  cbn [validate_steps]. rewrite (validate_step_passes i step Hstep).
  - cbn [obind]. apply IH; assumption.
  - cbn [numbered_from]. rewrite Hn. reflexivity.
Qed.

(** A plan that is valid in every other respect passes validation when
    its step numbers are 1..N. *)
Lemma validate_plan_passes plan :
  plan_otherwise_valid plan = true ->
  has_sequential_numbers plan = true ->
  _validate_plan plan = true.
Proof.
  unfold plan_otherwise_valid, has_sequential_numbers, _validate_plan,
    validate_plan_body.
  destruct plan as [ | b | z | f | s | l | fields]; try discriminate.
  intros Hvalid Hnum.
  apply andb_true_iff in Hvalid as [Hvalid Hsteps].
  apply andb_true_iff in Hvalid as [Hfields Hintent].
  rewrite (first_missing_present _ _ Hfields). cbn [obind get].
  destruct (lookup "intent" fields) as [intent | ]; [ | discriminate Hintent ].
  rewrite Hintent. cbn [negb].
  destruct (lookup "steps" fields) as [steps | ]; [ | discriminate Hsteps ].
  destruct steps as [ | b | z | f | s | steps | d]; try discriminate Hsteps.
  destruct steps as [ | step rest]; [discriminate Hsteps | ].
  cbn [truthy is_list negb orb iterate obind].
  rewrite (validate_steps_pass (step :: rest) 0 Hsteps Hnum). cbn [obind negb].
  destruct (truthy _); reflexivity.
Qed.

Lemma numbered_from_ints steps : forall n zs,
  int_step_numbers steps = Some zs ->
  (numbered_from n steps = true <-> zs = run_from n (List.length steps)).
Proof.
  induction steps as [ | step rest IH]; intros n zs Hints.
  - inversion Hints. split; reflexivity.
  - cbn [int_step_numbers] in Hints.
    destruct step as [ | b | z | f | s | l | fields]; try discriminate Hints.
    destruct (lookup "step_number" fields) as [[ | b | z | f | s | l | d] | ] eqn:Hv;
      try discriminate Hints.
    destruct (int_step_numbers rest) as [zs' | ]; [ | discriminate Hints ].
    inversion Hints; subst; clear Hints.
    cbn [numbered_from List.length run_from]. rewrite Hv.
    specialize (IH (n + 1) zs' eq_refl).
    change (eq_int (VInt z) n) with (z =? n).
    rewrite andb_true_iff, Z.eqb_eq, IH. split.
    + intros [-> ->]. reflexivity.
    + intros H. inversion H. split; reflexivity.
Qed.

(** A plan that passes validation is one [execute_plan] runs: its steps
    are a non-empty list of dicts. *)
Lemma validated_plan_has_dict_steps plan :
  _validate_plan plan = true ->
  exists fields steps,
    plan = VDict fields
    /\ lookup "steps" fields = Some (VList steps)
    /\ truthy (VList steps) = true
    /\ forallb is_dict steps = true.
Proof.
  unfold _validate_plan, validate_plan_body. intros H.
  destruct (first_missing required_fields plan) as [[missing | ] | e];
    cbn [obind] in H; try discriminate H.
  destruct plan as [ | b | z | f | s | l | fields]; try discriminate H.
  cbn [get obind] in H.
  destruct (negb (in_strings _ valid_intents)); [discriminate H | ].
  destruct (lookup "steps" fields) as [steps | ] eqn:Hsteps; [ | discriminate H ].
  destruct steps as [ | b | z | f | s | steps | d];
    cbn [is_list negb] in H; rewrite ?orb_true_r in H; try discriminate H.
  destruct (truthy (VList steps)) eqn:Htruthy; [ | discriminate H ].
  cbn [negb orb iterate obind] in H.
  destruct (validate_steps 0 steps) as [[ | ] | e] eqn:Hvalid; cbn [obind negb] in H;
    try discriminate H.
  exists fields, steps. repeat split; try assumption.
  clear - Hvalid. revert Hvalid. generalize 0.
  induction steps as [ | step rest IH]; intros i Hvalid; [reflexivity | ].
  cbn [validate_steps] in Hvalid.
  destruct (validate_step i step) as [[ | ] | e] eqn:Hstep; cbn [obind] in Hvalid;
    try discriminate Hvalid.
  apply validate_step_number in Hstep as (fs & v & -> & _ & _).
  cbn [forallb is_dict andb]. exact (IH _ Hvalid).
Qed.

Lemma validated_plan_is_executed {W : Type} (rt : runtime W)
    (tools : list (string * tool W)) plan st :
  _validate_plan plan = true ->
  exists res st',
    execute_plan rt tools plan st = (Returns res, st')
    /\ List.length (results res) = Z.to_nat (steps_completed res + steps_failed res).
Proof.
  intros Hvalid.
  apply validated_plan_has_dict_steps in Hvalid
    as (fields & steps & -> & Hsteps & Htruthy & Hdicts).
  destruct (execute_plan_total rt tools fields steps st Hsteps Htruthy Hdicts)
    as (res & st' & Hrun & _).
  exists res, st'. split; [exact Hrun | ].
  apply execute_plan_returns in Hrun as (_ & _ & _ & _ & Hc & Hf & _).
  lia.
Qed.

Lemma strip_of_empty query :
  String.eqb (strip query) "" = false -> String.eqb query "" = false.
Proof. destruct query; [intros H; exact H | reflexivity]. Qed.

Section PlannerFacts.

Context {W : Type}.
Variable rt : runtime W.
Variable texts : prompt_texts.
Variable llm_client : LLMClient.

(** [create_plan] turns a plan that fails validation into the
    validation error. *)
Lemma create_plan_rejects query plan p p' :
  String.eqb (strip query) "" = false ->
  generate_json_completion rt llm_client
    (_build_planning_prompt texts (strip query)) 2000 p = (Returns plan, p') ->
  _validate_plan plan = false ->
  create_plan rt texts llm_client query p
  = (Raises (mk_exn ValueError "Generated plan failed validation"), p').
Proof.
  intros Hquery Hllm Hinvalid. unfold create_plan.
  rewrite (strip_of_empty _ Hquery), Hquery. cbn [orb].
  unfold try_except, bind. rewrite Hllm, Hinvalid. reflexivity.
Qed.

Lemma create_plan_accepts query plan p p' :
  String.eqb (strip query) "" = false ->
  generate_json_completion rt llm_client
    (_build_planning_prompt texts (strip query)) 2000 p = (Returns plan, p') ->
  _validate_plan plan = true ->
  create_plan rt texts llm_client query p = (Returns plan, p').
Proof.
  intros Hquery Hllm Hvalid. unfold create_plan.
  rewrite (strip_of_empty _ Hquery), Hquery. cbn [orb].
  unfold try_except, bind. rewrite Hllm, Hvalid. reflexivity.
Qed.

(** C5. A plan whose step numbers are not exactly 1..N fails validation,
    and [create_plan] raises the validation error for it; a plan whose
    step numbers are 1..N passes this check, so that it is accepted when
    nothing else is wrong with it.  For integer step numbers, "exactly
    1..N" is equality with the list [1; 2; ...; N]. *)
Theorem plan_step_numbers_are_checked (plan : value) :
  (has_sequential_numbers plan = false ->
   _validate_plan plan = false
   /\ forall query p p',
        String.eqb (strip query) "" = false ->
        generate_json_completion rt llm_client
          (_build_planning_prompt texts (strip query)) 2000 p = (Returns plan, p') ->
        create_plan rt texts llm_client query p
        = (Raises (mk_exn ValueError "Generated plan failed validation"), p'))
  /\ (has_sequential_numbers plan = true ->
      plan_otherwise_valid plan = true ->
      _validate_plan plan = true
      /\ forall query p p',
           String.eqb (strip query) "" = false ->
           generate_json_completion rt llm_client
             (_build_planning_prompt texts (strip query)) 2000 p
           = (Returns plan, p') ->
           create_plan rt texts llm_client query p = (Returns plan, p'))
  /\ (forall fields steps zs,
        plan = VDict fields ->
        lookup "steps" fields = Some (VList steps) ->
        int_step_numbers steps = Some zs ->
        (has_sequential_numbers plan = true <->
         zs = run_from 1 (List.length steps))).
Proof.
  split; [ | split ].
  - intros Hnum.
    assert (Hinvalid : _validate_plan plan = false).
    { destruct (_validate_plan plan) eqn:Hv; [ | reflexivity ].
      apply validate_plan_sequential in Hv. congruence. }
    split; [exact Hinvalid | ].
    intros query p p' Hquery Hllm.
    exact (create_plan_rejects query plan p p' Hquery Hllm Hinvalid).
  - intros Hnum Hvalid.
    pose proof (validate_plan_passes plan Hvalid Hnum) as Hok.
    split; [exact Hok | ].
    intros query p p' Hquery Hllm.
    exact (create_plan_accepts query plan p p' Hquery Hllm Hok).
  - intros fields steps zs -> Hsteps Hints.
    unfold has_sequential_numbers. rewrite Hsteps.
    exact (numbered_from_ints steps 1 zs Hints).
Qed.

End PlannerFacts.

(** The three ill-numbered plans and the well-numbered one, validated
    and sent through [create_plan]. *)
Lemma step_number_examples :
  (_validate_plan gap_plan = false
   /\ _validate_plan swapped_plan = false
   /\ _validate_plan repeated_plan = false
   /\ _validate_plan sequential_plan = true)
  /\ create_plan (replying_runtime gap_plan) no_texts gemini_client
       "Weather in Paris and Rome" start
     = (Raises (mk_exn ValueError "Generated plan failed validation"),
        mk_process 1%nat [])
  /\ create_plan (replying_runtime sequential_plan) no_texts gemini_client
       "Weather in Paris and Rome" start
     = (Returns sequential_plan, mk_process 1%nat []).
Proof.
  pose proof (plan_step_numbers_are_checked (replying_runtime gap_plan) no_texts
                gemini_client gap_plan) as [Hgap _].
  pose proof (plan_step_numbers_are_checked (replying_runtime swapped_plan) no_texts
                gemini_client swapped_plan) as [Hswapped _].
  pose proof (plan_step_numbers_are_checked (replying_runtime repeated_plan) no_texts
                gemini_client repeated_plan) as [Hrepeated _].
  pose proof (plan_step_numbers_are_checked (replying_runtime sequential_plan)
                no_texts gemini_client sequential_plan) as [_ Hsequential].
  specialize (Hgap eq_refl). specialize (Hswapped eq_refl).
  specialize (Hrepeated eq_refl).
  destruct Hsequential as [Hsequential _].
  specialize (Hsequential eq_refl eq_refl).
  split; [ | split ].
  - exact (conj (proj1 Hgap)
             (conj (proj1 Hswapped)
                (conj (proj1 Hrepeated) (proj1 Hsequential)))).
  - apply (proj2 Hgap); reflexivity.
  - apply (proj2 Hsequential); reflexivity.
Defined.

(* ================================================================== *)
(** * Further properties of the pipeline *)

(** ** The LLM client: every way out of the retry loop *)

(** X1. For a non-negative attempt index the wait [min(2 ** attempt, 60)]
    lies between 1 and 60 seconds, doubles up to attempt 5, stays at 60
    from attempt 6 on, and never decreases. *)
Theorem calculate_backoff_bounds (attempt : Z) :
  0 <= attempt ->
  1 <= _calculate_backoff attempt <= 60
  /\ (attempt <= 5 -> _calculate_backoff attempt = 2 ^ attempt)
  /\ (6 <= attempt -> _calculate_backoff attempt = 60)
  /\ (forall later, attempt <= later ->
        _calculate_backoff attempt <= _calculate_backoff later).
Proof.
  intros Hnn. unfold _calculate_backoff.
  assert (Hone : 1 <= 2 ^ attempt).
  { change 1 with (2 ^ 0). apply Z.pow_le_mono_r; lia. }
  repeat split.
  - lia.
  - lia.
  - intros Hsmall.
    assert (H32 : 2 ^ attempt <= 2 ^ 5) by (apply Z.pow_le_mono_r; lia).
    change (2 ^ 5) with 32 in H32. lia.
  - intros Hlarge.
    assert (H64 : 2 ^ 6 <= 2 ^ attempt) by (apply Z.pow_le_mono_r; lia).
    change (2 ^ 6) with 64 in H64. lia.
  - intros later Hlater.
    assert (Hmono : 2 ^ attempt <= 2 ^ later) by (apply Z.pow_le_mono_r; lia).
    lia.
Qed.

Lemma calculate_backoff_examples :
  (1 <= _calculate_backoff 3 <= 60
   /\ (3 <= 5 -> _calculate_backoff 3 = 2 ^ 3)
   /\ (6 <= 3 -> _calculate_backoff 3 = 60)
   /\ (forall later, 3 <= later -> _calculate_backoff 3 <= _calculate_backoff later))
  /\ _calculate_backoff 3 = 8 /\ _calculate_backoff 10 = 60.
Proof.
  split; [exact (calculate_backoff_bounds 3 ltac:(lia)) | ].
  split; reflexivity.
Defined.

Lemma generate_completion_enters_loop {W : Type} (rt : runtime W) c messages
    max_tokens response_format p :
  (0 < List.length messages)%nat ->
  generate_completion rt c messages max_tokens response_format p
  = completion_loop rt c messages max_tokens response_format
      (Z.to_nat (max_retries c)) 0 None p.
Proof.
  intros Hmsgs. unfold generate_completion.
  destruct messages; [simpl in Hmsgs; lia | reflexivity].
Qed.

Section GatewayPaths.

Context {W : Type}.
Variable rt : runtime W.
Variable c : LLMClient.
Variable messages : list (string * string).
Variable max_tokens : Z.
Variable response_format : value.

(** One turn of the loop, read through [will_retry]. *)
Lemma completion_loop_turn m a last p e p' :
  attempt_completion rt c messages max_tokens response_format p = (Raises e, p') ->
  completion_loop rt c messages max_tokens response_format (S m) a last p
  = if will_retry c a e
    then retried rt c messages max_tokens response_format m a e p'
    else (Raises e, p').
Proof.
  intros Hcall. cbn [completion_loop]. unfold try_except. rewrite Hcall.
  unfold will_retry, retried.
  assert (Hsleep : forall k : unit -> M (process W) string,
            bind (time_sleep rt (VInt (_calculate_backoff a))) k p'
            = k tt (mk_process (asleep rt (VInt (_calculate_backoff a)) (world p'))
                      (sleeps p' ++ [VInt (_calculate_backoff a)]))).
  { intros k. unfold bind. rewrite time_sleep_backoff. reflexivity. }
  destruct (String.eqb (provider c) "openai" && OPENAI_AVAILABLE c).
  - destruct (exn_class_of e) as [ | | | | | | [code | ] | ];
      try (destruct (any_keyword_in retryable_keywords (lower (exn_msg e))
                     && (a <? max_retries c - 1));
           [apply Hsleep | reflexivity]);
      try apply Hsleep; try reflexivity.
    destruct ((500 <=? code) && (code <? 600)); [apply Hsleep | reflexivity].
  - destruct (any_keyword_in retryable_keywords (lower (exn_msg e))
              && (a <? max_retries c - 1));
      [apply Hsleep | reflexivity].
Qed.

Lemma completion_loop_answer m a last p text p' :
  attempt_completion rt c messages max_tokens response_format p = (Returns text, p') ->
  completion_loop rt c messages max_tokens response_format (S m) a last p
  = (Returns text, p').
Proof.
  intros Hcall. cbn [completion_loop]. unfold try_except. rewrite Hcall.
  reflexivity.
Qed.

Section AfterFailures.

Variables before after : nat -> W.
Variable errs : nat -> exn.
Variable failures : nat.

Hypothesis attempts_fail : forall i sl,
  (i < failures)%nat ->
  attempt_completion rt c messages max_tokens response_format
    (mk_process (before i) sl)
  = (Raises (errs i), mk_process (after i) sl).

Hypothesis failures_retried : forall i,
  (i < failures)%nat -> will_retry c (Z.of_nat i) (errs i) = true.

Hypothesis worlds_follow : forall i,
  (i < failures)%nat ->
  before (S i) = asleep rt (VInt (_calculate_backoff (Z.of_nat i))) (after i).

(** After [failures] retried attempts the loop stands at attempt
    [failures], with one sleep made for each failure. *)
Lemma completion_loop_after_failures : forall k m sl last,
  (k <= failures)%nat ->
  (failures - k <= m)%nat ->
  completion_loop rt c messages max_tokens response_format m (Z.of_nat k) last
    (mk_process (before k) sl)
  = completion_loop rt c messages max_tokens response_format
      (m - (failures - k)) (Z.of_nat failures)
      (if Nat.eqb k failures then last else Some (errs (failures - 1)))
      (mk_process (before failures) (sl ++ backoff_waits k (failures - k))).
Proof.
  intros k m. remember (failures - k)%nat as d eqn:Hd.
  revert k m Hd. induction d as [ | d IH]; intros k m Hd sl last Hk Hm.
  - assert (k = failures) by lia. subst k.
    rewrite Nat.eqb_refl, Nat.sub_0_r. unfold backoff_waits. cbn [seq map].
    rewrite app_nil_r. reflexivity.
  - destruct m as [ | m]; [lia | ].
    rewrite (completion_loop_turn _ _ _ _ _ _ (attempts_fail k sl ltac:(lia))).
    rewrite (failures_retried k) by lia. unfold retried. cbn [world sleeps].
    rewrite <- (worlds_follow k) by lia.
    replace (Z.of_nat k + 1) with (Z.of_nat (S k)) by lia.
    rewrite (IH (S k) m) by lia.
    rewrite backoff_waits_step, <- app_assoc. cbn [List.app Nat.sub].
    replace (Nat.eqb k failures) with false by (symmetry; apply Nat.eqb_neq; lia).
    destruct (Nat.eqb (S k) failures) eqn:Hlast.
    + apply Nat.eqb_eq in Hlast. replace (failures - 1)%nat with k by lia.
      reflexivity.
    + reflexivity.
Qed.

End AfterFailures.

(** X2. A call recovers from transient failures: when the first
    [failures] attempts raise errors that the [except] clause retries and
    the next attempt, still within [max_retries], answers, then
    [generate_completion] returns that answer after exactly one sleep of
    [min(2 ** i, 60)] seconds per failed attempt [i]. *)
Theorem generate_completion_recovers (before after : nat -> W)
    (errs : nat -> exn) (failures : nat) (sl : list value) (text : string) (w : W) :
  (0 < List.length messages)%nat ->
  Z.of_nat failures < max_retries c ->
  (forall i sl', (i < failures)%nat ->
     attempt_completion rt c messages max_tokens response_format
       (mk_process (before i) sl')
     = (Raises (errs i), mk_process (after i) sl')) ->
  (forall i, (i < failures)%nat -> will_retry c (Z.of_nat i) (errs i) = true) ->
  (forall i, (i < failures)%nat ->
     before (S i) = asleep rt (VInt (_calculate_backoff (Z.of_nat i))) (after i)) ->
  (forall sl',
     attempt_completion rt c messages max_tokens response_format
       (mk_process (before failures) sl')
     = (Returns text, mk_process w sl')) ->
  generate_completion rt c messages max_tokens response_format
    (mk_process (before O) sl)
  = (Returns text, mk_process w (sl ++ backoff_waits O failures)).
Proof.
  intros Hmsgs Hmax Hfail Hretry Hworlds Hanswer.
  rewrite (generate_completion_enters_loop _ _ _ _ _ _ Hmsgs).
  change 0 with (Z.of_nat O).
  rewrite (completion_loop_after_failures before after errs failures
             Hfail Hretry Hworlds O) by lia.
  rewrite Nat.sub_0_r.
  destruct (Z.to_nat (max_retries c) - failures)%nat as [ | m] eqn:Hleft; [lia | ].
  apply completion_loop_answer. apply Hanswer.
Qed.

(** X3. An error that the [except] clause does not retry ends the call at
    once: after [failures] retried attempts, the first error that is not
    retried (an API error with a status outside 5xx, an error whose text
    has none of the retry keywords, or a keyword error on the last
    attempt) is raised as it is, and no sleep follows it. *)
Theorem generate_completion_fails_fast (before after : nat -> W)
    (errs : nat -> exn) (failures : nat) (sl : list value) (e : exn) (w : W) :
  (0 < List.length messages)%nat ->
  Z.of_nat failures < max_retries c ->
  (forall i sl', (i < failures)%nat ->
     attempt_completion rt c messages max_tokens response_format
       (mk_process (before i) sl')
     = (Raises (errs i), mk_process (after i) sl')) ->
  (forall i, (i < failures)%nat -> will_retry c (Z.of_nat i) (errs i) = true) ->
  (forall i, (i < failures)%nat ->
     before (S i) = asleep rt (VInt (_calculate_backoff (Z.of_nat i))) (after i)) ->
  (forall sl',
     attempt_completion rt c messages max_tokens response_format
       (mk_process (before failures) sl')
     = (Raises e, mk_process w sl')) ->
  will_retry c (Z.of_nat failures) e = false ->
  generate_completion rt c messages max_tokens response_format
    (mk_process (before O) sl)
  = (Raises e, mk_process w (sl ++ backoff_waits O failures)).
Proof.
  intros Hmsgs Hmax Hfail Hretry Hworlds Hlast Hfatal.
  rewrite (generate_completion_enters_loop _ _ _ _ _ _ Hmsgs).
  change 0 with (Z.of_nat O).
  rewrite (completion_loop_after_failures before after errs failures
             Hfail Hretry Hworlds O) by lia.
  rewrite Nat.sub_0_r.
  destruct (Z.to_nat (max_retries c) - failures)%nat as [ | m] eqn:Hleft; [lia | ].
  rewrite (completion_loop_turn _ _ _ _ _ _ (Hlast _)), Hfatal. reflexivity.
Qed.

(** X4. Without a message, or with [max_retries] at zero or below, the
    provider is never called: an empty message list raises [ValueError],
    and a client with no attempts raises "Failed after N attempts. Last
    error: None"; the process is left as it was. *)
Theorem generate_completion_without_attempt (p : process W) :
  (messages = [] ->
   generate_completion rt c messages max_tokens response_format p
   = (Raises (mk_exn ValueError "Messages list cannot be empty"), p))
  /\ ((0 < List.length messages)%nat -> max_retries c <= 0 ->
      generate_completion rt c messages max_tokens response_format p
      = (Raises (mk_exn PlainException
                   ("Failed after " ++ str_of rt (VInt (max_retries c))
                    ++ " attempts. Last error: None")), p)).
Proof.
  split.
  - intros ->. reflexivity.
  - intros Hmsgs Hmax.
    rewrite (generate_completion_enters_loop _ _ _ _ _ _ Hmsgs).
    replace (Z.to_nat (max_retries c)) with O by lia. reflexivity.
Qed.

End GatewayPaths.

(** Two rate-limit errors and then an answer; a 400 from the API; a
    client that is allowed no attempt. *)
Lemma recovery_after_two_rate_limits :
  generate_completion (recovering_runtime 2 rate_limited "fine" (inl "no"))
    openai_client hello 2000 VNone start
  = (Returns "fine", mk_process 3%nat [VInt 1; VInt 2]).
Proof.
  exact (generate_completion_recovers
           (recovering_runtime 2 rate_limited "fine" (inl "no"))
           openai_client hello 2000 VNone (fun i => i) S (fun _ => rate_limited)
           2 [] "fine" 3%nat ltac:(simpl; lia) ltac:(simpl; lia)
           (fun i sl' H => ltac:(destruct i as [ | [ | i]]; [reflexivity | reflexivity | lia]))
           (fun i _ => eq_refl) (fun i _ => eq_refl) (fun sl' => eq_refl)).
Defined.

Lemma bad_request_is_not_retried :
  generate_completion (offline_runtime bad_request) openai_client hello 2000 VNone
    start
  = (Raises bad_request, mk_process 1%nat []).
Proof.
  exact (generate_completion_fails_fast (offline_runtime bad_request)
           openai_client hello 2000 VNone (fun i => i) S (fun _ => bad_request)
           0 [] bad_request 1%nat ltac:(simpl; lia) ltac:(simpl; lia)
           (fun i sl' H => ltac:(lia)) (fun i H => ltac:(lia))
           (fun i H => ltac:(lia)) (fun sl' => eq_refl) eq_refl).
Defined.

Lemma no_attempt_examples :
  generate_completion (offline_runtime rate_limited) openai_client [] 2000 VNone start
  = (Raises (mk_exn ValueError "Messages list cannot be empty"), start)
  /\ generate_completion (offline_runtime rate_limited) idle_client hello 2000 VNone
       start
     = (Raises (mk_exn PlainException "Failed after 0 attempts. Last error: None"),
        start).
Proof.
  split.
  - exact (proj1 (generate_completion_without_attempt (offline_runtime rate_limited)
                    openai_client [] 2000 VNone start) eq_refl).
  - exact (proj2 (generate_completion_without_attempt (offline_runtime rate_limited)
                    idle_client hello 2000 VNone start)
             ltac:(simpl; lia) ltac:(simpl; lia)).
Defined.

(** ** The planner: what validation accepts and what [create_plan] returns *)

Lemma first_missing_all fields names :
  first_missing names (VDict fields) = Returns None ->
  forallb (has_key fields) names = true.
Proof.
  induction names as [ | name names IH]; intros H; [reflexivity | ].
  cbn [first_missing str_in obind] in H. cbn [forallb]. unfold has_key at 1.
  destruct (lookup name fields); [ | discriminate H ].
  exact (IH H).
Qed.

Lemma validate_step_valid i step :
  validate_step i step = Returns true -> step_otherwise_valid step = true.
Proof.
  unfold validate_step, step_number_matches. intros H.
  destruct (first_missing step_required_fields step) as [[missing | ] | e] eqn:Hm;
    cbn [obind] in H; try discriminate H.
  destruct step as [ | b | z | f | s | l | fields]; try discriminate H.
  apply first_missing_all in Hm. cbn [get obind] in H.
  destruct (negb (eq_int _ (i + 1))); [discriminate H | ].
  unfold step_otherwise_valid. rewrite Hm. cbn [andb].
  pose proof Hm as Hkeys. unfold step_required_fields in Hkeys.
  cbn [forallb] in Hkeys. unfold has_key in Hkeys.
  destruct (lookup "tool" fields) as [t | ];
    [ | rewrite !andb_false_r in Hkeys; cbn in Hkeys;
        destruct (lookup "step_number" fields), (lookup "action" fields);
        discriminate Hkeys ].
  destruct (in_strings t valid_tools); [ | discriminate H ].
  cbn [negb andb] in *.
  destruct (lookup "parameters" fields) as [ps | ];
    [ | destruct (lookup "step_number" fields), (lookup "action" fields);
        discriminate Hkeys ].
  destruct (is_dict ps); [reflexivity | discriminate H].
Qed.

Lemma validate_steps_valid steps : forall i,
  validate_steps i steps = Returns true ->
  forallb step_otherwise_valid steps = true.
Proof.
  induction steps as [ | step rest IH]; intros i H; [reflexivity | ].
  cbn [validate_steps] in H.
  destruct (validate_step i step) as [[ | ] | e] eqn:Hstep; cbn [obind] in H;
    try discriminate H.
  cbn [forallb]. rewrite (validate_step_valid i step Hstep). exact (IH _ H).
Qed.

Lemma validate_plan_valid plan :
  _validate_plan plan = true -> plan_otherwise_valid plan = true.
Proof.
  unfold _validate_plan, validate_plan_body. intros H.
  destruct (first_missing required_fields plan) as [[missing | ] | e] eqn:Hm;
    cbn [obind] in H; try discriminate H.
  destruct plan as [ | b | z | f | s | l | fields]; try discriminate H.
  apply first_missing_all in Hm. cbn [get obind] in H.
  unfold plan_otherwise_valid. rewrite Hm. cbn [andb].
  pose proof Hm as Hkeys. unfold required_fields in Hkeys.
  cbn [forallb] in Hkeys. unfold has_key in Hkeys.
  destruct (lookup "intent" fields) as [intent | ];
    [ | destruct (lookup "task_description" fields); discriminate Hkeys ].
  destruct (in_strings intent valid_intents); [ | discriminate H ].
  cbn [negb andb] in *.
  destruct (lookup "steps" fields) as [steps | ];
    [ | destruct (lookup "task_description" fields); discriminate Hkeys ].
  destruct steps as [ | b | z | f | s | steps | d];
    cbn [is_list negb] in H; rewrite ?orb_true_r in H; try discriminate H.
  destruct steps as [ | step rest]; [discriminate H | ].
  cbn [truthy negb orb iterate obind] in H.
  destruct (validate_steps 0 (step :: rest)) as [[ | ] | e] eqn:Hsteps;
    cbn [obind negb] in H; try discriminate H.
  exact (validate_steps_valid _ _ Hsteps).
Qed.

(** X5. [_validate_plan] accepts exactly the plans that are dicts with
    the three required fields, one of the four intents, and a non-empty
    list of steps, each a dict with the five step fields, one of the
    three tools and a dict of parameters, numbered 1..N.  Nothing else is
    asked: a plan in comparison mode without entities passes. *)
Theorem validate_plan_accepts_exactly (plan : value) :
  _validate_plan plan = true <->
  plan_otherwise_valid plan = true /\ has_sequential_numbers plan = true.
Proof.
  split.
  - intros H. split; [apply validate_plan_valid | apply validate_plan_sequential];
      exact H.
  - intros [Hvalid Hnum]. exact (validate_plan_passes plan Hvalid Hnum).
Qed.

Lemma execute_plan_tallies_every_step_aux {W : Type} (rt : runtime W)
    (tools : list (string * tool W)) plan st res st' :
  execute_plan rt tools plan st = (Returns res, st') ->
  plan_length plan = Returns (steps_completed res + steps_failed res)
  /\ steps_completed res + steps_failed res
     = Z.of_nat (List.length (results res)).
Proof.
  intros H. apply execute_plan_returns in H
    as (steps & Hsteps & _ & Hnums & Hc & Hf & _).
  assert (Hlen : List.length (results res) = List.length steps).
  { rewrite <- (length_map step_number), Hnums. apply length_map. }
  split; [ | lia ].
  unfold plan_length. unfold plan_steps in Hsteps.
  destruct (getitem plan "steps") as [v | e]; [ | discriminate Hsteps ].
  cbn [obind] in *. rewrite (len_of_iterate _ _ Hsteps).
  f_equal. lia.
Qed.

Section PlannerPaths.

Context {W : Type}.
Variable rt : runtime W.
Variable texts : prompt_texts.
Variable llm_client : LLMClient.

Lemma strip_empty_string : strip "" = "".
Proof. reflexivity. Qed.

(** What [create_plan] returns is the decoded reply, and it has passed
    validation. *)
Lemma create_plan_returns_validated user_query p plan p' :
  create_plan rt texts llm_client user_query p = (Returns plan, p') ->
  _validate_plan plan = true
  /\ generate_json_completion rt llm_client
       (_build_planning_prompt texts (strip user_query)) 2000 p
     = (Returns plan, p').
Proof.
  unfold create_plan. intros H.
  destruct (String.eqb user_query "" || String.eqb (strip user_query) "");
    [discriminate H | ].
  unfold try_except in H.
  destruct (bind _ _ p) as [[plan0 | e] p0] eqn:Hbody; [ | discriminate H ].
  injection H as -> ->.
  bind_inv Hbody reply p1 Hllm.
  destruct (_validate_plan reply) eqn:Hvalid; cbn [negb] in Hbody;
    [ | discriminate Hbody ].
  apply ret_returns in Hbody as [<- <-].
  split; [exact Hvalid | exact Hllm].
Qed.

(** X6. What [create_plan] returns has passed validation, is the very
    value the model's reply decoded to, and is a plan that
    [execute_plan] runs to the end with any set of tools: the executor
    never rejects, and never raises on, a plan the planner returned. *)
Theorem create_plan_returns_runnable_plan user_query p plan p' :
  create_plan rt texts llm_client user_query p = (Returns plan, p') ->
  _validate_plan plan = true
  /\ generate_json_completion rt llm_client
       (_build_planning_prompt texts (strip user_query)) 2000 p
     = (Returns plan, p')
  /\ forall (tools : list (string * tool W)) st,
       exists res st',
         execute_plan rt tools plan st = (Returns res, st')
         /\ plan_length plan = Returns (Z.of_nat (List.length (results res))).
Proof.
  intros H. apply create_plan_returns_validated in H as [Hvalid Hllm].
  split; [exact Hvalid | split; [exact Hllm | ] ].
  intros tools st.
  destruct (validated_plan_is_executed rt tools plan st Hvalid)
    as (res & st' & Hrun & _).
  exists res, st'. split; [exact Hrun | ].
  destruct (execute_plan_tallies_every_step_aux rt tools plan st res st' Hrun)
    as [Hlen Hsum].
  rewrite Hlen, Hsum. reflexivity.
Qed.

(** X7. [create_plan] asks the model nothing for a query that is empty or
    only white space: it raises [ValueError] and leaves the process as it
    was.  An error of the gateway, a reply that is not JSON included, is
    raised again unchanged. *)
Theorem create_plan_error_paths user_query p :
  (String.eqb (strip user_query) "" = true ->
   create_plan rt texts llm_client user_query p
   = (Raises (mk_exn ValueError "User query cannot be empty"), p))
  /\ (forall e p',
        String.eqb (strip user_query) "" = false ->
        generate_json_completion rt llm_client
          (_build_planning_prompt texts (strip user_query)) 2000 p
        = (Raises e, p') ->
        create_plan rt texts llm_client user_query p = (Raises e, p')).
Proof.
  split.
  - intros Hblank. unfold create_plan. rewrite Hblank, orb_true_r. reflexivity.
  - intros e p' Hquery Hllm. unfold create_plan.
    rewrite (strip_of_empty _ Hquery), Hquery. cbn [orb].
    unfold try_except, bind. rewrite Hllm. reflexivity.
Qed.

End PlannerPaths.

(** ** The executor: rejected plans, the log, and the shape of results *)

Section ExecutorPaths.

Context {W : Type}.
Variable rt : runtime W.
Variable tools : list (string * tool W).

(** X8. [execute_plan] refuses a plan that is not a dict or is an empty
    dict, and a dict plan whose "steps" are missing or empty; it raises
    [ValueError] before it touches anything, the old execution log
    included. *)
Theorem execute_plan_rejects_empty_plans plan st :
  (truthy plan && is_dict plan = false ->
   execute_plan rt tools plan st
   = (Raises (mk_exn ValueError "Plan must be a non-empty dictionary"), st))
  /\ (forall fields,
        plan = VDict fields ->
        truthy plan = true ->
        match lookup "steps" fields with
        | Some steps => truthy steps
        | None => false
        end = false ->
        execute_plan rt tools plan st
        = (Raises (mk_exn ValueError "Plan must contain at least one step"), st)).
Proof.
  split.
  - intros H. unfold execute_plan.
    replace (negb (truthy plan) || negb (is_dict plan)) with true; [reflexivity | ].
    destruct (truthy plan), (is_dict plan); try reflexivity; discriminate H.
  - intros fields -> Htruthy Hsteps. unfold execute_plan.
    rewrite Htruthy. cbn [is_dict negb orb].
    unfold bind at 1, pure_outcome at 1. cbn [str_in].
    destruct (lookup "steps" fields) as [steps | ] eqn:Hlookup;
      cbn [negb]; [ | reflexivity ].
    unfold bind at 1, pure_outcome at 1. cbn [getitem]. rewrite Hlookup, Hsteps.
    reflexivity.
Qed.

Lemma in_process_keeps_log {A : Type} (m : M (process W) A) st r st' :
  in_process m st = (r, st') -> self_execution_log st' = self_execution_log st.
Proof.
  unfold in_process. destruct (m (proc st)) as [o p]. intros H.
  inversion H. reflexivity.
Qed.

Lemma execute_step_well_shaped step p r p' :
  _execute_step rt tools step p = (Returns r, p') -> well_shaped r = true.
Proof.
  unfold _execute_step. intros H.
  bind_inv H number p1 Hget. pure_inv Hget.
  apply get_of_dict in Hget as (fields & -> & ->).
  simpl in H. unfold bind at 1, pure_outcome at 1 in H.
  unfold bind at 1, pure_outcome at 1 in H.
  unfold bind at 1, pure_outcome at 1 in H.
  destruct (lookup_tool tools _) as [[[name t] | ] | e]; try discriminate H.
  - bind_inv H start_time p2 Hnow. unfold try_except in H.
    destruct (bind _ _ _) as [[v | e] p3] eqn:Hcall.
    + injection H as <- <-.
      bind_inv Hcall result_data p4 Hretry. bind_inv Hcall end_time p5 Hend.
      apply ret_returns in Hcall as [-> _]. reflexivity.
    + bind_inv H end_time p4 Hend. apply ret_returns in H as [-> _]. reflexivity.
  - apply ret_returns in H as [-> _]. reflexivity.
Qed.

(** One turn of the loop adds a well-shaped result and one log line. *)
Lemma run_step_adds step t st t' st' :
  run_step rt tools step t st = (Returns t', st') ->
  exists r line,
    collected t' = (collected t ++ [r])%list
    /\ well_shaped r = true
    /\ self_execution_log st' = (self_execution_log st ++ [line])%list.
Proof.
  unfold run_step. intros H. bind_inv H number st1 Hget. pure_inv Hget.
  unfold try_except in H.
  destruct (in_process (_execute_step rt tools step) st) as [[r | e] st2] eqn:Hstep.
  - unfold bind at 1 in H. rewrite Hstep in H.
    pose proof (in_process_keeps_log _ _ _ _ Hstep) as Hlog.
    apply in_process_returns, execute_step_well_shaped in Hstep.
    destruct (String.eqb (status r) "success");
      unfold bind, _log_execution, ret in H; injection H as <- <-;
      exists r; eexists; cbn [collected self_execution_log]; rewrite <- Hlog;
      (split; [reflexivity | split; [exact Hstep | reflexivity] ]).
  - unfold bind at 1 in H. rewrite Hstep in H.
    pose proof (in_process_keeps_log _ _ _ _ Hstep) as Hlog.
    unfold bind, _log_execution, ret in H. injection H as <- <-.
    eexists; eexists; cbn [collected self_execution_log]; rewrite <- Hlog.
    split; [reflexivity | split; reflexivity].
Qed.

Lemma run_steps_add steps : forall t st t' st',
  run_steps rt tools steps t st = (Returns t', st') ->
  exists rs lines,
    collected t' = (collected t ++ rs)%list
    /\ forallb well_shaped rs = true
    /\ self_execution_log st' = (self_execution_log st ++ lines)%list
    /\ List.length rs = List.length steps
    /\ List.length lines = List.length steps.
Proof.
  induction steps as [ | step rest IH]; intros t st t' st' H.
  - apply ret_returns in H as [-> ->]. exists [], [].
    rewrite !app_nil_r. repeat split; reflexivity.
  - cbn [run_steps] in H. bind_inv H t1 st1 Hstep.
    apply run_step_adds in Hstep as (r & line & Hc & Hw & Hl).
    apply IH in H as (rs & lines & Hcs & Hws & Hls & Hn & Hm).
    exists (r :: rs), (line :: lines).
    rewrite Hcs, Hc, Hls, Hl, <- !app_assoc. cbn [forallb List.length List.app].
    rewrite Hw, Hws, Hn, Hm. repeat split; reflexivity.
Qed.

(** What [execute_plan] hands to [run_steps] and gets back. *)
Lemma execute_plan_runs_steps plan st res st' :
  execute_plan rt tools plan st = (Returns res, st') ->
  exists steps t,
    run_steps rt tools steps (mk_tally 0 0 []) (mk_executor_state (proc st) [])
    = (Returns t, st')
    /\ results res = collected t
    /\ execution_log res = self_execution_log st'.
Proof.
  unfold execute_plan. intros H.
  destruct (negb (truthy plan) || negb (is_dict plan)); [discriminate H | ].
  bind_inv H has_steps st1 Hin. pure_inv Hin.
  destruct has_steps; cbn [negb] in H; [ | discriminate H ].
  bind_inv H steps_value st2 Hitem. pure_inv Hitem.
  destruct (truthy steps_value); cbn [negb] in H; [ | discriminate H ].
  bind_inv H n st3 Hlen. pure_inv Hlen.
  bind_inv H u st4 Hreset. injection Hreset as _ <-.
  bind_inv H steps st5 Hiter. pure_inv Hiter.
  bind_inv H t st6 Hloop. injection H as <- <-.
  exists steps, t. split; [exact Hloop | split; reflexivity].
Qed.

(** X9. The execution log of a run has one line per step and nothing
    else: [execute_plan] clears the log it finds, every step adds exactly
    one line, and the result's [execution_log] is the executor's own log
    at the end. *)
Theorem execution_log_has_one_line_per_step plan st res st' :
  execute_plan rt tools plan st = (Returns res, st') ->
  execution_log res = self_execution_log st'
  /\ List.length (execution_log res) = List.length (results res).
Proof.
  intros H. apply execute_plan_runs_steps in H as (steps & t & Hrun & Hres & Hlog).
  apply run_steps_add in Hrun as (rs & lines & Hc & _ & Hl & Hn & Hm).
  split; [exact Hlog | ].
  rewrite Hlog, Hres, Hl, Hc. cbn [self_execution_log collected List.app]. lia.
Qed.

Lemma count_failed_of_well_shaped rs :
  forallb well_shaped rs = true ->
  count_status "failed" rs = Z.of_nat (List.length rs) - count_status "success" rs.
Proof.
  induction rs as [ | r rs IH]; intros H; [reflexivity | ].
  cbn [forallb] in H. apply andb_true_iff in H as [Hr Hrs].
  cbn [count_status List.length]. rewrite Nat2Z.inj_succ, (IH Hrs).
  unfold well_shaped in Hr.
  destruct (String.eqb (status r) "success") eqn:Hs.
  - apply String.eqb_eq in Hs. rewrite Hs.
    change (String.eqb "success" "failed") with false.
    change (String.eqb "success" "success") with true. lia.
  - destruct (String.eqb (status r) "failed"); [lia | discriminate Hr].
Qed.

(** X10. Every result [execute_plan] returns is either a "success" with
    no error, or a "failed" with no data and an error text; no other
    status occurs, and [steps_failed] is the number of "failed" results. *)
Theorem results_are_well_shaped plan st res st' :
  execute_plan rt tools plan st = (Returns res, st') ->
  forallb well_shaped (results res) = true
  /\ steps_failed res = count_status "failed" (results res).
Proof.
  intros H. pose proof H as Hrun.
  apply execute_plan_runs_steps in H as (steps & t & Hsteps & Hres & _).
  apply run_steps_add in Hsteps as (rs & lines & Hc & Hw & _).
  cbn [collected List.app] in Hc.
  assert (Hshape : forallb well_shaped (results res) = true)
    by (rewrite Hres, Hc; exact Hw).
  split; [exact Hshape | ].
  apply execute_plan_returns in Hrun as (_ & _ & _ & _ & _ & Hf & _).
  rewrite Hf. symmetry. apply count_failed_of_well_shaped. exact Hshape.
Qed.

End ExecutorPaths.

(** ** The executor: dispatch, bad steps, and the retry schedule *)

Section DispatchFacts.

Context {W : Type}.
Variable rt : runtime W.

(** X11. For a dict of parameters the tool operation is chosen by the
    first key present, in a fixed order per tool: "query" for github;
    "city" before "cities" for weather; "topic" before "query" before
    "topics" for wikipedia.  Absent options take their defaults: sort
    "stars", limit 5, units "metric", sentences 3. *)
Theorem call_tool_method_precedence (t : tool W) (ps : list (string * value))
    (p : process W) :
  (forall query, lookup "query" ps = Some query ->
     _call_tool_method t "github" (VDict ps) p
     = external (t "search_repositories"
                   [("query", query); ("sort", or_default ps "sort" (VStr "stars"));
                    ("limit", or_default ps "limit" (VInt 5))]) p)
  /\ (forall city, lookup "city" ps = Some city ->
        _call_tool_method t "weather" (VDict ps) p
        = external (t "get_current_weather"
                      [("city", city);
                       ("units", or_default ps "units" (VStr "metric"))]) p)
  /\ (forall cities, lookup "city" ps = None -> lookup "cities" ps = Some cities ->
        _call_tool_method t "weather" (VDict ps) p
        = external (t "compare_weather"
                      [("cities", cities);
                       ("units", or_default ps "units" (VStr "metric"))]) p)
  /\ (forall topic, lookup "topic" ps = Some topic ->
        _call_tool_method t "wikipedia" (VDict ps) p
        = external (t "get_summary"
                      [("topic", topic);
                       ("sentences", or_default ps "sentences" (VInt 3))]) p)
  /\ (forall query, lookup "topic" ps = None -> lookup "query" ps = Some query ->
        _call_tool_method t "wikipedia" (VDict ps) p
        = external (t "search_articles"
                      [("query", query);
                       ("limit", or_default ps "limit" (VInt 5))]) p)
  /\ (forall topics, lookup "topic" ps = None -> lookup "query" ps = None ->
        lookup "topics" ps = Some topics ->
        _call_tool_method t "wikipedia" (VDict ps) p
        = external (t "compare_topics" [("topics", topics)]) p).
Proof.
  unfold _call_tool_method, or_default.
  repeat split; intros;
    cbn [String.eqb Ascii.eqb Bool.eqb str_in getitem get];
    unfold bind, pure_outcome;
    repeat match goal with
           | H : lookup _ ps = _ |- _ => rewrite H; clear H
           end;
    reflexivity.
Qed.

(** The three "requires" messages carry no transient keyword. *)
Lemma requirement_errors_are_final :
  is_transient (mk_exn ValueError "GitHub tool requires 'query' parameter") = false
  /\ is_transient
       (mk_exn ValueError "Weather tool requires 'city' or 'cities' parameter") = false
  /\ is_transient
       (mk_exn ValueError
          "Wikipedia tool requires 'topic', 'query', or 'topics' parameter") = false.
Proof. repeat split; vm_compute; reflexivity. Qed.

Variable tools : list (string * tool W).

(** A step whose call raises a final error at once is a failed result
    with that error, and the process is as before. *)
Lemma execute_step_fails_at_once fields name t e p :
  lookup_tool tools (or_default fields "tool" (VStr "")) = Returns (Some (name, t)) ->
  _call_tool_method t name (or_default fields "parameters" (VDict [])) p
  = (Raises e, p) ->
  is_transient e = false ->
  _execute_step rt tools (VDict fields) p
  = (Returns (mk_StepResult (step_number_of (VDict fields)) "failed" VNone
                (Some (exn_msg e))
                (PrimFloat.sub (time_time rt (world p)) (time_time rt (world p)))),
     p).
Proof.
  unfold or_default. intros Htool Hcall Hfinal.
  unfold _execute_step. cbn [get].
  unfold bind at 1, pure_outcome at 1.
  unfold bind at 1, pure_outcome at 1.
  unfold bind at 1, pure_outcome at 1.
  unfold bind at 1, pure_outcome at 1. rewrite Htool.
  unfold bind at 1, now at 1. unfold try_except.
  unfold bind at 1. unfold _retry_with_backoff.
  change (Z.to_nat (3 + 1)) with 4%nat.
  rewrite (retry_loop_gives_up rt _ _ _ _ _ _ _ _ _ _ Hcall)
    by (rewrite Hfinal; reflexivity).
  reflexivity.
Qed.

(** X12. A step that lacks the parameter its tool needs fails at once:
    the tool is not called, nothing is slept, the process is unchanged,
    and the result carries the message that names the requirement.  The
    same holds when "parameters" is missing from the step. *)
Theorem missing_parameter_fails_at_once fields ps t p :
  or_default fields "parameters" (VDict []) = VDict ps ->
  (or_default fields "tool" (VStr "") = VStr "github" ->
   find_tool "github" tools = Some t ->
   lookup "query" ps = None ->
   _execute_step rt tools (VDict fields) p
   = (Returns (mk_StepResult (step_number_of (VDict fields)) "failed" VNone
                 (Some "GitHub tool requires 'query' parameter")
                 (PrimFloat.sub (time_time rt (world p)) (time_time rt (world p)))),
      p))
  /\ (or_default fields "tool" (VStr "") = VStr "weather" ->
      find_tool "weather" tools = Some t ->
      lookup "city" ps = None -> lookup "cities" ps = None ->
      _execute_step rt tools (VDict fields) p
      = (Returns (mk_StepResult (step_number_of (VDict fields)) "failed" VNone
                    (Some "Weather tool requires 'city' or 'cities' parameter")
                    (PrimFloat.sub (time_time rt (world p)) (time_time rt (world p)))),
         p))
  /\ (or_default fields "tool" (VStr "") = VStr "wikipedia" ->
      find_tool "wikipedia" tools = Some t ->
      lookup "topic" ps = None -> lookup "query" ps = None ->
      lookup "topics" ps = None ->
      _execute_step rt tools (VDict fields) p
      = (Returns (mk_StepResult (step_number_of (VDict fields)) "failed" VNone
                    (Some "Wikipedia tool requires 'topic', 'query', or 'topics' parameter")
                    (PrimFloat.sub (time_time rt (world p)) (time_time rt (world p)))),
         p)).
Proof.
  intros Hps.
  destruct requirement_errors_are_final as (Hg & Hw & Hk).
  split; [ | split ].
  - intros Hname Hfind Hq.
    apply (execute_step_fails_at_once fields "github" t
             (mk_exn ValueError "GitHub tool requires 'query' parameter") p).
    + rewrite Hname. unfold lookup_tool. rewrite Hfind. reflexivity.
    + rewrite Hps. unfold _call_tool_method. cbn [String.eqb Ascii.eqb Bool.eqb str_in].
      unfold bind, pure_outcome. rewrite Hq. reflexivity.
    + exact Hg.
  - intros Hname Hfind Hc Hcs.
    apply (execute_step_fails_at_once fields "weather" t
             (mk_exn ValueError "Weather tool requires 'city' or 'cities' parameter") p).
    + rewrite Hname. unfold lookup_tool. rewrite Hfind. reflexivity.
    + rewrite Hps. unfold _call_tool_method. cbn [String.eqb Ascii.eqb Bool.eqb str_in].
      unfold bind, pure_outcome. rewrite Hc, Hcs. reflexivity.
    + exact Hw.
  - intros Hname Hfind Ht Hq Hts.
    apply (execute_step_fails_at_once fields "wikipedia" t
             (mk_exn ValueError
                "Wikipedia tool requires 'topic', 'query', or 'topics' parameter") p).
    + rewrite Hname. unfold lookup_tool. rewrite Hfind. reflexivity.
    + rewrite Hps. unfold _call_tool_method. cbn [String.eqb Ascii.eqb Bool.eqb str_in].
      unfold bind, pure_outcome. rewrite Ht, Hq, Hts. reflexivity.
    + exact Hk.
Qed.

(** X13. A step with a bad tool name fails alone.  A name that no tool
    is registered under gives a failed result that quotes the name; a
    tool value that is a list or a dict, which cannot be looked up, is
    caught at the step boundary as "Unexpected error: unhashable type".
    Either way the loop counts one failure, adds one log line, calls no
    tool and goes on. *)
Theorem bad_tool_name_fails_only_its_step fields t st :
  (forall name,
     lookup "tool" fields = Some (VStr name) ->
     find_tool name tools = None ->
     let r := mk_StepResult (step_number_of (VDict fields)) "failed" VNone
                (Some ("Tool '" ++ str_of rt (VStr name)
                       ++ "' not found in available tools")) 0%float in
     exists line,
       run_step rt tools (VDict fields) t st
       = (Returns (mk_tally (completed t) (failed t + 1) (collected t ++ [r])),
          mk_executor_state (proc st) (self_execution_log st ++ [line])))
  /\ (forall bad,
        lookup "tool" fields = Some bad ->
        is_list bad || is_dict bad = true ->
        let r := mk_StepResult (step_number_of (VDict fields)) "failed" VNone
                   (Some ("Unexpected error: unhashable type: '"
                          ++ type_name bad ++ "'")) 0%float in
        exists line,
          run_step rt tools (VDict fields) t st
          = (Returns (mk_tally (completed t) (failed t + 1) (collected t ++ [r])),
             mk_executor_state (proc st) (self_execution_log st ++ [line]))).
Proof.
  split.
  - intros name Htool Hnone r. unfold run_step. cbn [get].
    unfold bind at 1, pure_outcome at 1. unfold try_except, bind at 1.
    unfold in_process.
    rewrite (unknown_tool_fails rt tools fields name (proc st) Htool Hnone).
    cbn [status String.eqb Ascii.eqb Bool.eqb].
    unfold bind, _log_execution, ret. eexists. reflexivity.
  - intros bad Htool Hbad r. unfold run_step. cbn [get].
    unfold bind at 1, pure_outcome at 1. unfold try_except, bind at 1.
    unfold in_process, _execute_step. cbn [get]. rewrite Htool.
    unfold bind at 1, pure_outcome at 1.
    unfold bind at 1, pure_outcome at 1.
    unfold bind at 1, pure_outcome at 1.
    unfold bind at 1, pure_outcome at 1.
    destruct bad; try discriminate Hbad; cbn [lookup_tool];
      unfold bind, _log_execution, ret; eexists; reflexivity.
Qed.

(** The loop of [_retry_with_backoff] on a call that only the world
    answers: what it sleeps is a prefix of the schedule, no longer than
    the retries it has left. *)
Lemma retry_loop_schedule (f : W -> outcome value * W) mr bf :
  forall n a d last p r p',
    retry_loop rt (external f) mr bf n a d last p = (r, p') ->
    exists k,
      Z.of_nat k <= Z.max 0 (mr - a)
      /\ sleeps p' = (sleeps p ++ map VFloat (delays d bf k))%list.
Proof.
  induction n as [ | n IH]; intros a d last p r p' H.
  - exists O. split; [lia | ]. cbn [delays map]. rewrite app_nil_r.
    cbn [retry_loop] in H. destruct last; unfold raise in H;
      injection H as _ <-; reflexivity.
  - cbn [retry_loop] in H. unfold try_except, external in H.
    destruct (f (world p)) as [[v | e] w] eqn:Hcall.
    + injection H as _ <-. exists O. split; [lia | ].
      cbn [delays map sleeps]. rewrite app_nil_r. reflexivity.
    + destruct (negb (is_transient e) || (mr <=? a)) eqn:Hstop.
      * unfold raise in H. injection H as _ <-. exists O. split; [lia | ].
        cbn [delays map sleeps]. rewrite app_nil_r. reflexivity.
      * apply orb_false_iff in Hstop as [_ Hleft]. apply Z.leb_gt in Hleft.
        unfold bind in H.
        destruct (time_sleep rt (VFloat d) (mk_process w (sleeps p)))
          as [[u | e'] p1] eqn:Hsleep.
        -- unfold time_sleep in Hsleep.
           destruct (PrimFloat.leb 0 d);
             [ | destruct (PrimFloat.eqb d d); discriminate Hsleep ].
           injection Hsleep as _ <-. cbn [world sleeps] in H.
           apply IH in H as (k & Hk & Hs). exists (S k). split; [lia | ].
           rewrite Hs. cbn [sleeps delays map]. rewrite <- app_assoc. reflexivity.
        -- injection H as _ <-. unfold time_sleep in Hsleep.
           exists O. split; [lia | ]. cbn [delays map]. rewrite app_nil_r.
           destruct (PrimFloat.leb 0 d); [discriminate Hsleep | ].
           destruct (PrimFloat.eqb d d); injection Hsleep as _ <-; reflexivity.
Qed.

(** X14. Whatever the call does, [_retry_with_backoff] sleeps at most
    [max_retries] times, and what it sleeps is the start of the schedule
    [initial_delay], [initial_delay * backoff_factor], ...; with
    [max_retries] at zero it never sleeps, and with a negative
    [max_retries] it does not even call the function but raises
    "Function failed with unknown error". *)
Theorem retry_sleeps_follow_the_schedule (f : W -> outcome value * W)
    (max_retries : Z) (initial_delay backoff_factor : float) (p : process W) :
  (forall r p',
     _retry_with_backoff rt (external f) max_retries initial_delay backoff_factor p
     = (r, p') ->
     exists k,
       Z.of_nat k <= Z.max 0 max_retries
       /\ sleeps p'
          = (sleeps p ++ map VFloat (delays initial_delay backoff_factor k))%list)
  /\ (max_retries < 0 ->
      _retry_with_backoff rt (external f) max_retries initial_delay backoff_factor p
      = (Raises (mk_exn PlainException "Function failed with unknown error"), p)).
Proof.
  split.
  - intros r p' H. unfold _retry_with_backoff in H.
    apply retry_loop_schedule in H as (k & Hk & Hs).
    exists k. split; [lia | exact Hs].
  - intros Hneg. unfold _retry_with_backoff.
    replace (Z.to_nat (max_retries + 1)) with O by lia. reflexivity.
Qed.

End DispatchFacts.

(** ** The verifier: the temperature scan, the model's reply, and the
    executor's result *)

Section VerifierPaths.

Context {W : Type}.
Variable rt : runtime W.
Variable texts : prompt_texts.
Variable llm_client : LLMClient.

Lemma unremarkable_has_no_anomaly r :
  unremarkable r = true -> anomalies_of rt r = Returns [].
Proof.
  unfold unremarkable, anomalies_of.
  destruct (String.eqb (status r) "success"); cbn [negb orb]; [ | reflexivity ].
  destruct (data r) as [ | b | z | f | s | l | d]; cbn [truthy];
    try (intros _; destruct (negb _); reflexivity).
  - intros _. destruct l; reflexivity.
  - intros H. destruct d as [ | kv d]; [reflexivity | ]. cbn [negb].
    destruct (lookup "temperature" (kv :: d)) as [temp | ]; [ | reflexivity ].
    destruct temp as [ | b | t | f | s | l | d']; try discriminate H;
      try reflexivity.
    apply andb_true_iff in H as [Hlow Hhigh].
    apply Z.leb_le in Hlow. apply Z.leb_le in Hhigh.
    unfold lt_int, gt_int, compare_int.
    destruct (Z.compare_spec t (-100)) as [Heq | Hlt | Hgt]; [ | lia | ];
      cbn [obind];
      (destruct (Z.compare_spec t 60) as [Heq' | Hlt' | Hgt'];
       [reflexivity | reflexivity | lia]).
Qed.

Lemma unusual_is_reported r t :
  scanned_temperature r = Some t ->
  t < -100 \/ 60 < t ->
  anomalies_of rt r = Returns [unusual_temperature rt t].
Proof.
  unfold scanned_temperature, anomalies_of, unusual_temperature.
  destruct (String.eqb (status r) "success"); [ | discriminate ].
  destruct (data r) as [ | b | z | f | s | l | d]; try discriminate.
  destruct (lookup "temperature" d) as [[ | b | z | f | s | l | d'] | ] eqn:Htemp;
    try discriminate.
  intros Ht Hout. injection Ht as ->.
  destruct d as [ | kv d]; [discriminate Htemp | ].
  cbn [negb truthy].
  unfold lt_int, gt_int, compare_int.
  destruct Hout as [Hlow | Hhigh].
  - replace (t ?= -100) with Lt by (symmetry; apply Z.compare_lt_iff; exact Hlow).
    reflexivity.
  - replace (t ?= -100) with Gt by (symmetry; apply Z.compare_gt_iff; lia).
    cbn [obind].
    replace (t ?= 60) with Gt by (symmetry; apply Z.compare_gt_iff; lia).
    reflexivity.
Qed.

Lemma scan_results_quiet rs : forall acc,
  forallb unremarkable rs = true -> scan_results rt rs acc = Returns acc.
Proof.
  induction rs as [ | r rs IH]; intros acc H; [reflexivity | ].
  cbn [forallb] in H. apply andb_true_iff in H as [Hr Hrs].
  cbn [scan_results]. rewrite (unremarkable_has_no_anomaly r Hr). cbn [obind].
  rewrite app_nil_r. exact (IH acc Hrs).
Qed.

Lemma scan_results_keeps rs : forall acc found x,
  scan_results rt rs acc = Returns found -> In x acc -> In x found.
Proof.
  induction rs as [ | r rs IH]; intros acc found x H Hin.
  - injection H as <-. exact Hin.
  - cbn [scan_results] in H.
    destruct (anomalies_of rt r) as [more | e]; [ | discriminate H ].
    cbn [obind] in H. apply (IH _ _ _ H). apply in_or_app. left. exact Hin.
Qed.

Lemma scan_results_reports rs : forall acc found r t,
  scan_results rt rs acc = Returns found ->
  In r rs ->
  scanned_temperature r = Some t ->
  t < -100 \/ 60 < t ->
  In (unusual_temperature rt t) found.
Proof.
  induction rs as [ | r0 rs IH]; intros acc found r t H Hin Htemp Hout.
  - contradiction.
  - cbn [scan_results] in H. destruct Hin as [-> | Hin].
    + rewrite (unusual_is_reported r t Htemp Hout) in H. cbn [obind] in H.
      apply (scan_results_keeps _ _ _ _ H). apply in_or_app. right. left.
      reflexivity.
    + destruct (anomalies_of rt r0) as [more | e]; [ | discriminate H ].
      cbn [obind] in H. exact (IH _ _ _ _ H Hin Htemp Hout).
Qed.

(** X15. The temperature scan has no false alarm and misses no integer
    reading: if every result is a failed step, or has no temperature, or
    an integer one within -100..60 (bounds included), the scan returns no
    anomaly; and whenever the scan returns, each successful result with
    an integer temperature below -100 or above 60 has its "Unusual
    temperature value" message among the anomalies. *)
Theorem temperature_scan_is_exact (execution_result : ExecutionResult) :
  (forallb unremarkable (results execution_result) = true ->
   _check_for_anomalies rt execution_result = Returns [])
  /\ (forall found r t,
        _check_for_anomalies rt execution_result = Returns found ->
        In r (results execution_result) ->
        scanned_temperature r = Some t ->
        t < -100 \/ 60 < t ->
        In (unusual_temperature rt t) found).
Proof.
  unfold _check_for_anomalies. split.
  - intros H. exact (scan_results_quiet _ [] H).
  - intros found r t H Hin Htemp Hout.
    exact (scan_results_reports _ _ _ _ _ H Hin Htemp Hout).
Qed.

(** X16. When the model answers with a JSON object whose "issues" can be
    iterated, [verify_results] takes the five fields from it (with the
    defaults "", "", [], 0.5 and [] for absent ones) and appends its
    issues to the ones found before, so that an issue reported by the
    model alone makes [is_correct] false.  An answer that is not an
    object, or whose "issues" cannot be iterated, is treated like a
    failed call: the fallback values are returned and the issues found
    before are kept. *)
Theorem verify_results_reads_the_reply plan execution_result p reply p'
    complete found :
  collect_issues rt plan execution_result = Returns (complete, found) ->
  _verify_with_llm rt texts llm_client plan execution_result p
  = (Returns reply, p') ->
  (forall fields more,
     reply = VDict fields ->
     iterate (or_default fields "issues" (VList [])) = Returns more ->
     verify_results rt texts llm_client plan execution_result p
     = (Returns
          (mk_VerificationResult complete
             (match (found ++ more)%list with [] => true | _ => false end
              && success execution_result)
             (or_default fields "confidence_score" (VFloat 0.5))
             (found ++ more)
             (or_default fields "formatted_output" (VStr ""))
             (or_default fields "summary" (VStr ""))
             (or_default fields "recommendations" (VList []))),
        p'))
  /\ (is_dict reply = false ->
      verify_results rt texts llm_client plan execution_result p
      = (Returns (fallback_result rt complete found execution_result), p'))
  /\ (forall fields e,
        reply = VDict fields ->
        iterate (or_default fields "issues" (VList [])) = Raises e ->
        verify_results rt texts llm_client plan execution_result p
        = (Returns (fallback_result rt complete found execution_result), p')).
Proof.
  intros Hcheck Hllm.
  assert (Hpass :
    verify_results rt texts llm_client plan execution_result p
    = bind (quality_pass rt texts llm_client plan execution_result found)
        (fun q =>
           ret (mk_VerificationResult complete
                  (match q_issues q with [] => true | _ => false end
                   && success execution_result)
                  (q_confidence_score q) (q_issues q) (q_formatted_output q)
                  (q_summary q) (q_recommendations q))) p).
  { unfold verify_results. unfold bind at 1, pure_outcome at 1.
    rewrite Hcheck. reflexivity. }
  rewrite Hpass. clear Hpass. unfold fallback_result.
  split; [ | split ].
  - intros fields more -> Hiter. unfold quality_pass, try_except.
    unfold bind at 1. unfold bind at 1. rewrite Hllm.
    cbn [get]. unfold bind, pure_outcome, ret.
    unfold or_default in Hiter. rewrite Hiter. reflexivity.
  - intros Hnot. unfold quality_pass, try_except.
    unfold bind at 1. unfold bind at 1. rewrite Hllm.
    destruct reply; try discriminate Hnot; reflexivity.
  - intros fields e -> Hiter. unfold quality_pass, try_except.
    unfold bind at 1. unfold bind at 1. rewrite Hllm.
    cbn [get]. unfold bind, pure_outcome, ret.
    unfold or_default in Hiter. rewrite Hiter. reflexivity.
Qed.

Lemma collect_issues_complete plan execution_result complete found :
  collect_issues rt plan execution_result = Returns (complete, found) ->
  _check_completeness plan execution_result = Returns complete.
Proof.
  unfold collect_issues. intros H.
  destruct (negb (truthy plan) || negb (is_dict plan)); [discriminate H | ].
  destruct (_check_completeness plan execution_result) as [is_c | e];
    [ | discriminate H ].
  cbn [obind] in H.
  destruct (0 <? steps_failed execution_result); destruct is_c;
    cbn [negb obind] in H;
    try (destruct (expected_steps_of plan); cbn [obind] in H; [ | discriminate H ]);
    (destruct (_check_for_anomalies rt execution_result); cbn [obind] in H;
     [ | discriminate H ]);
    injection H as <- _; reflexivity.
Qed.

Lemma expected_of_plan_length plan n :
  plan_length plan = Returns n -> expected_steps_of plan = Returns n.
Proof.
  unfold plan_length, expected_steps_of.
  destruct plan as [ | b | z | f | s | l | fields]; try discriminate.
  cbn [getitem get]. destruct (lookup "steps" fields); [ | discriminate ].
  intros H. exact H.
Qed.

Lemma count_status_bounds s rs :
  0 <= count_status s rs <= Z.of_nat (List.length rs).
Proof.
  induction rs as [ | r rs IH]; [cbn; lia | ].
  cbn [count_status List.length]. rewrite Nat2Z.inj_succ.
  destruct (String.eqb (status r) s); lia.
Qed.

Lemma verify_results_needs_no_failure plan execution_result p vr p' :
  verify_results rt texts llm_client plan execution_result p = (Returns vr, p') ->
  is_correct vr = true ->
  success execution_result = true /\ steps_failed execution_result <= 0.
Proof.
  unfold verify_results. intros H Hcorrect.
  bind_inv H checked p1 Hcheck. pure_inv Hcheck.
  destruct checked as [complete found].
  bind_inv H q p2 Hq. apply ret_returns in H as [-> _].
  apply quality_pass_keeps_issues in Hq as [more Hmore].
  apply collect_issues_nonempty in Hcheck as (Hf & _ & _).
  cbn [is_correct] in Hcorrect. rewrite Hmore in Hcorrect.
  destruct found as [ | x found]; [ | discriminate Hcorrect ].
  split.
  - apply andb_true_iff in Hcorrect as [_ Hs]. exact Hs.
  - destruct (Z_lt_le_dec 0 (steps_failed execution_result)) as [Hpos | Hle];
      [ | exact Hle ].
    exfalso. apply (Hf Hpos). reflexivity.
Qed.

(** For the result of a run, [is_complete] says that no step failed. *)
Lemma complete_iff_no_failure (tools : list (string * tool W))
    plan st res st' p vr p' :
  execute_plan rt tools plan st = (Returns res, st') ->
  verify_results rt texts llm_client plan res p = (Returns vr, p') ->
  is_complete vr = true <-> steps_failed res = 0.
Proof.
  intros Hrun Hverify.
  pose proof (execute_plan_tallies_every_step_aux rt tools plan st res st' Hrun)
    as [Hlen Hsum].
  pose proof (execute_plan_returns rt tools plan st res st' Hrun)
    as (steps & _ & _ & _ & Hc & Hf & Hsuccess).
  pose proof (count_status_bounds "success" (results res)) as Hbounds.
  unfold verify_results in Hverify.
  bind_inv Hverify checked p1 Hcheck. pure_inv Hcheck.
  destruct checked as [complete found].
  bind_inv Hverify q p2 Hq. apply ret_returns in Hverify as [-> _].
  cbn [is_complete]. apply collect_issues_complete in Hcheck.
  unfold _check_completeness in Hcheck.
  rewrite (expected_of_plan_length _ _ Hlen) in Hcheck. cbn [obind] in Hcheck.
  injection Hcheck as <-. rewrite Z.eqb_eq. lia.
Qed.

(** X17. The verifier on the executor's own result: for the result of
    [execute_plan] on a plan, [is_complete] is true exactly when no step
    failed, and [is_correct] can only be true when no step failed and at
    least one step completed. *)
Theorem verification_of_an_execution (tools : list (string * tool W))
    plan st res st' p vr p' :
  execute_plan rt tools plan st = (Returns res, st') ->
  verify_results rt texts llm_client plan res p = (Returns vr, p') ->
  (is_complete vr = true <-> steps_failed res = 0)
  /\ (is_correct vr = true -> steps_failed res = 0 /\ 0 < steps_completed res).
Proof.
  intros Hrun Hverify.
  split; [exact (complete_iff_no_failure tools plan st res st' p vr p' Hrun Hverify) | ].
  pose proof (execute_plan_returns rt tools plan st res st' Hrun)
    as (steps & _ & _ & _ & Hc & Hf & Hsuccess).
  intros Hcorrect.
  destruct (verify_results_needs_no_failure plan res p vr p' Hverify Hcorrect)
    as [Hs Hle].
  pose proof (count_status_bounds "success" (results res)) as Hbounds.
  rewrite Hsuccess in Hs. apply Z.ltb_lt in Hs. split; lia.
Qed.

End VerifierPaths.

(** ** The orchestrator: what [process_query] answers *)

Lemma characters_cons c s :
  exists following rest, characters (String c s) = String c following :: rest.
Proof.
  cbn [characters].
  destruct (starts_with_continuation s); [destruct (characters s) | ]; eauto.
Qed.

Lemma char_length_cons c s :
  char_length (String c s)
  = if starts_with_continuation s then char_length s else S (char_length s).
Proof.
  unfold char_length. cbn [characters].
  destruct (starts_with_continuation s) eqn:Hs; [ | reflexivity].
  destruct s as [ | c' s']; [discriminate Hs | ].
  destruct (characters_cons c' s') as (following & rest & ->). reflexivity.
Qed.

Lemma char_length_append s t :
  starts_with_continuation t = false ->
  char_length (s ++ t) = (char_length s + char_length t)%nat.
Proof.
  intros Ht. induction s as [ | c s IH]; [reflexivity | ].
  cbn [append]. rewrite !char_length_cons. destruct s as [ | c' s'].
  - cbn [append]. rewrite Ht. reflexivity.
  - rewrite IH. cbn [append starts_with_continuation].
    destruct (is_continuation c'); reflexivity.
Qed.

Lemma char_length_append_le s t :
  (char_length (s ++ t) <= char_length s + char_length t)%nat.
Proof.
  induction s as [ | c s IH]; [cbn [append]; lia | ].
  cbn [append]. rewrite !char_length_cons. destruct s as [ | c' s'].
  - cbn [append]. change (char_length "") with O.
    cbn [starts_with_continuation]. destruct (starts_with_continuation t); lia.
  - cbn [append starts_with_continuation] in *.
    destruct (is_continuation c'); lia.
Qed.

Lemma characters_are_single s :
  Forall (fun ch => char_length ch = 1%nat) (characters s).
Proof.
  induction s as [ | c s IH]; [constructor | ].
  cbn [characters]. destruct (starts_with_continuation s) eqn:Hs.
  - destruct s as [ | c' s']; [discriminate Hs | ].
    destruct (characters_cons c' s') as (following & rest & E).
    rewrite E in IH |- *. inversion IH as [ | ? ? Hone Hrest]; subst.
    constructor; [ | exact Hrest].
    rewrite char_length_cons. cbn [starts_with_continuation] in Hs |- *.
    rewrite Hs. exact Hone.
  - constructor; [reflexivity | exact IH].
Qed.

Lemma char_length_join l :
  Forall (fun ch => char_length ch = 1%nat) l ->
  (char_length (join "" l) <= List.length l)%nat.
Proof.
  unfold join. induction 1 as [ | ch l Hone Hrest IH]; [cbn; lia | ].
  cbn [String.concat List.length]. destruct l as [ | ch' l'].
  - rewrite Hone. lia.
  - cbn [append].
    pose proof (char_length_append_le ch (String.concat "" (ch' :: l'))) as Hle.
    cbn [List.length] in IH |- *. lia.
Qed.

Lemma char_length_take s n :
  (char_length (take_chars n s) <= n)%nat.
Proof.
  unfold take_chars.
  assert (Hfirst : Forall (fun ch => char_length ch = 1%nat)
                     (firstn n (characters s))).
  { pose proof (characters_are_single s) as Hall. revert n.
    induction Hall as [ | ch l Hone Hrest IH]; intros [ | n]; cbn [firstn];
      constructor; [exact Hone | apply IH]. }
  pose proof (char_length_join _ Hfirst) as Hle.
  pose proof (firstn_le_length n (characters s)) as Hn. lia.
Qed.

Lemma all_success_of_count rs :
  count_status "success" rs = Z.of_nat (List.length rs) ->
  forallb (fun r => String.eqb (status r) "success") rs = true.
Proof.
  induction rs as [ | r rs IH]; intros H; [reflexivity | ].
  cbn [count_status List.length] in H. rewrite Nat2Z.inj_succ in H.
  pose proof (count_status_bounds "success" rs) as Hb.
  cbn [forallb]. destruct (String.eqb (status r) "success"); [ | lia ].
  apply IH. lia.
Qed.

Section OrchestratorFacts.

Context {W : Type}.
Variable rt : runtime W.
Variable isalpha : string -> bool.
Variable texts : prompt_texts.
Variable llm_client : LLMClient.
Variable tools : list (string * tool W).
Variable unbound_verification : string.

Lemma bind_clock {A : Type} (k : float -> M (executor_state W) A) st :
  bind (clock rt) k st = k (time_time rt (world (proc st))) st.
Proof. destruct st as [p l]. reflexivity. Qed.

Lemma bind_caught {S A B : Type} (m : M S A) (k : outcome A -> M S B) s :
  bind (caught m) k s = k (fst (m s)) (snd (m s)).
Proof. unfold bind, caught. destruct (m s) as [o s']. reflexivity. Qed.

Lemma in_process_runs {A : Type} (m : M (process W) A) st :
  in_process m st
  = (fst (m (proc st)), mk_executor_state (snd (m (proc st))) (self_execution_log st)).
Proof. unfold in_process. destruct (m (proc st)) as [o p]. reflexivity. Qed.

(** Every way through [process_query]: it declines the query and touches
    nothing; or the planner raised; or the plan was run, and the verifier
    returned or raised.  The [except] clauses around [execute_plan] are on
    no path, since the plan has passed validation. *)
Lemma process_query_paths user_query st :
  exists res st',
    process_query rt isalpha texts llm_client tools unbound_verification user_query st = (Returns res, st')
    /\ ((st' = st
         /\ r_plan res = None /\ r_execution res = None /\ r_verification res = None
         /\ r_success res = false /\ r_total_time res = 0%float
         /\ (exists msg, r_error res = Some msg)
         /\ ((strip user_query = "" /\ r_query res = "")
             \/ ((1000 < char_length (strip user_query))%nat
                 /\ r_query res = take_chars 100 (strip user_query) ++ "...")
             \/ (r_query res = strip user_query
                 /\ any_alpha isalpha (strip user_query) = false
                 /\ (char_length (strip user_query) <= 1000)%nat)))
        \/ (r_query res = strip user_query
            /\ any_alpha isalpha (strip user_query) = true
            /\ (char_length (strip user_query) <= 1000)%nat
            /\ ((exists e p1,
                   create_plan rt texts llm_client (strip user_query) (proc st)
                   = (Raises e, p1)
                   /\ r_plan res = None /\ r_execution res = None
                   /\ r_verification res = None
                   /\ r_success res = false
                   /\ r_error res = Some (planning_error_text e)
                   /\ st' = mk_executor_state p1 (self_execution_log st))
                \/ (exists plan p1 execution_result st2,
                      create_plan rt texts llm_client (strip user_query) (proc st)
                      = (Returns plan, p1)
                      /\ execute_plan rt tools plan
                           (mk_executor_state p1 (self_execution_log st))
                         = (Returns execution_result, st2)
                      /\ r_plan res = Some plan
                      /\ r_execution res = Some execution_result
                      /\ ((exists verification p3,
                             verify_results rt texts llm_client plan execution_result
                               (proc st2)
                             = (Returns verification, p3)
                             /\ r_verification res = Some verification
                             /\ r_success res
                                = success execution_result && is_complete verification
                             /\ r_error res = None
                             /\ st' = mk_executor_state p3 (self_execution_log st2))
                          \/ (exists e p3,
                                verify_results rt texts llm_client plan
                                  execution_result (proc st2)
                                = (Raises e, p3)
                                /\ r_verification res
                                   = Some (verification_unavailable e)
                                /\ r_success res = false
                                /\ r_error res
                                   = (if success execution_result
                                      then Some ("Unexpected error: "
                                                 ++ unbound_verification)
                                      else None)
                                /\ st' = mk_executor_state p3
                                           (self_execution_log st2))))))).
Proof.
  unfold process_query.
  destruct (String.eqb user_query "" || String.eqb (strip user_query) "") eqn:Hblank.
  { eexists. eexists. split; [reflexivity | ]. left.
    do 6 (split; [reflexivity | ]). split; [eexists; reflexivity | ].
    left. split; [ | reflexivity ].
    apply orb_true_iff in Hblank as [Hb | Hb]; apply String.eqb_eq in Hb;
      [subst user_query; reflexivity | exact Hb]. }
  destruct (Nat.ltb 1000 (char_length (strip user_query))) eqn:Hlong.
  { eexists. eexists. split; [reflexivity | ]. left.
    do 6 (split; [reflexivity | ]). split; [eexists; reflexivity | ].
    right. left. apply Nat.ltb_lt in Hlong. split; [exact Hlong | reflexivity]. }
  apply Nat.ltb_ge in Hlong.
  destruct (any_alpha isalpha (strip user_query)) eqn:Halpha; cbn [negb].
  2:{ eexists. eexists. split; [reflexivity | ]. left.
      do 6 (split; [reflexivity | ]). split; [eexists; reflexivity | ].
      right. right. split; [reflexivity | split; [reflexivity | exact Hlong] ]. }
  rewrite !bind_clock. rewrite bind_caught, in_process_runs. cbn [fst snd].
  destruct (create_plan rt texts llm_client (strip user_query) (proc st))
    as [[plan | e] p1] eqn:Hplan; cbn [fst snd].
  2:{ rewrite bind_clock. eexists. eexists. split; [reflexivity | ]. right.
      split; [reflexivity | ]. split; [reflexivity | ]. split; [exact Hlong | ].
      left. exists e, p1. repeat split; reflexivity. }
  rewrite !bind_clock. rewrite bind_caught.
  apply create_plan_returns_validated in Hplan as Hvalid. destruct Hvalid as [Hvalid _].
  destruct (validated_plan_is_executed rt tools plan
              (mk_executor_state p1 (self_execution_log st)) Hvalid)
    as (execution_result & st2 & Hexec & _).
  rewrite Hexec. cbn [fst snd]. rewrite !bind_clock.
  rewrite bind_caught, in_process_runs. cbn [fst snd].
  destruct (verify_results rt texts llm_client plan execution_result (proc st2))
    as [[verification | e] p3] eqn:Hverify; cbn [fst snd].
  - rewrite !bind_clock. eexists. eexists. split; [reflexivity | ]. right.
    split; [reflexivity | ]. split; [reflexivity | ]. split; [exact Hlong | ].
    right. exists plan, p1, execution_result, st2.
    split; [reflexivity | ]. split; [exact Hexec | ].
    split; [reflexivity | ]. split; [reflexivity | ].
    left. exists verification, p3.
    split; [exact Hverify | repeat split; reflexivity].
  - rewrite bind_clock.
    destruct (success execution_result) eqn:Hsuccess.
    + rewrite bind_clock. eexists. eexists. split; [reflexivity | ]. right.
      split; [reflexivity | ]. split; [reflexivity | ]. split; [exact Hlong | ].
      right. exists plan, p1, execution_result, st2.
      split; [reflexivity | ]. split; [exact Hexec | ].
      split; [reflexivity | ]. split; [reflexivity | ].
      right. exists e, p3. rewrite Hsuccess.
      split; [exact Hverify | repeat split; reflexivity].
    + eexists. eexists. split; [reflexivity | ]. right.
      split; [reflexivity | ]. split; [reflexivity | ]. split; [exact Hlong | ].
      right. exists plan, p1, execution_result, st2.
      split; [reflexivity | ]. split; [exact Hexec | ].
      split; [reflexivity | ]. split; [reflexivity | ].
      right. exists e, p3. rewrite Hsuccess.
      split; [exact Hverify | repeat split; reflexivity].
Qed.

(** X18. [process_query] never raises: for every query and every
    behaviour of the provider and the tools it returns a result.  The
    query it echoes is at most 1000 characters long.  A result that
    reports success has no error and carries the plan, the execution and
    the verification, with the executor's success flag and the verifier's
    completeness flag both true; a result without an error has all three
    parts too. *)
Theorem process_query_always_answers (user_query : string)
    (st : executor_state W) :
  exists res st',
    process_query rt isalpha texts llm_client tools unbound_verification user_query st
    = (Returns res, st')
    /\ (char_length (r_query res) <= 1000)%nat
    /\ (r_success res = true ->
        r_error res = None
        /\ exists plan execution_result verification,
             r_plan res = Some plan
             /\ r_execution res = Some execution_result
             /\ r_verification res = Some verification
             /\ success execution_result = true
             /\ is_complete verification = true)
    /\ (r_error res = None ->
        exists plan execution_result verification,
          r_plan res = Some plan
          /\ r_execution res = Some execution_result
          /\ r_verification res = Some verification).
Proof.
  destruct (process_query_paths user_query st) as (res & st' & Hrun & Hpaths).
  exists res, st'. split; [exact Hrun | ].
  destruct Hpaths
    as [(_ & Hp & He & Hv & Hs & _ & [msg Hmsg] & Hq)
       | (Hq & _ & Hlen & Hstages)].
  - split; [ | split ].
    + destruct Hq as [(_ & ->) | [(Hlong & ->) | (-> & _ & Hlen)] ].
      * change (char_length "") with O. lia.
      * rewrite char_length_append by reflexivity.
        pose proof (char_length_take (strip user_query) 100) as Htake.
        change (char_length "...") with 3%nat. lia.
      * exact Hlen.
    + intros Hyes. rewrite Hs in Hyes. discriminate Hyes.
    + intros Hnone. rewrite Hmsg in Hnone. discriminate Hnone.
  - rewrite Hq. split; [exact Hlen | ].
    destruct Hstages
      as [(e & p1 & _ & _ & _ & _ & Hs & Herr & _)
         | (plan & p1 & execution_result & st2 & _ & _ & Hp & He & Hverified)].
    + split.
      * intros Hyes. rewrite Hs in Hyes. discriminate Hyes.
      * intros Hnone. rewrite Herr in Hnone. discriminate Hnone.
    + destruct Hverified
        as [(verification & p3 & _ & Hv & Hs & Herr & _)
           | (e & p3 & _ & Hv & Hs & Herr & _)].
      * split.
        -- intros Hyes. rewrite Hs in Hyes. apply andb_true_iff in Hyes as [Hx Hc].
           split; [exact Herr | ].
           exists plan, execution_result, verification.
           repeat split; assumption.
        -- intros _. exists plan, execution_result, verification.
           repeat split; assumption.
      * split.
        -- intros Hyes. rewrite Hs in Hyes. discriminate Hyes.
        -- intros _. exists plan, execution_result, (verification_unavailable e).
           repeat split; assumption.
Qed.

(** X19. A query that, once stripped, has no letter or more than 1000
    characters is declined before anything runs: the state of the
    executor and of the outside world is what it was, no clock is read
    ([total_time] is 0.0), and the result has an error text and neither
    plan, execution nor verification.  Every other query is echoed
    stripped, in full. *)
Theorem process_query_declines_without_running (user_query : string)
    (st : executor_state W) (res : QueryResult) (st' : executor_state W) :
  process_query rt isalpha texts llm_client tools unbound_verification user_query st
  = (Returns res, st') ->
  (any_alpha isalpha (strip user_query) = false
   \/ (1000 < char_length (strip user_query))%nat ->
   st' = st
   /\ r_plan res = None /\ r_execution res = None /\ r_verification res = None
   /\ r_success res = false /\ r_total_time res = 0%float
   /\ exists msg, r_error res = Some msg)
  /\ (any_alpha isalpha (strip user_query) = true ->
      (char_length (strip user_query) <= 1000)%nat ->
      r_query res = strip user_query).
Proof.
  intros H.
  destruct (process_query_paths user_query st) as (res0 & st0 & Hrun & Hpaths).
  rewrite Hrun in H. injection H as <- <-.
  destruct Hpaths
    as [(Hst & Hp & He & Hv & Hs & Ht & Hmsg & Hq)
       | (Hq & Halpha & Hlen & _)].
  - split.
    + intros _. repeat split; assumption.
    + intros Halpha Hlen.
      destruct Hq as [(Hempty & _) | [(Hlong & _) | (Hq & Hno & _)] ].
      * rewrite Hempty in Halpha. discriminate Halpha.
      * lia.
      * exact Hq.
  - split.
    + intros [Hno | Hlong]; [rewrite Hno in Halpha; discriminate Halpha | lia].
    + intros _ _. exact Hq.
Qed.

(** X20. The orchestrator is stricter than the executor.  The executor
    calls a run a success when one step completed; [process_query]
    reports success only when every step of the plan did: the plan passed
    validation, no step failed, the number of completed steps is the
    number of steps of the plan, and every result has status "success". *)
Theorem process_query_success_is_strict (user_query : string)
    (st : executor_state W) (res : QueryResult) (st' : executor_state W) :
  process_query rt isalpha texts llm_client tools unbound_verification user_query st
  = (Returns res, st') ->
  r_success res = true ->
  exists plan execution_result,
    r_plan res = Some plan
    /\ r_execution res = Some execution_result
    /\ _validate_plan plan = true
    /\ steps_failed execution_result = 0
    /\ 0 < steps_completed execution_result
    /\ plan_length plan = Returns (steps_completed execution_result)
    /\ forallb (fun r => String.eqb (status r) "success")
         (results execution_result) = true.
Proof.
  intros H Hyes.
  destruct (process_query_paths user_query st) as (res0 & st0 & Hrun & Hpaths).
  rewrite Hrun in H. injection H as <- <-.
  destruct Hpaths
    as [(_ & _ & _ & _ & Hs & _) | (_ & _ & _ & Hstages)];
    [rewrite Hs in Hyes; discriminate Hyes | ].
  destruct Hstages
    as [(e & p1 & _ & _ & _ & _ & Hs & _)
       | (plan & p1 & execution_result & st2 & Hplan & Hexec & Hp & He & Hverified)];
    [rewrite Hs in Hyes; discriminate Hyes | ].
  destruct Hverified
    as [(verification & p3 & Hverify & _ & Hs & _)
       | (e & p3 & _ & _ & Hs & _)];
    [ | rewrite Hs in Hyes; discriminate Hyes ].
  rewrite Hs in Hyes. apply andb_true_iff in Hyes as [Hx Hc].
  exists plan, execution_result.
  apply create_plan_returns_validated in Hplan as [Hvalid _].
  pose proof (complete_iff_no_failure rt texts llm_client tools plan _ _ _ _ _ _
                Hexec Hverify) as Hiff.
  apply Hiff in Hc.
  pose proof (execute_plan_tallies_every_step_aux rt tools plan _ _ _ Hexec)
    as [Hlen Hsum].
  pose proof (execute_plan_returns rt tools plan _ _ _ Hexec)
    as (steps & _ & _ & _ & Hcount & Hf & Hsuccess).
  rewrite Hsuccess in Hx. apply Z.ltb_lt in Hx.
  repeat split; try assumption.
  - rewrite Hlen. f_equal. lia.
  - apply all_success_of_count. lia.
Qed.

(** X21. Once a plan exists, the execution is always part of the result:
    no path of [process_query] reports an error of the execution stage.
    The one error that can follow a plan is the "Unexpected error" of
    the outer handler, and it is reported exactly when the verifier
    raised after an execution that the executor called a success: the
    local [verification] is read without ever being bound.  The result
    then holds the substitute verification and reports failure.  When
    the verifier raised after an execution without success, there is no
    error text at all. *)
Theorem process_query_errors_after_planning (user_query : string)
    (st : executor_state W) (res : QueryResult) (st' : executor_state W)
    (plan : value) :
  process_query rt isalpha texts llm_client tools unbound_verification user_query st
  = (Returns res, st') ->
  r_plan res = Some plan ->
  exists p1 execution_result st2,
    create_plan rt texts llm_client (strip user_query) (proc st) = (Returns plan, p1)
    /\ execute_plan rt tools plan (mk_executor_state p1 (self_execution_log st))
       = (Returns execution_result, st2)
    /\ r_execution res = Some execution_result
    /\ ((exists verification p3,
           verify_results rt texts llm_client plan execution_result (proc st2)
           = (Returns verification, p3)
           /\ r_verification res = Some verification
           /\ r_error res = None)
        \/ (exists e p3,
              verify_results rt texts llm_client plan execution_result (proc st2)
              = (Raises e, p3)
              /\ r_verification res = Some (verification_unavailable e)
              /\ r_success res = false
              /\ (success execution_result = true ->
                  r_error res = Some ("Unexpected error: " ++ unbound_verification))
              /\ (success execution_result = false -> r_error res = None))).
Proof.
  intros H Hplanned.
  destruct (process_query_paths user_query st) as (res0 & st0 & Hrun & Hpaths).
  rewrite Hrun in H. injection H as <- <-.
  destruct Hpaths
    as [(_ & Hp & _) | (_ & _ & _ & Hstages)];
    [rewrite Hp in Hplanned; discriminate Hplanned | ].
  destruct Hstages
    as [(e & p1 & _ & Hp & _)
       | (plan0 & p1 & execution_result & st2 & Hplan & Hexec & Hp & He & Hverified)];
    [rewrite Hp in Hplanned; discriminate Hplanned | ].
  rewrite Hp in Hplanned. injection Hplanned as ->.
  exists p1, execution_result, st2.
  split; [exact Hplan | ]. split; [exact Hexec | ]. split; [exact He | ].
  destruct Hverified
    as [(verification & p3 & Hverify & Hv & _ & Herr & _)
       | (e & p3 & Hverify & Hv & Hs & Herr & _)].
  - left. exists verification, p3. repeat split; assumption.
  - right. exists e, p3.
    split; [exact Hverify | ]. split; [exact Hv | ]. split; [exact Hs | ].
    split; intros Hx; rewrite Hx in Herr; exact Herr.
Qed.

End OrchestratorFacts.

(** ** The weather tool: errors, units, and the comparison *)

Lemma builtin_is_not_http {A : Type} (o : outcome A) e :
  builtin o = Throws e -> is_http_error e = false.
Proof. destruct o as [a | e0]; intros H; [discriminate H | ]. injection H as <-. reflexivity. Qed.

Lemma first_item_is_not_http v e :
  first_item v = Throws e -> is_http_error e = false.
Proof.
  destruct v as [ | b | z | f | s | l | d]; cbn [first_item]; intros H;
    try (injection H as <-; reflexivity).
  - destruct s; [injection H as <-; reflexivity | discriminate H].
  - destruct l; [injection H as <-; reflexivity | discriminate H].
Qed.

Lemma capitalize_is_not_http v e :
  capitalize v = Throws e -> is_http_error e = false.
Proof.
  destruct v; cbn [capitalize]; intros H;
    try (injection H as <-; reflexivity); discriminate H.
Qed.

Ltac parse_step H :=
  match type of H with
  | tbind ?m _ = _ =>
      let Hm := fresh "Hm" in
      destruct m eqn:Hm; cbn [tbind] in H;
      [ | first [ discriminate H
                | injection H as <-;
                  first [ exact (builtin_is_not_http _ _ Hm)
                        | exact (first_item_is_not_http _ _ Hm)
                        | exact (capitalize_is_not_http _ _ Hm) ] ] ]
  end.

(** Parsing the body raises no [HTTPError]. *)
Lemma parse_weather_data_is_not_http raw_data units e :
  WeatherTool._parse_weather_data raw_data units = Throws e ->
  is_http_error e = false.
Proof.
  unfold WeatherTool._parse_weather_data. intros H.
  repeat parse_step H. discriminate H.
Qed.

(** What a parsed body holds. *)
Lemma parse_weather_data_fields raw_data units data :
  WeatherTool._parse_weather_data raw_data units = Gives data ->
  exists d main temperature,
    data = VDict d
    /\ get raw_data "main" (VDict []) = Returns main
    /\ get main "temp" VNone = Returns temperature
    /\ lookup "temperature" d = Some temperature
    /\ lookup "temperature_unit" d = Some (VStr (WeatherTool.temp_unit_of units))
    /\ lookup "units" d = Some units
    /\ lookup "error" d = None.
Proof.
  unfold WeatherTool._parse_weather_data. intros H.
  destruct (get raw_data "main" (VDict [])) as [main | e0] eqn:Hmain;
    cbn [builtin tbind] in H; [ | discriminate H ].
  parse_step H. parse_step H. parse_step H. parse_step H. parse_step H.
  parse_step H.
  destruct (get main "temp" VNone) as [temperature | e0] eqn:Htemp;
    cbn [builtin tbind] in H; [ | discriminate H ].
  repeat parse_step H.
  injection H as <-.
  eexists. exists main, temperature.
  split; [reflexivity | ]. split; [reflexivity | ]. split; [exact Htemp | ].
  repeat split; reflexivity.
Qed.

Section WeatherFacts.

Context {W : Type}.
Variable rt : runtime W.
Variable session_get :
  string -> list (string * value) -> W -> (Response + string) * W.
Variable api_key : string.

Lemma checked_units_valid units :
  in_strings (WeatherTool.checked_units units) WeatherTool.valid_units = true.
Proof.
  unfold WeatherTool.checked_units.
  destruct (in_strings units WeatherTool.valid_units) eqn:H; [exact H | reflexivity].
Qed.

Lemma weather_invalid_key city units w response w' :
  session_get (WeatherTool.BASE_URL ++ "/weather")
    (WeatherTool.request_params api_key city units) w = (inl response, w') ->
  status_code response = 401 ->
  WeatherTool.get_current_weather rt session_get api_key city units w
  = (Throws (mk_tool_exn (Builtin ValueError)
               "Invalid OpenWeather API key. Please check your configuration."),
     w').
Proof.
  unfold WeatherTool.request_params. intros Hget Hcode.
  unfold WeatherTool.get_current_weather, WeatherTool._make_request.
  rewrite Hget. unfold raise_for_status. rewrite Hcode. reflexivity.
Qed.

Lemma weather_rate_limited city units w response w' :
  session_get (WeatherTool.BASE_URL ++ "/weather")
    (WeatherTool.request_params api_key city units) w = (inl response, w') ->
  status_code response = 429 ->
  WeatherTool.get_current_weather rt session_get api_key city units w
  = (Throws (mk_tool_exn (HTTPError 429) WeatherTool.rate_limit_message), w').
Proof.
  unfold WeatherTool.request_params. intros Hget Hcode.
  unfold WeatherTool.get_current_weather, WeatherTool._make_request.
  rewrite Hget. unfold WeatherTool._handle_rate_limit. rewrite Hcode. reflexivity.
Qed.

(** X22. [get_current_weather] sends one request, with any units other
    than the three valid ones replaced by "metric", and answers by the
    status of the response: 404 becomes a [ValueError] that quotes the
    city and 401 a [ValueError] about the API key; 429 is the rate-limit
    [HTTPError] of [_handle_rate_limit]; any other status from 400 to
    599 is the [HTTPError] of [raise_for_status]; for every other status
    the body is decoded and parsed, and what decoding or parsing raises
    is passed on unchanged.  An exception of the request itself is
    passed on as well. *)
Theorem get_current_weather_by_status (city units : value) (w : W) :
  (forall response w',
     session_get (WeatherTool.BASE_URL ++ "/weather")
       (WeatherTool.request_params api_key city units) w = (inl response, w') ->
     (status_code response = 404 ->
      WeatherTool.get_current_weather rt session_get api_key city units w
      = (Throws (mk_tool_exn (Builtin ValueError)
                   ("City '" ++ str_of rt city
                    ++ "' not found. Please check the spelling or try adding a country code (e.g., 'London,GB')")),
         w'))
     /\ (status_code response = 401 ->
         WeatherTool.get_current_weather rt session_get api_key city units w
         = (Throws (mk_tool_exn (Builtin ValueError)
                      "Invalid OpenWeather API key. Please check your configuration."),
            w'))
     /\ (status_code response = 429 ->
         WeatherTool.get_current_weather rt session_get api_key city units w
         = (Throws (mk_tool_exn (HTTPError 429) WeatherTool.rate_limit_message), w'))
     /\ (400 <= status_code response < 600 ->
         status_code response <> 404 -> status_code response <> 401 ->
         status_code response <> 429 ->
         exists msg,
           raise_for_status rt response
           = Throws (mk_tool_exn (HTTPError (status_code response)) msg)
           /\ WeatherTool.get_current_weather rt session_get api_key city units w
              = (Throws (mk_tool_exn (HTTPError (status_code response)) msg), w'))
     /\ (status_code response < 400 \/ 600 <= status_code response ->
         WeatherTool.get_current_weather rt session_get api_key city units w
         = (let! body := response_json response in
            WeatherTool._parse_weather_data body (WeatherTool.checked_units units),
            w')))
  /\ (forall msg w',
        session_get (WeatherTool.BASE_URL ++ "/weather")
          (WeatherTool.request_params api_key city units) w = (inr msg, w') ->
        WeatherTool.get_current_weather rt session_get api_key city units w
        = (Throws (mk_tool_exn RequestException msg), w')).
Proof.
  unfold WeatherTool.request_params.
  split.
  - intros response w' Hget.
    unfold WeatherTool.get_current_weather, WeatherTool._make_request.
    rewrite Hget.
    split; [ | split; [ | split; [ | split ] ] ].
    + intros Hcode. unfold raise_for_status. rewrite Hcode. reflexivity.
    + intros Hcode. unfold raise_for_status. rewrite Hcode. reflexivity.
    + intros Hcode. unfold WeatherTool._handle_rate_limit. rewrite Hcode. reflexivity.
    + intros Hrange H404 H401 H429.
      replace (status_code response =? 429) with false
        by (symmetry; apply Z.eqb_neq; exact H429).
      unfold raise_for_status.
      destruct ((400 <=? status_code response) && (status_code response <? 500))
        eqn:Hclient.
      * eexists. split; [reflexivity | ].
        cbn [tbind tool_exn_class_of].
        replace (status_code response =? 404) with false
          by (symmetry; apply Z.eqb_neq; exact H404).
        replace (status_code response =? 401) with false
          by (symmetry; apply Z.eqb_neq; exact H401).
        reflexivity.
      * replace ((500 <=? status_code response) && (status_code response <? 600))
          with true
          by (symmetry; apply andb_true_iff; apply andb_false_iff in Hclient;
              split; [apply Z.leb_le | apply Z.ltb_lt];
              destruct Hclient as [Hc | Hc];
              [apply Z.leb_gt in Hc | apply Z.ltb_ge in Hc | apply Z.leb_gt in Hc
              | apply Z.ltb_ge in Hc]; lia).
        eexists. split; [reflexivity | ].
        cbn [tbind tool_exn_class_of].
        replace (status_code response =? 404) with false
          by (symmetry; apply Z.eqb_neq; exact H404).
        replace (status_code response =? 401) with false
          by (symmetry; apply Z.eqb_neq; exact H401).
        reflexivity.
    + intros Hout.
      replace (status_code response =? 429) with false
        by (symmetry; apply Z.eqb_neq; lia).
      unfold raise_for_status.
      replace ((400 <=? status_code response) && (status_code response <? 500))
        with false
        by (symmetry; apply andb_false_iff;
            destruct Hout; [left; apply Z.leb_gt | right; apply Z.ltb_ge]; lia).
      replace ((500 <=? status_code response) && (status_code response <? 600))
        with false
        by (symmetry; apply andb_false_iff;
            destruct Hout; [left; apply Z.leb_gt | right; apply Z.ltb_ge]; lia).
      cbn [tbind].
      destruct (response_json response) as [body | e] eqn:Hjson; cbn [tbind].
      * destruct (WeatherTool._parse_weather_data body
                    (WeatherTool.checked_units units)) as [data | e] eqn:Hparse;
          [reflexivity | ].
        apply parse_weather_data_is_not_http in Hparse.
        unfold is_http_error in Hparse.
        destruct (tool_exn_class_of e); try reflexivity. discriminate Hparse.
      * unfold response_json in Hjson.
        destruct (json response); [ | discriminate Hjson ].
        injection Hjson as <-. reflexivity.
  - intros msg w' Hget.
    unfold WeatherTool.get_current_weather, WeatherTool._make_request.
    rewrite Hget. reflexivity.
Qed.

(** What [get_current_weather] returns was parsed from the body of the
    response to its one request, for the checked units. *)
Lemma get_current_weather_gives city units w data w' :
  WeatherTool.get_current_weather rt session_get api_key city units w
  = (Gives data, w') ->
  exists response body,
    session_get (WeatherTool.BASE_URL ++ "/weather")
      (WeatherTool.request_params api_key city units) w = (inl response, w')
    /\ json response = inr body
    /\ WeatherTool._parse_weather_data body (WeatherTool.checked_units units)
       = Gives data.
Proof.
  unfold WeatherTool.get_current_weather, WeatherTool._make_request,
    WeatherTool.request_params.
  destruct (session_get _ _ w) as [[response | msg] w1]; [ | discriminate ].
  destruct (status_code response =? 429).
  { cbn [tbind tool_exn_class_of WeatherTool._handle_rate_limit].
    destruct (status_code response =? 404); [discriminate | ].
    destruct (status_code response =? 401); discriminate. }
  destruct (raise_for_status rt response) as [[] | e] eqn:Hstatus; cbn [tbind].
  - unfold response_json. destruct (json response) as [msg | body] eqn:Hjson;
      cbn [tbind tool_exn_class_of]; [discriminate | ].
    destruct (WeatherTool._parse_weather_data body (WeatherTool.checked_units units))
      as [data0 | e] eqn:Hparse.
    + intros H. injection H as <- <-. exists response, body.
      split; [reflexivity | split; [exact Hjson | exact Hparse] ].
    + destruct (tool_exn_class_of e) as [code | | | | c]; try discriminate.
      destruct (code =? 404); [discriminate | ].
      destruct (code =? 401); discriminate.
  - destruct (tool_exn_class_of e) as [code | | | | c]; try discriminate.
    destruct (code =? 404); [discriminate | ].
    destruct (code =? 401); discriminate.
Qed.

(** X23. The units of a weather reading and the verifier.  What
    [get_current_weather] returns is a dict built from the body of the
    response to its one request: its "temperature" is [main.temp] of
    that body ([None] when the body has none), its "units" is one of
    "metric", "imperial" and "standard" (anything else was replaced by
    "metric"), and its "temperature_unit" is the matching symbol, "°C",
    "°F" or "K".  The anomaly scan of the verifier does not read the
    unit: an integer temperature above 60 is reported as that many "°C"
    whatever the units, so 75 in "imperial" and 288 in "standard" are
    anomalies. *)
Theorem weather_units_and_the_verifier (city units : value) (w : W)
    (data : value) (w' : W) :
  WeatherTool.get_current_weather rt session_get api_key city units w
  = (Gives data, w') ->
  exists response body main temperature d,
    session_get (WeatherTool.BASE_URL ++ "/weather")
      (WeatherTool.request_params api_key city units) w = (inl response, w')
    /\ json response = inr body
    /\ get body "main" (VDict []) = Returns main
    /\ get main "temp" VNone = Returns temperature
    /\ data = VDict d
    /\ lookup "temperature" d = Some temperature
    /\ lookup "units" d = Some (WeatherTool.checked_units units)
    /\ in_strings (WeatherTool.checked_units units) WeatherTool.valid_units = true
    /\ lookup "temperature_unit" d
       = Some (VStr (WeatherTool.temp_unit_of (WeatherTool.checked_units units)))
    /\ (forall t number elapsed,
          temperature = VInt t -> 60 < t ->
          _check_for_anomalies rt
            (mk_ExecutionResult true 1 0
               [mk_StepResult number "success" data None elapsed] [])
          = Returns ["Unusual temperature value: " ++ str_of rt (VInt t) ++ "°C"]).
Proof.
  intros H.
  apply get_current_weather_gives in H as (response & body & Hget & Hjson & Hparse).
  apply parse_weather_data_fields in Hparse
    as (d & main & temperature & -> & Hmain & Hmaintemp & Htemp & Hunit & Hunits & _).
  exists response, body, main, temperature, d.
  split; [exact Hget | ]. split; [exact Hjson | ]. split; [exact Hmain | ].
  split; [exact Hmaintemp | ]. split; [reflexivity | ]. split; [exact Htemp | ].
  split; [exact Hunits | ]. split; [apply checked_units_valid | ].
  split; [exact Hunit | ].
  intros t number elapsed -> Hhot.
  unfold _check_for_anomalies. cbn [results scan_results].
  rewrite (unusual_is_reported rt (mk_StepResult number "success" (VDict d) None elapsed) t).
  - reflexivity.
  - unfold scanned_temperature. cbn [status data String.eqb Ascii.eqb Bool.eqb].
    rewrite Htemp. reflexivity.
  - right. exact Hhot.
Qed.

(** The loop of [compare_weather] adds one entry per city. *)
Lemma compare_cities_entries units : forall each results w,
  exists added w',
    WeatherTool.compare_cities rt session_get api_key each units results w
    = ((results ++ added)%list, w')
    /\ Forall2
         (fun city entry =>
            (exists d,
               entry = VDict d /\ lookup "error" d = None
               /\ lookup "units" d = Some (WeatherTool.checked_units units))
            \/ (exists msg, entry = WeatherTool.failed_city city units msg))
         each added.
Proof.
  induction each as [ | city rest IH]; intros results w.
  - exists [], w. split; [cbn; rewrite app_nil_r; reflexivity | constructor].
  - cbn [WeatherTool.compare_cities].
    destruct (WeatherTool.get_current_weather rt session_get api_key city units w)
      as [fetched w1] eqn:Hfetch.
    destruct (IH (results ++ [WeatherTool.city_entry city units fetched])%list w1)
      as (added & w' & Hloop & Hall).
    exists (WeatherTool.city_entry city units fetched :: added), w'.
    split.
    + rewrite Hloop, <- app_assoc. reflexivity.
    + constructor; [ | exact Hall ].
      destruct fetched as [data | e]; cbn [WeatherTool.city_entry].
      * left. apply get_current_weather_gives in Hfetch
          as (response & body & _ & _ & Hparse).
        apply parse_weather_data_fields in Hparse
          as (d & _ & _ & -> & _ & _ & _ & _ & Hunits & Herror).
        exists d. split; [reflexivity | split; assumption].
      * right. destruct (is_value_error e); eexists; reflexivity.
Qed.

Lemma len_of_iterable cities each :
  iterate cities = Returns each -> exists n, len cities = Returns n.
Proof.
  destruct cities; cbn [iterate len]; intros H; try discriminate H;
    eexists; reflexivity.
Qed.

Lemma compare_weather_gives cities units each w :
  iterate cities = Returns each ->
  exists results w',
    WeatherTool.compare_weather rt session_get api_key cities units w
    = (Gives (VList results), w')
    /\ Forall2
         (fun city entry =>
            (exists d,
               entry = VDict d /\ lookup "error" d = None
               /\ lookup "units" d = Some (WeatherTool.checked_units units))
            \/ (exists msg, entry = WeatherTool.failed_city city units msg))
         each results.
Proof.
  intros Hiter. unfold WeatherTool.compare_weather.
  destruct (len_of_iterable _ _ Hiter) as [n Hlen]. rewrite Hlen, Hiter.
  cbn [builtin].
  destruct (compare_cities_entries units each [] w) as (added & w' & Hloop & Hall).
  rewrite Hloop. exists added, w'. split; [reflexivity | exact Hall].
Qed.

Variable tools : list (string * tool W).

Lemma call_weather_city (t : tool W) ps city p :
  lookup "city" ps = Some city ->
  _call_tool_method t "weather" (VDict ps) p
  = external (t "get_current_weather"
                [("city", city); ("units", or_default ps "units" (VStr "metric"))]) p.
Proof.
  intros Hcity. unfold _call_tool_method, or_default.
  cbn [String.eqb Ascii.eqb Bool.eqb str_in getitem get].
  unfold bind, pure_outcome. rewrite Hcity. reflexivity.
Qed.

Lemma call_weather_cities (t : tool W) ps cities p :
  lookup "city" ps = None ->
  lookup "cities" ps = Some cities ->
  _call_tool_method t "weather" (VDict ps) p
  = external (t "compare_weather"
                [("cities", cities); ("units", or_default ps "units" (VStr "metric"))]) p.
Proof.
  intros Hcity Hcities. unfold _call_tool_method, or_default.
  cbn [String.eqb Ascii.eqb Bool.eqb str_in getitem get].
  unfold bind, pure_outcome. rewrite Hcity, Hcities. reflexivity.
Qed.

(** A step whose call returns at the first attempt. *)
Lemma execute_step_succeeds_at_once fields name t v p p' :
  lookup_tool tools (or_default fields "tool" (VStr "")) = Returns (Some (name, t)) ->
  _call_tool_method t name (or_default fields "parameters" (VDict [])) p
  = (Returns v, p') ->
  _execute_step rt tools (VDict fields) p
  = (Returns (mk_StepResult (step_number_of (VDict fields)) "success" v None
                (PrimFloat.sub (time_time rt (world p')) (time_time rt (world p)))),
     p').
Proof.
  unfold or_default. intros Htool Hcall.
  unfold _execute_step. cbn [get].
  unfold bind at 1, pure_outcome at 1.
  unfold bind at 1, pure_outcome at 1.
  unfold bind at 1, pure_outcome at 1.
  unfold bind at 1, pure_outcome at 1. rewrite Htool.
  unfold bind at 1, now at 1. unfold try_except.
  unfold bind at 1. unfold _retry_with_backoff.
  change (Z.to_nat (3 + 1)) with 4%nat.
  rewrite (retry_loop_returns rt _ _ _ _ _ _ _ _ _ _ Hcall).
  reflexivity.
Qed.

(** A step whose call raises a final error at the first attempt. *)
Lemma execute_step_gives_up fields name t e p p' :
  lookup_tool tools (or_default fields "tool" (VStr "")) = Returns (Some (name, t)) ->
  _call_tool_method t name (or_default fields "parameters" (VDict [])) p
  = (Raises e, p') ->
  is_transient e = false ->
  _execute_step rt tools (VDict fields) p
  = (Returns (mk_StepResult (step_number_of (VDict fields)) "failed" VNone
                (Some (exn_msg e))
                (PrimFloat.sub (time_time rt (world p')) (time_time rt (world p)))),
     p').
Proof.
  unfold or_default. intros Htool Hcall Hfinal.
  unfold _execute_step. cbn [get].
  unfold bind at 1, pure_outcome at 1.
  unfold bind at 1, pure_outcome at 1.
  unfold bind at 1, pure_outcome at 1.
  unfold bind at 1, pure_outcome at 1. rewrite Htool.
  unfold bind at 1, now at 1. unfold try_except.
  unfold bind at 1. unfold _retry_with_backoff.
  change (Z.to_nat (3 + 1)) with 4%nat.
  rewrite (retry_loop_gives_up rt _ _ _ _ _ _ _ _ _ _ Hcall)
    by (rewrite Hfinal; reflexivity).
  reflexivity.
Qed.

(** A step whose retry wrapper raised. *)
Lemma execute_step_raised fields name t e p p' :
  lookup_tool tools (or_default fields "tool" (VStr "")) = Returns (Some (name, t)) ->
  _retry_with_backoff rt
    (_call_tool_method t name (or_default fields "parameters" (VDict [])))
    3 1%float 2%float p = (Raises e, p') ->
  _execute_step rt tools (VDict fields) p
  = (Returns (mk_StepResult (step_number_of (VDict fields)) "failed" VNone
                (Some (exn_msg e))
                (PrimFloat.sub (time_time rt (world p')) (time_time rt (world p)))),
     p').
Proof.
  unfold or_default. intros Htool Hretry.
  unfold _execute_step. cbn [get].
  unfold bind at 1, pure_outcome at 1.
  unfold bind at 1, pure_outcome at 1.
  unfold bind at 1, pure_outcome at 1.
  unfold bind at 1, pure_outcome at 1. rewrite Htool.
  unfold bind at 1, now at 1. unfold try_except.
  unfold bind at 1. rewrite Hretry. reflexivity.
Qed.

(** Four transient failures in a row: the wrapper calls at [p], and
    again after the sleeps of 1, 2 and 4 seconds, and raises the fourth
    error from where the fourth call left the process. *)
Lemma retry_four_times (func : M (process W) value) e1 e2 e3 e4 p p1 p2 p3 p4 :
  func p = (Raises e1, p1) -> is_transient e1 = true ->
  func (mk_process (asleep rt (VFloat 1) (world p1)) (sleeps p1 ++ [VFloat 1]))
  = (Raises e2, p2) -> is_transient e2 = true ->
  func (mk_process (asleep rt (VFloat 2) (world p2)) (sleeps p2 ++ [VFloat 2]))
  = (Raises e3, p3) -> is_transient e3 = true ->
  func (mk_process (asleep rt (VFloat 4) (world p3)) (sleeps p3 ++ [VFloat 4]))
  = (Raises e4, p4) ->
  _retry_with_backoff rt func 3 1%float 2%float p = (Raises e4, p4).
Proof.
  intros H1 T1 H2 T2 H3 T3 H4. unfold _retry_with_backoff.
  change (Z.to_nat (3 + 1)) with 4%nat.
  erewrite retry_loop_sleeps; [ | exact H1 | exact T1 | lia | reflexivity ].
  erewrite retry_loop_sleeps; [ | exact H2 | exact T2 | lia | reflexivity ].
  erewrite retry_loop_sleeps; [ | exact H3 | exact T3 | lia | reflexivity ].
  erewrite retry_loop_gives_up; [reflexivity | exact H4 | ].
  apply orb_true_iff. right. reflexivity.
Qed.

(** X24. [compare_weather] never fails on cities it can iterate: it
    returns one entry per city, in order; an entry is a reading without
    "error" field, for the checked units, or the placeholder for that
    city with an error text (and the units as they were passed).  So a
    step that compares cities is a "success" for the executor at the
    first attempt, without a sleep, even when no city could be fetched. *)
Theorem compare_weather_never_fails (cities units : value) (each : list value) :
  iterate cities = Returns each ->
  (forall w,
     exists results w',
       WeatherTool.compare_weather rt session_get api_key cities units w
       = (Gives (VList results), w')
       /\ Forall2
            (fun city entry =>
               (exists d,
                  entry = VDict d /\ lookup "error" d = None
                  /\ lookup "units" d = Some (WeatherTool.checked_units units))
               \/ (exists msg, entry = WeatherTool.failed_city city units msg))
            each results)
  /\ (forall t fields ps p,
        WeatherTool.is_weather_tool rt session_get api_key t ->
        lookup_tool tools (or_default fields "tool" (VStr ""))
        = Returns (Some ("weather", t)) ->
        or_default fields "parameters" (VDict []) = VDict ps ->
        lookup "city" ps = None ->
        lookup "cities" ps = Some cities ->
        or_default ps "units" (VStr "metric") = units ->
        exists r p' results,
          _execute_step rt tools (VDict fields) p = (Returns r, p')
          /\ status r = "success"
          /\ data r = VList results
          /\ List.length results = List.length each
          /\ sleeps p' = sleeps p).
Proof.
  intros Hiter. split.
  - intros w. exact (compare_weather_gives cities units each w Hiter).
  - intros t fields ps p [_ Htool] Hfind Hps Hcity Hcities Hunits.
    destruct (compare_weather_gives cities units each (world p) Hiter)
      as (results & w' & Hrun & Hall).
    eexists. exists (mk_process w' (sleeps p)), results.
    split.
    + apply (execute_step_succeeds_at_once fields "weather" t (VList results)).
      * exact Hfind.
      * rewrite Hps, (call_weather_cities t ps cities p Hcity Hcities), Hunits, Htool.
        unfold external, called. rewrite Hrun. reflexivity.
    + split; [reflexivity | ]. split; [reflexivity | ].
      split; [ | reflexivity ].
      symmetry. exact (Forall2_length Hall).
Qed.

(** X25. A weather step and the errors of the service.  With an invalid
    API key (status 401) the step fails at the first attempt: one
    request, no sleep, and the error text about the key.  While the
    service answers 429 the step is retried: the rate-limit text names a
    transient keyword, so the request is made four times, at the start
    and after sleeps of 1, 2 and 4 seconds, and the step fails with
    that text in the world the fourth request left, with no sleep after
    it. *)
Theorem weather_step_under_errors (t : tool W) (fields ps : list (string * value))
    (city : value) (p : process W) :
  WeatherTool.is_weather_tool rt session_get api_key t ->
  lookup_tool tools (or_default fields "tool" (VStr ""))
  = Returns (Some ("weather", t)) ->
  or_default fields "parameters" (VDict []) = VDict ps ->
  lookup "city" ps = Some city ->
  (forall response w',
     session_get (WeatherTool.BASE_URL ++ "/weather")
       (WeatherTool.request_params api_key city
          (or_default ps "units" (VStr "metric"))) (world p)
     = (inl response, w') ->
     status_code response = 401 ->
     _execute_step rt tools (VDict fields) p
     = (Returns (mk_StepResult (step_number_of (VDict fields)) "failed" VNone
                   (Some "Invalid OpenWeather API key. Please check your configuration.")
                   (PrimFloat.sub (time_time rt w') (time_time rt (world p)))),
        mk_process w' (sleeps p)))
  /\ (forall r1 w1 r2 w2 r3 w3 r4 w4,
        session_get (WeatherTool.BASE_URL ++ "/weather")
          (WeatherTool.request_params api_key city
             (or_default ps "units" (VStr "metric"))) (world p)
        = (inl r1, w1) ->
        status_code r1 = 429 ->
        session_get (WeatherTool.BASE_URL ++ "/weather")
          (WeatherTool.request_params api_key city
             (or_default ps "units" (VStr "metric"))) (asleep rt (VFloat 1) w1)
        = (inl r2, w2) ->
        status_code r2 = 429 ->
        session_get (WeatherTool.BASE_URL ++ "/weather")
          (WeatherTool.request_params api_key city
             (or_default ps "units" (VStr "metric"))) (asleep rt (VFloat 2) w2)
        = (inl r3, w3) ->
        status_code r3 = 429 ->
        session_get (WeatherTool.BASE_URL ++ "/weather")
          (WeatherTool.request_params api_key city
             (or_default ps "units" (VStr "metric"))) (asleep rt (VFloat 4) w3)
        = (inl r4, w4) ->
        status_code r4 = 429 ->
        _execute_step rt tools (VDict fields) p
        = (Returns (mk_StepResult (step_number_of (VDict fields)) "failed" VNone
                      (Some WeatherTool.rate_limit_message)
                      (PrimFloat.sub (time_time rt w4) (time_time rt (world p)))),
           mk_process w4 (sleeps p ++ [VFloat 1; VFloat 2; VFloat 4])%list)).
Proof.
  intros [Htool _] Hfind Hps Hcity.
  split.
  - intros response w' Hget Hcode.
    apply (execute_step_gives_up fields "weather" t
             (mk_exn ValueError
                "Invalid OpenWeather API key. Please check your configuration.")
             p (mk_process w' (sleeps p))).
    + exact Hfind.
    + rewrite Hps, (call_weather_city t ps city p Hcity), Htool.
      unfold external, called.
      rewrite (weather_invalid_key _ _ _ _ _ Hget Hcode). reflexivity.
    + vm_compute. reflexivity.
  - intros r1 w1 r2 w2 r3 w3 r4 w4 G1 C1 G2 C2 G3 C3 G4 C4.
    assert (Hcall : forall q response w',
      session_get (WeatherTool.BASE_URL ++ "/weather")
        (WeatherTool.request_params api_key city
           (or_default ps "units" (VStr "metric"))) (world q)
      = (inl response, w') ->
      status_code response = 429 ->
      _call_tool_method t "weather" (VDict ps) q
      = (Raises (mk_exn PlainException WeatherTool.rate_limit_message),
         mk_process w' (sleeps q))).
    { intros q response w' Hget Hcode.
      rewrite (call_weather_city t ps city q Hcity), Htool.
      unfold external, called.
      rewrite (weather_rate_limited _ _ _ _ _ Hget Hcode). reflexivity. }
    assert (Htransient :
      is_transient (mk_exn PlainException WeatherTool.rate_limit_message) = true)
      by (vm_compute; reflexivity).
    rewrite (execute_step_raised fields "weather" t
               (mk_exn PlainException WeatherTool.rate_limit_message) p
               (mk_process w4 (sleeps p ++ [VFloat 1; VFloat 2; VFloat 4])%list)).
    + reflexivity.
    + exact Hfind.
    + rewrite Hps.
      apply (retry_four_times _
               (mk_exn PlainException WeatherTool.rate_limit_message)
               (mk_exn PlainException WeatherTool.rate_limit_message)
               (mk_exn PlainException WeatherTool.rate_limit_message)
               (mk_exn PlainException WeatherTool.rate_limit_message) p
               (mk_process w1 (sleeps p))
               (mk_process w2 (sleeps p ++ [VFloat 1])%list)
               (mk_process w3 ((sleeps p ++ [VFloat 1]) ++ [VFloat 2])%list)
               (mk_process w4 (sleeps p ++ [VFloat 1; VFloat 2; VFloat 4])%list)).
      * exact (Hcall p r1 w1 G1 C1).
      * exact Htransient.
      * cbn [world sleeps].
        exact (Hcall (mk_process (asleep rt (VFloat 1) w1) (sleeps p ++ [VFloat 1])%list)
                 r2 w2 G2 C2).
      * exact Htransient.
      * cbn [world sleeps].
        exact (Hcall (mk_process (asleep rt (VFloat 2) w2)
                        ((sleeps p ++ [VFloat 1]) ++ [VFloat 2])%list)
                 r3 w3 G3 C3).
      * exact Htransient.
      * cbn [world sleeps].
        rewrite (Hcall (mk_process (asleep rt (VFloat 4) w3)
                          (((sleeps p ++ [VFloat 1]) ++ [VFloat 2]) ++ [VFloat 4])%list)
                   r4 w4 G4 C4).
        cbn [sleeps]. rewrite <- !app_assoc. reflexivity.
Qed.

End WeatherFacts.

(** ** The configuration and the constructors *)

Lemma in_levels_iff level :
  existsb (String.eqb level) Config.valid_log_levels = true
  <-> In level Config.valid_log_levels.
Proof.
  rewrite existsb_exists. split.
  - intros (x & Hin & Heq). apply String.eqb_eq in Heq. subst x. exact Hin.
  - intros Hin. exists level. split; [exact Hin | apply String.eqb_refl].
Qed.

Lemma validate_returns_iff_no_error c :
  Config.validate c = Returns tt <-> Config.validation_errors c = [].
Proof.
  unfold Config.validate. destruct (Config.validation_errors c); split; intros H;
    try reflexivity; discriminate H.
Qed.

(** What a configuration that passed [validate] is known to hold. *)
Lemma validated_configuration c :
  Config.validate c = Returns tt ->
  ((Config.llm_provider c = "openai"
    /\ String.prefix "sk-" (Config.openai_api_key c) = true
    /\ Config.openai_api_key c <> "")
   \/ (Config.llm_provider c = "gemini" /\ Config.gemini_api_key c <> ""))
  /\ Config.openweather_api_key c <> ""
  /\ 0 <= Config.max_retries c
  /\ 0 < Config.request_timeout c
  /\ In (upper (Config.log_level c)) Config.valid_log_levels.
Proof.
  rewrite validate_returns_iff_no_error. unfold Config.validation_errors.
  destruct (String.eqb (Config.openweather_api_key c) "") eqn:Hweather;
    destruct (Config.max_retries c <? 0) eqn:Hretries;
    destruct (Config.request_timeout c <=? 0) eqn:Htimeout;
    destruct (existsb (String.eqb (upper (Config.log_level c)))
                Config.valid_log_levels) eqn:Hlevel;
    cbn [negb];
    try (intros H; apply app_eq_nil in H as [_ H]; discriminate H).
  intros H.
  apply String.eqb_neq in Hweather. apply Z.ltb_ge in Hretries.
  apply Z.leb_gt in Htimeout. apply in_levels_iff in Hlevel.
  split; [ | repeat split; assumption ].
  destruct (String.eqb (Config.llm_provider c) "openai") eqn:Hopenai.
  - left. apply String.eqb_eq in Hopenai.
    destruct (String.eqb (Config.openai_api_key c) "") eqn:Hkey; cbn [negb andb] in H.
    + destruct (String.prefix "sk-" (Config.openai_api_key c)); discriminate H.
    + destruct (String.prefix "sk-" (Config.openai_api_key c)); cbn [negb] in H;
        [ | discriminate H ].
      apply String.eqb_neq in Hkey. repeat split; assumption.
  - right. destruct (String.eqb (Config.llm_provider c) "gemini") eqn:Hgemini;
      [ | discriminate H ].
    apply String.eqb_eq in Hgemini.
    destruct (String.eqb (Config.gemini_api_key c) "") eqn:Hkey; [discriminate H | ].
    apply String.eqb_neq in Hkey. split; assumption.
Qed.

(** X26. [Config.validate] returns exactly for the configurations with
    provider "openai" and an OpenAI key that starts with "sk-", or
    provider "gemini" and a non-empty Gemini key; with a non-empty
    OpenWeather key; with [max_retries] at least 0 and
    [request_timeout] above 0; and with a log level that is one of the
    five names once put in upper case.  The GitHub token, the models and
    the base URL are not looked at, and the key of the provider that is
    not chosen is not either. *)
Theorem validate_accepts_exactly (c : Config.Config) :
  Config.validate c = Returns tt
  <-> ((Config.llm_provider c = "openai"
        /\ String.prefix "sk-" (Config.openai_api_key c) = true)
       \/ (Config.llm_provider c = "gemini" /\ Config.gemini_api_key c <> ""))
      /\ Config.openweather_api_key c <> ""
      /\ 0 <= Config.max_retries c
      /\ 0 < Config.request_timeout c
      /\ In (upper (Config.log_level c)) Config.valid_log_levels.
Proof.
  split.
  - intros H. apply validated_configuration in H
      as ([ (Hp & Hk & _) | Hg ] & Hrest).
    + split; [left; split; assumption | exact Hrest].
    + split; [right; exact Hg | exact Hrest].
  - intros (Hprovider & Hweather & Hretries & Htimeout & Hlevel).
    apply validate_returns_iff_no_error. unfold Config.validation_errors.
    apply String.eqb_neq in Hweather. rewrite Hweather.
    replace (Config.max_retries c <? 0) with false
      by (symmetry; apply Z.ltb_ge; exact Hretries).
    replace (Config.request_timeout c <=? 0) with false
      by (symmetry; apply Z.leb_gt; exact Htimeout).
    apply in_levels_iff in Hlevel. rewrite Hlevel. cbn [negb].
    destruct Hprovider as [ [Hp Hk] | [Hp Hk] ]; rewrite Hp.
    + cbn [String.eqb Ascii.eqb Bool.eqb]. rewrite Hk.
      destruct (String.eqb (Config.openai_api_key c) "") eqn:Hempty; [ | reflexivity ].
      apply String.eqb_eq in Hempty. rewrite Hempty in Hk. discriminate Hk.
    + cbn [String.eqb Ascii.eqb Bool.eqb].
      apply String.eqb_neq in Hk. rewrite Hk. reflexivity.
Qed.

(** X27. [Config.__repr__] does not depend on the value of a secret: two
    configurations that agree on the model, the base URL, the log level
    and the two numbers, and in which the same secrets are set, print
    the same text, whatever the OpenAI key, the GitHub token and the
    OpenWeather key are, and whatever the provider, the Gemini key and
    the Gemini model are, which are not printed at all. *)
Theorem repr_hides_secrets (str_int : Z -> string) (c1 c2 : Config.Config) :
  Config.openai_model c1 = Config.openai_model c2 ->
  Config.openai_base_url c1 = Config.openai_base_url c2 ->
  Config.log_level c1 = Config.log_level c2 ->
  Config.max_retries c1 = Config.max_retries c2 ->
  Config.request_timeout c1 = Config.request_timeout c2 ->
  (Config.openai_api_key c1 = "" <-> Config.openai_api_key c2 = "") ->
  (Config.is_some_text (Config.github_token c1)
   = Config.is_some_text (Config.github_token c2)) ->
  (Config.openweather_api_key c1 = "" <-> Config.openweather_api_key c2 = "") ->
  Config.__repr__ str_int c1 = Config.__repr__ str_int c2.
Proof.
  intros Hmodel Hurl Hlevel Hretries Htimeout Hkey Htoken Hweather.
  assert (Hk : String.eqb (Config.openai_api_key c1) ""
               = String.eqb (Config.openai_api_key c2) "").
  { destruct (String.eqb (Config.openai_api_key c1) "") eqn:H1;
      destruct (String.eqb (Config.openai_api_key c2) "") eqn:H2; try reflexivity.
    - apply String.eqb_eq in H1. apply String.eqb_neq in H2.
      exfalso. apply H2, Hkey, H1.
    - apply String.eqb_neq in H1. apply String.eqb_eq in H2.
      exfalso. apply H1, Hkey, H2. }
  assert (Hw : String.eqb (Config.openweather_api_key c1) ""
               = String.eqb (Config.openweather_api_key c2) "").
  { destruct (String.eqb (Config.openweather_api_key c1) "") eqn:H1;
      destruct (String.eqb (Config.openweather_api_key c2) "") eqn:H2;
      try reflexivity.
    - apply String.eqb_eq in H1. apply String.eqb_neq in H2.
      exfalso. apply H2, Hweather, H1.
    - apply String.eqb_neq in H1. apply String.eqb_eq in H2.
      exfalso. apply H1, Hweather, H2. }
  unfold Config.__repr__.
  rewrite Hmodel, Hurl, Hlevel, Hretries, Htimeout, Hk, Htoken, Hw. reflexivity.
Qed.

(** X28. After [validate], nothing in [AIOperationsAssistant.__init__]
    checks a key in vain: the constructor returns exactly when the
    configuration passes [validate] and the library of the chosen
    provider is installed; the checks of [LLMClient.__init__] on the key
    and on the provider name, and the check of [WeatherTool.__init__],
    never fail then.  The client it builds has the provider of the
    configuration and three attempts, whatever [max_retries] the
    configuration holds. *)
Theorem assistant_init_after_validation (c : Config.Config)
    (openai_available gemini_available : bool) (client : LLMClient) :
  AIOperationsAssistant__init__ c openai_available gemini_available = Returns client
  <-> Config.validate c = Returns tt
      /\ (if String.eqb (Config.llm_provider c) "gemini"
          then gemini_available else openai_available) = true
      /\ client = mk_LLMClient (Config.llm_provider c) 3 openai_available.
Proof.
  unfold AIOperationsAssistant__init__.
  destruct (Config.validate c) as [[] | e] eqn:Hvalid; cbn [obind].
  2:{ split; [intros H; discriminate H | intros (H & _); discriminate H]. }
  destruct (validated_configuration c Hvalid)
    as ([ (Hp & _ & Hk) | (Hp & Hk) ] & Hweather & _);
    apply String.eqb_neq in Hk; apply String.eqb_neq in Hweather;
    unfold LLMClient__init__, WeatherTool__init__;
    rewrite Hp; cbn [String.eqb Ascii.eqb Bool.eqb lower map_string];
    rewrite Hk, Hweather.
  - change (lower "openai") with "openai".
    cbn [String.eqb Ascii.eqb Bool.eqb].
    destruct openai_available; cbn [negb obind]; split.
    + intros H. injection H as <-. repeat split; reflexivity.
    + intros (_ & _ & ->). reflexivity.
    + intros H. discriminate H.
    + intros (_ & H & _). discriminate H.
  - change (lower "gemini") with "gemini".
    cbn [String.eqb Ascii.eqb Bool.eqb].
    destruct gemini_available; cbn [negb obind]; split.
    + intros H. injection H as <-. repeat split; reflexivity.
    + intros (_ & _ & ->). reflexivity.
    + intros H. discriminate H.
    + intros (_ & H & _). discriminate H.
Qed.

(** ** The GitHub tool: a 403 and the wait for the rate limit *)

Section GitHubFacts.

Context {W : Type}.
Variable rt : runtime W.
Variable session_get :
  string -> option (list (string * value)) -> W -> (Response + string) * W.
Variable api_token : option string.
Variable int_of_str : string -> option Z.
Variable int_time : W -> Z.

(** [_handle_rate_limit] raises its own error and sleeps nothing, or
    sleeps once, between 2 and 300 seconds, and returns. *)
Lemma handle_rate_limit_cases response p :
  GitHubTool._handle_rate_limit rt api_token int_of_str int_time response p
  = (Throws (GitHubTool.rate_limit_error api_token response), p)
  \/ exists wait_time,
       0 < wait_time < 300
       /\ GitHubTool._handle_rate_limit rt api_token int_of_str int_time response p
          = (Gives tt,
             mk_process (asleep rt (VInt (wait_time + 1)) (world p))
               (sleeps p ++ [VInt (wait_time + 1)])).
Proof.
  unfold GitHubTool._handle_rate_limit.
  destruct (String.eqb _ "0"); [ | left; reflexivity ].
  destruct (int_of_str _) as [reset_timestamp | ]; [ | left; reflexivity ].
  destruct ((0 <? reset_timestamp - int_time (world p))
            && (reset_timestamp - int_time (world p) <? 300)) eqn:Hwait;
    [ | left; reflexivity ].
  apply andb_true_iff in Hwait as [Hlow Hhigh].
  apply Z.ltb_lt in Hlow. apply Z.ltb_lt in Hhigh.
  right. exists (reset_timestamp - int_time (world p)). split; [lia | ].
  unfold time_sleep.
  replace (0 <=? reset_timestamp - int_time (world p) + 1) with true
    by (symmetry; apply Z.leb_le; lia).
  reflexivity.
Qed.

(** X29. A 403 from GitHub always ends in an [HTTPError] for status 403,
    and waiting does not help: [_handle_rate_limit] either raises "GitHub
    API rate limit exceeded" at once, or sleeps once, for 2 to 300
    seconds, after which [raise_for_status] raises for the very response
    that was already received; the request is not made again.  For any
    other status the tool does not sleep. *)
Theorem github_403_always_fails (endpoint : string)
    (params : option (list (string * value))) (p : process W)
    (response : Response) (w' : W) :
  session_get (GitHubTool.BASE_URL ++ endpoint) params (world p)
  = (inl response, w') ->
  (status_code response = 403 ->
   exists e p',
     GitHubTool._make_request rt session_get api_token int_of_str int_time
       endpoint params p = (Throws e, p')
     /\ tool_exn_class_of e = HTTPError 403
     /\ ((e = GitHubTool.rate_limit_error api_token response
          /\ p' = mk_process w' (sleeps p))
         \/ (exists wait_time,
               0 < wait_time < 300
               /\ raise_for_status rt response = Throws e
               /\ p' = mk_process (asleep rt (VInt (wait_time + 1)) w')
                         (sleeps p ++ [VInt (wait_time + 1)]))))
  /\ (status_code response <> 403 ->
      exists r,
        GitHubTool._make_request rt session_get api_token int_of_str int_time
          endpoint params p = (r, mk_process w' (sleeps p))).
Proof.
  intros Hget. unfold GitHubTool._make_request. rewrite Hget. split.
  - intros Hcode. rewrite Hcode. cbn [Z.eqb Pos.eqb].
    destruct (handle_rate_limit_cases response (mk_process w' (sleeps p)))
      as [Hraise | (wait_time & Hrange & Hsleep)].
    + rewrite Hraise. cbn [tbind].
      eexists. eexists. split; [reflexivity | ].
      split; [cbn; rewrite Hcode; reflexivity | ].
      left. split; reflexivity.
    + rewrite Hsleep. cbn [tbind world sleeps].
      unfold raise_for_status. rewrite Hcode. cbn [Z.leb Z.ltb Z.compare Pos.compare
        Pos.compare_cont andb tbind].
      eexists. eexists. split; [reflexivity | ].
      split; [reflexivity | ].
      right. exists wait_time. split; [exact Hrange | ].
      split; reflexivity.
  - intros Hcode.
    replace (status_code response =? 403) with false
      by (symmetry; apply Z.eqb_neq; exact Hcode).
    eexists. reflexivity.
Qed.

End GitHubFacts.

(** ** The Wikipedia tool: the short extract *)

Lemma append_empty_r s : (s ++ "")%string = s.
Proof. induction s as [ | c s IH]; [reflexivity | cbn; rewrite IH; reflexivity]. Qed.

Lemma append_char_assoc s c t :
  ((s ++ String c "") ++ t)%string = (s ++ String c t)%string.
Proof. induction s as [ | c0 s IH]; [reflexivity | cbn; rewrite IH; reflexivity]. Qed.

Lemma no_full_stop_step c rest :
  contains "." (String c rest) = false ->
  Ascii.eqb c "."%char = false /\ contains "." rest = false.
Proof.
  cbn [contains String.prefix].
  destruct (Ascii.ascii_dec "."%char c) as [Heq | Hne].
  - destruct rest; discriminate.
  - intros H. split; [ | exact H ].
    apply Ascii.eqb_neq. intros Hc. apply Hne. symmetry. exact Hc.
Qed.

Section ExtractFacts.

Variable isupper : string -> bool.

(** Without a full stop the loop finds no sentence. *)
Lemma split_without_full_stop n : forall rest sentences current,
  contains "." rest = false ->
  WikipediaTool.split_sentences isupper rest n sentences current
  = (sentences, (current ++ rest)%string).
Proof.
  induction rest as [ | c rest IH]; intros sentences current H.
  - cbn. rewrite append_empty_r. reflexivity.
  - apply no_full_stop_step in H as [Hc Hrest].
    cbn [WikipediaTool.split_sentences]. rewrite Hc. cbn [andb].
    rewrite (IH _ _ Hrest), append_char_assoc. reflexivity.
Qed.

(** Asked for no sentence, the loop stops at the first one it finds. *)
Lemma split_for_none n : n <= 0 -> forall rest current,
  (List.length (fst (WikipediaTool.split_sentences isupper rest n [] current))
   <= 1)%nat.
Proof.
  intros Hn. induction rest as [ | c rest IH]; intros current.
  - cbn. lia.
  - cbn [WikipediaTool.split_sentences].
    destruct (Ascii.eqb c "."%char && WikipediaTool.ends_sentence isupper rest)%bool.
    + cbn [List.app List.length].
      replace (n <=? Z.of_nat 1) with true by (symmetry; apply Z.leb_le; lia).
      cbn. lia.
    + apply IH.
Qed.

(** X30. The edges of [_extract_sentences], whatever characters the
    text is made of.  An empty text gives the empty string.  For a text
    of at least one character, asking for zero or a negative number of
    sentences gives "..." and nothing of the text.  A text without a
    full stop, asked for at least one sentence, comes back stripped of
    its white space, that of Unicode included, and with "..." appended
    exactly when stripping left fewer characters, although nothing but
    white space was left out. *)
Theorem extract_sentences_edges (text : string) (num_sentences : Z) :
  (text = "" -> WikipediaTool._extract_sentences isupper text num_sentences = "")
  /\ ((0 < char_length text)%nat -> num_sentences <= 0 ->
      WikipediaTool._extract_sentences isupper text num_sentences = "...")
  /\ ((0 < char_length text)%nat -> 1 <= num_sentences ->
      contains "." text = false ->
      WikipediaTool._extract_sentences isupper text num_sentences
      = (strip text
         ++ (if Nat.ltb (char_length (strip text)) (char_length text)
             then "..." else ""))%string).
Proof.
  assert (Hfilled : (0 < char_length text)%nat -> String.eqb text "" = false).
  { intros Hpos. destruct text; [cbn in Hpos; lia | reflexivity]. }
  split; [ | split ].
  - intros ->. reflexivity.
  - intros Hpos Hn. unfold WikipediaTool._extract_sentences.
    rewrite (Hfilled Hpos).
    pose proof (split_for_none num_sentences Hn text "") as Hlen.
    destruct (WikipediaTool.split_sentences isupper text num_sentences [] "")
      as [sentences current]. cbn [fst] in Hlen.
    replace (Z.of_nat (List.length sentences) <? num_sentences) with false
      by (symmetry; apply Z.ltb_ge; lia).
    rewrite andb_false_r.
    assert (Hnone : WikipediaTool.up_to sentences num_sentences = []).
    { unfold WikipediaTool.up_to.
      destruct (0 <=? num_sentences) eqn:Hzero.
      - apply Z.leb_le in Hzero. replace num_sentences with 0 by lia. reflexivity.
      - apply Z.leb_gt in Hzero.
        replace (List.length sentences - Z.to_nat (- num_sentences))%nat with O
          by lia.
        reflexivity. }
    rewrite Hnone. cbn [join String.concat]. change (char_length "") with O.
    replace (Nat.ltb 0 (char_length text)) with true
      by (symmetry; apply Nat.ltb_lt; exact Hpos).
    reflexivity.
  - intros Hpos Hn Hstop. unfold WikipediaTool._extract_sentences.
    rewrite (Hfilled Hpos).
    rewrite (split_without_full_stop num_sentences text [] "" Hstop).
    cbn [append List.length].
    replace (Z.of_nat 0 <? num_sentences) with true
      by (symmetry; apply Z.ltb_lt; lia).
    rewrite andb_true_r.
    assert (Hone : forall s : string,
              WikipediaTool.up_to [s] num_sentences = [s]).
    { intros s. unfold WikipediaTool.up_to.
      replace (0 <=? num_sentences) with true by (symmetry; apply Z.leb_le; lia).
      destruct (Z.to_nat num_sentences) as [ | k] eqn:Hk; [lia | ].
      cbn [firstn]. destruct k; reflexivity. }
    destruct (String.eqb (strip text) "") eqn:Hblank; cbn [negb List.app].
    + apply String.eqb_eq in Hblank. rewrite Hblank.
      replace (WikipediaTool.up_to [] num_sentences) with (@nil string)
        by (unfold WikipediaTool.up_to; destruct (0 <=? num_sentences);
            [rewrite firstn_nil | cbn]; reflexivity).
      reflexivity.
    + rewrite Hone. cbn [join String.concat].
      destruct (Nat.ltb (char_length (strip text)) (char_length text));
        [reflexivity | rewrite append_empty_r; reflexivity].
Qed.

End ExtractFacts.

(** ** The properties above on the small world *)

Lemma planned_paris_is_runnable :
  _validate_plan paris_plan = true
  /\ generate_json_completion (replying_runtime paris_plan) openai_client
       (_build_planning_prompt no_texts (strip "weather in Paris")) 2000 start
     = (Returns paris_plan, mk_process 1%nat [])
  /\ forall (tools : list (string * tool nat)) st,
       exists res st',
         execute_plan (replying_runtime paris_plan) tools paris_plan st
         = (Returns res, st')
         /\ plan_length paris_plan = Returns (Z.of_nat (List.length (results res))).
Proof.
  apply (create_plan_returns_runnable_plan (replying_runtime paris_plan) no_texts
           openai_client "weather in Paris" start paris_plan
           (mk_process 1%nat [])).
  vm_compute. reflexivity.
Defined.

Lemma blank_query_is_refused :
  create_plan (offline_runtime rate_limited) no_texts openai_client "   " start
  = (Raises (mk_exn ValueError "User query cannot be empty"), start)
  /\ create_plan (offline_runtime rate_limited) no_texts openai_client
       (no_break_space ++ " ") start
     = (Raises (mk_exn ValueError "User query cannot be empty"), start)
  /\ create_plan (offline_runtime rate_limited) no_texts openai_client
       "weather in Paris" start
     = (Raises gave_up, mk_process 3%nat [VInt 1; VInt 2; VInt 4]).
Proof.
  split; [ | split ].
  - apply (proj1 (create_plan_error_paths (offline_runtime rate_limited) no_texts
                    openai_client "   " start)).
    vm_compute. reflexivity.
  - apply (proj1 (create_plan_error_paths (offline_runtime rate_limited) no_texts
                    openai_client (no_break_space ++ " ") start)).
    vm_compute. reflexivity.
  - apply (proj2 (create_plan_error_paths (offline_runtime rate_limited) no_texts
                    openai_client "weather in Paris" start));
      vm_compute; reflexivity.
Defined.

Lemma empty_plans_are_refused :
  execute_plan (offline_runtime rate_limited) (weather_tools not_found 0)
    (VDict []) fresh
  = (Raises (mk_exn ValueError "Plan must be a non-empty dictionary"), fresh)
  /\ execute_plan (offline_runtime rate_limited) (weather_tools not_found 0)
       (plan_of []) fresh
     = (Raises (mk_exn ValueError "Plan must contain at least one step"), fresh).
Proof.
  split.
  - apply (proj1 (execute_plan_rejects_empty_plans (offline_runtime rate_limited)
                    (weather_tools not_found 0) (VDict []) fresh)).
    reflexivity.
  - apply (proj2 (execute_plan_rejects_empty_plans (offline_runtime rate_limited)
                    (weather_tools not_found 0) (plan_of []) fresh)
             (plan_fields [])); reflexivity.
Defined.

Lemma mixed_plan_log :
  exists res st',
    execute_plan (offline_runtime rate_limited)
      (weather_tools connection_timeout 3) mixed_plan fresh = (Returns res, st')
    /\ List.length (execution_log res) = 3%nat
    /\ (execution_log res = self_execution_log st'
        /\ List.length (execution_log res) = List.length (results res)).
Proof.
  eexists. eexists. split; [vm_compute; reflexivity | ].
  split; [reflexivity | ].
  eapply (execution_log_has_one_line_per_step (offline_runtime rate_limited)
            (weather_tools connection_timeout 3) mixed_plan fresh).
  vm_compute. reflexivity.
Defined.

Lemma mixed_plan_shapes :
  exists res st',
    execute_plan (offline_runtime rate_limited)
      (weather_tools connection_timeout 3) mixed_plan fresh = (Returns res, st')
    /\ steps_failed res = 2
    /\ (forallb well_shaped (results res) = true
        /\ steps_failed res = count_status "failed" (results res)).
Proof.
  eexists. eexists. split; [vm_compute; reflexivity | ].
  split; [reflexivity | ].
  eapply (results_are_well_shaped (offline_runtime rate_limited)
            (weather_tools connection_timeout 3) mixed_plan fresh).
  vm_compute. reflexivity.
Defined.

Lemma city_wins_over_cities :
  _call_tool_method echo "weather" (VDict city_and_cities) start
  = external (echo "get_current_weather"
                [("city", VStr "Paris"); ("units", VStr "metric")]) start.
Proof.
  exact (proj1 (proj2 (call_tool_method_precedence echo city_and_cities start))
           (VStr "Paris") eq_refl).
Defined.

Lemma weather_step_without_city :
  _execute_step (offline_runtime rate_limited) (weather_tools not_found 0)
    (VDict cityless_step) start
  = (Returns (mk_StepResult (VInt 1) "failed" VNone
                (Some "Weather tool requires 'city' or 'cities' parameter")
                (PrimFloat.sub 0 0)),
     start).
Proof.
  exact (proj1 (proj2 (missing_parameter_fails_at_once
                         (offline_runtime rate_limited) (weather_tools not_found 0)
                         cityless_step [("units", VStr "metric")]
                         (fun _ _ => flaky not_found 0) start eq_refl))
           eq_refl eq_refl eq_refl eq_refl).
Defined.

Lemma unknown_and_unhashable_tools :
  (exists line,
     run_step (offline_runtime rate_limited) (weather_tools not_found 0)
       (VDict calendar_step) (mk_tally 0 0 []) fresh
     = (Returns (mk_tally 0 1
                   [mk_StepResult (VInt 3) "failed" VNone
                      (Some "Tool 'calendar' not found in available tools")
                      0%float]),
        mk_executor_state start [line]))
  /\ (exists line,
        run_step (offline_runtime rate_limited) (weather_tools not_found 0)
          (VDict listed_tool_step) (mk_tally 0 0 []) fresh
        = (Returns (mk_tally 0 1
                      [mk_StepResult (VInt 2) "failed" VNone
                         (Some "Unexpected error: unhashable type: 'list'")
                         0%float]),
           mk_executor_state start [line])).
Proof.
  split.
  - exact (proj1 (bad_tool_name_fails_only_its_step (offline_runtime rate_limited)
                    (weather_tools not_found 0) calendar_step (mk_tally 0 0 []) fresh)
             "calendar" eq_refl eq_refl).
  - exact (proj2 (bad_tool_name_fails_only_its_step (offline_runtime rate_limited)
                    (weather_tools not_found 0) listed_tool_step (mk_tally 0 0 [])
                    fresh)
             (VList []) eq_refl eq_refl).
Defined.

Lemma two_timeouts_sleep_twice :
  (exists k,
     Z.of_nat k <= Z.max 0 3
     /\ sleeps (mk_process 3%nat [VFloat 1; VFloat 2])
        = (sleeps start ++ map VFloat (delays 1 2 k))%list)
  /\ _retry_with_backoff (offline_runtime rate_limited)
       (external (flaky connection_timeout 2)) (-1) 1 2 start
     = (Raises (mk_exn PlainException "Function failed with unknown error"), start).
Proof.
  split.
  - apply (proj1 (retry_sleeps_follow_the_schedule (offline_runtime rate_limited)
                    (flaky connection_timeout 2) 3 1 2 start)
             (Returns paris_weather)).
    vm_compute. reflexivity.
  - apply (proj2 (retry_sleeps_follow_the_schedule (offline_runtime rate_limited)
                    (flaky connection_timeout 2) (-1) 1 2 start)).
    reflexivity.
Defined.

Lemma heatwave_is_flagged :
  _check_for_anomalies (offline_runtime rate_limited) paris_execution = Returns []
  /\ In (unusual_temperature (offline_runtime rate_limited) 75)
       ["Unusual temperature value: 75°C"].
Proof.
  split.
  - apply (proj1 (temperature_scan_is_exact (offline_runtime rate_limited)
                    paris_execution)).
    reflexivity.
  - apply (proj2 (temperature_scan_is_exact (offline_runtime rate_limited)
                    heatwave_execution)
             ["Unusual temperature value: 75°C"] heatwave 75).
    + vm_compute. reflexivity.
    + left. reflexivity.
    + reflexivity.
    + right. reflexivity.
Defined.

Lemma stale_reply_is_reported :
  verify_results (replying_runtime (VDict stale_reply)) no_texts openai_client
    paris_plan paris_execution start
  = (Returns
       (mk_VerificationResult true false (VFloat 0.5) [VStr "Data may be stale"]
          (VStr "") (VStr "Weather for Paris") (VList [])),
     mk_process 1%nat []).
Proof.
  exact (proj1 (verify_results_reads_the_reply (replying_runtime (VDict stale_reply))
                  no_texts openai_client paris_plan paris_execution start
                  (VDict stale_reply) (mk_process 1%nat []) true [] eq_refl eq_refl)
           stale_reply [VStr "Data may be stale"] eq_refl eq_refl).
Defined.

Lemma verification_of_mixed_run :
  exists res st' vr p',
    execute_plan (offline_runtime rate_limited)
      (weather_tools connection_timeout 3) mixed_plan fresh = (Returns res, st')
    /\ verify_results (offline_runtime rate_limited) no_texts openai_client
         mixed_plan res start = (Returns vr, p')
    /\ steps_failed res = 2
    /\ ((is_complete vr = true <-> steps_failed res = 0)
        /\ (is_correct vr = true -> steps_failed res = 0 /\ 0 < steps_completed res)).
Proof.
  eexists. eexists. eexists. eexists.
  split; [vm_compute; reflexivity | ].
  split; [vm_compute; reflexivity | ].
  split; [reflexivity | ].
  eapply (verification_of_an_execution (offline_runtime rate_limited) no_texts
            openai_client (weather_tools connection_timeout 3) mixed_plan fresh
            _ _ start).
  - vm_compute. reflexivity.
  - vm_compute. reflexivity.
Defined.

(** A query of digits is declined; a Japanese query and a query of 600
    accented letters (1200 bytes) have letters and at most 1000
    characters, so they go to the planner and are echoed in full. *)
Lemma digits_are_declined :
  (exists res st',
     process_query (offline_runtime rate_limited) sample_isalpha no_texts openai_client
       (weather_tools not_found 0) unbound_text "  12345 " fresh = (Returns res, st')
     /\ r_query res = "12345"
     /\ (st' = fresh
         /\ r_plan res = None /\ r_execution res = None /\ r_verification res = None
         /\ r_success res = false /\ r_total_time res = 0%float
         /\ exists msg, r_error res = Some msg))
  /\ (exists res,
        process_query (offline_runtime rate_limited) sample_isalpha no_texts openai_client
          (weather_tools not_found 0) unbound_text "東京の天気" fresh
        = (Returns res,
           mk_executor_state (mk_process 3%nat [VInt 1; VInt 2; VInt 4]) [])
        /\ r_query res = "東京の天気")
  /\ (exists res,
        process_query (offline_runtime rate_limited) sample_isalpha no_texts openai_client
          (weather_tools not_found 0) unbound_text (replicate 600 "é") fresh
        = (Returns res,
           mk_executor_state (mk_process 3%nat [VInt 1; VInt 2; VInt 4]) [])
        /\ String.length (replicate 600 "é") = 1200%nat
        /\ r_query res = replicate 600 "é").
Proof.
  split; [ | split ].
  - eexists. eexists. split; [vm_compute; reflexivity | ].
    split; [reflexivity | ].
    eapply (proj1 (process_query_declines_without_running
                     (offline_runtime rate_limited) sample_isalpha no_texts openai_client
                     (weather_tools not_found 0) unbound_text "  12345 " fresh _ _ _)).
    left. vm_compute. reflexivity.
    Unshelve. vm_compute. reflexivity.
  - eexists. split; [vm_compute; reflexivity | ].
    eapply (proj2 (process_query_declines_without_running
                     (offline_runtime rate_limited) sample_isalpha no_texts openai_client
                     (weather_tools not_found 0) unbound_text "東京の天気" fresh _
                     (mk_executor_state (mk_process 3%nat [VInt 1; VInt 2; VInt 4]) [])
                     _)).
    + vm_compute. reflexivity.
    + vm_compute. lia.
    Unshelve. vm_compute. reflexivity.
  - eexists. split; [vm_compute; reflexivity | ].
    split; [vm_compute; reflexivity | ].
    eapply (proj2 (process_query_declines_without_running
                     (offline_runtime rate_limited) sample_isalpha no_texts openai_client
                     (weather_tools not_found 0) unbound_text (replicate 600 "é") fresh _
                     (mk_executor_state (mk_process 3%nat [VInt 1; VInt 2; VInt 4]) [])
                     _)).
    + vm_compute. reflexivity.
    + vm_compute. lia.
    Unshelve. vm_compute. reflexivity.
Defined.

Lemma paris_query_succeeds :
  exists res st',
    process_query (replying_runtime paris_plan) sample_isalpha no_texts openai_client
      (weather_tools not_found 0) unbound_text "weather in Paris" fresh
    = (Returns res, st')
    /\ r_success res = true
    /\ exists plan execution_result,
         r_plan res = Some plan
         /\ r_execution res = Some execution_result
         /\ _validate_plan plan = true
         /\ steps_failed execution_result = 0
         /\ 0 < steps_completed execution_result
         /\ plan_length plan = Returns (steps_completed execution_result)
         /\ forallb (fun r => String.eqb (status r) "success")
              (results execution_result) = true.
Proof.
  eexists. eexists. split; [vm_compute; reflexivity | ].
  split; [reflexivity | ].
  eapply (process_query_success_is_strict (replying_runtime paris_plan) sample_isalpha no_texts
            openai_client (weather_tools not_found 0) unbound_text
            "weather in Paris" fresh).
  - vm_compute. reflexivity.
  - reflexivity.
Defined.

Lemma text_temperature_is_an_unexpected_error :
  exists res st',
    process_query (replying_runtime paris_plan) sample_isalpha no_texts openai_client
      text_thermometer unbound_text "weather in Paris" fresh = (Returns res, st')
    /\ r_error res = Some ("Unexpected error: " ++ unbound_text)
    /\ exists p1 execution_result st2,
         create_plan (replying_runtime paris_plan) no_texts openai_client
           (strip "weather in Paris") (proc fresh) = (Returns paris_plan, p1)
         /\ execute_plan (replying_runtime paris_plan) text_thermometer paris_plan
              (mk_executor_state p1 (self_execution_log fresh))
            = (Returns execution_result, st2)
         /\ r_execution res = Some execution_result
         /\ ((exists verification p3,
                verify_results (replying_runtime paris_plan) no_texts openai_client
                  paris_plan execution_result (proc st2)
                = (Returns verification, p3)
                /\ r_verification res = Some verification
                /\ r_error res = None)
             \/ (exists e p3,
                   verify_results (replying_runtime paris_plan) no_texts openai_client
                     paris_plan execution_result (proc st2)
                   = (Raises e, p3)
                   /\ r_verification res = Some (verification_unavailable e)
                   /\ r_success res = false
                   /\ (success execution_result = true ->
                       r_error res = Some ("Unexpected error: " ++ unbound_text))
                   /\ (success execution_result = false -> r_error res = None))).
Proof.
  eexists. eexists. split; [vm_compute; reflexivity | ].
  split; [reflexivity | ].
  eapply (process_query_errors_after_planning (replying_runtime paris_plan) sample_isalpha no_texts
            openai_client text_thermometer unbound_text "weather in Paris" fresh).
  - vm_compute. reflexivity.
  - reflexivity.
Defined.

Lemma atlantis_is_not_found :
  WeatherTool.get_current_weather (offline_runtime rate_limited)
    (scripted_session oslo_then_unknown) "key" (VStr "Atlantis") (VStr "metric")
    1%nat
  = (Throws (mk_tool_exn (Builtin ValueError)
               "City 'Atlantis' not found. Please check the spelling or try adding a country code (e.g., 'London,GB')"),
     2%nat).
Proof.
  exact (proj1 (proj1 (get_current_weather_by_status (offline_runtime rate_limited)
                         (scripted_session oslo_then_unknown) "key"
                         (VStr "Atlantis") (VStr "metric") 1%nat)
                  (answer 404 "Not Found" (inr (VDict [("cod", VStr "404")])))
                  2%nat eq_refl)
           eq_refl).
Defined.

Lemma fahrenheit_is_read_as_celsius :
  exists data w',
    WeatherTool.get_current_weather (offline_runtime rate_limited)
      (scripted_session oslo_then_unknown) "key" (VStr "Oslo") (VStr "imperial")
      O = (Gives data, w')
    /\ exists response body main temperature d,
         scripted_session oslo_then_unknown (WeatherTool.BASE_URL ++ "/weather")
           (WeatherTool.request_params "key" (VStr "Oslo") (VStr "imperial")) O
         = (inl response, w')
         /\ json response = inr body
         /\ get body "main" (VDict []) = Returns main
         /\ get main "temp" VNone = Returns temperature
         /\ data = VDict d
         /\ lookup "temperature" d = Some temperature
         /\ lookup "units" d = Some (WeatherTool.checked_units (VStr "imperial"))
         /\ in_strings (WeatherTool.checked_units (VStr "imperial"))
              WeatherTool.valid_units = true
         /\ lookup "temperature_unit" d
            = Some (VStr (WeatherTool.temp_unit_of
                            (WeatherTool.checked_units (VStr "imperial"))))
         /\ (forall t number elapsed,
               temperature = VInt t -> 60 < t ->
               _check_for_anomalies (offline_runtime rate_limited)
                 (mk_ExecutionResult true 1 0
                    [mk_StepResult number "success" data None elapsed] [])
               = Returns ["Unusual temperature value: "
                          ++ str_of (offline_runtime rate_limited) (VInt t) ++ "°C"]).
Proof.
  eexists. eexists. split; [vm_compute; reflexivity | ].
  eapply (weather_units_and_the_verifier (offline_runtime rate_limited)
            (scripted_session oslo_then_unknown) "key" (VStr "Oslo")
            (VStr "imperial") O).
  vm_compute. reflexivity.
Defined.

Lemma oslo_and_atlantis_compared :
  exists results w',
    WeatherTool.compare_weather (offline_runtime rate_limited)
      (scripted_session oslo_then_unknown) "key"
      (VList [VStr "Oslo"; VStr "Atlantis"]) (VStr "metric") O
    = (Gives (VList results), w')
    /\ Forall2
         (fun city entry =>
            (exists d,
               entry = VDict d /\ lookup "error" d = None
               /\ lookup "units" d = Some (WeatherTool.checked_units (VStr "metric")))
            \/ (exists msg,
                  entry = WeatherTool.failed_city city (VStr "metric") msg))
         [VStr "Oslo"; VStr "Atlantis"] results.
Proof.
  exact (proj1 (compare_weather_never_fails (offline_runtime rate_limited)
                  (scripted_session oslo_then_unknown) "key"
                  [("weather", weather_tool_over oslo_then_unknown)]
                  (VList [VStr "Oslo"; VStr "Atlantis"]) (VStr "metric")
                  [VStr "Oslo"; VStr "Atlantis"] eq_refl)
           O).
Defined.

Lemma weather_step_on_a_failing_service :
  _execute_step (offline_runtime rate_limited)
    [("weather", weather_tool_over unauthorized)] (VDict oslo_step) start
  = (Returns (mk_StepResult (VInt 1) "failed" VNone
                (Some "Invalid OpenWeather API key. Please check your configuration.")
                (PrimFloat.sub 0 0)),
     mk_process 1%nat [])
  /\ _execute_step (offline_runtime rate_limited)
       [("weather", weather_tool_over too_many_requests)] (VDict oslo_step) start
     = (Returns (mk_StepResult (VInt 1) "failed" VNone
                   (Some WeatherTool.rate_limit_message) (PrimFloat.sub 0 0)),
        mk_process 4%nat [VFloat 1; VFloat 2; VFloat 4]).
Proof.
  split.
  - exact (proj1 (weather_step_under_errors (offline_runtime rate_limited)
                    (scripted_session unauthorized) "key"
                    [("weather", weather_tool_over unauthorized)]
                    (weather_tool_over unauthorized) oslo_step
                    [("city", VStr "Oslo")] (VStr "Oslo") start
                    (conj (fun _ _ => eq_refl) (fun _ _ => eq_refl))
                    eq_refl eq_refl eq_refl)
             (answer 401 "Unauthorized" (inr (VDict [("cod", VInt 401)])))
             1%nat eq_refl eq_refl).
  - exact (proj2 (weather_step_under_errors (offline_runtime rate_limited)
                    (scripted_session too_many_requests) "key"
                    [("weather", weather_tool_over too_many_requests)]
                    (weather_tool_over too_many_requests) oslo_step
                    [("city", VStr "Oslo")] (VStr "Oslo") start
                    (conj (fun _ _ => eq_refl) (fun _ _ => eq_refl))
                    eq_refl eq_refl eq_refl)
             (answer 429 "Too Many Requests" (inl "Expecting value")) 1%nat
             (answer 429 "Too Many Requests" (inl "Expecting value")) 2%nat
             (answer 429 "Too Many Requests" (inl "Expecting value")) 3%nat
             (answer 429 "Too Many Requests" (inl "Expecting value")) 4%nat
             eq_refl eq_refl eq_refl eq_refl eq_refl eq_refl eq_refl eq_refl).
Defined.

Lemma rotated_secrets_print_the_same :
  Config.__repr__ decimal office_config = Config.__repr__ decimal rotated_config.
Proof.
  apply (repr_hides_secrets decimal office_config rotated_config);
    try reflexivity; split; intros H; discriminate H.
Defined.

Lemma waiting_for_github_is_in_vain :
  exists e p',
    GitHubTool._make_request (offline_runtime rate_limited) github_session None
      reset_parser (fun _ => 40) "/search/repositories" None start
    = (Throws e, p')
    /\ tool_exn_class_of e = HTTPError 403
    /\ ((e = GitHubTool.rate_limit_error None forbidden
         /\ p' = mk_process 1%nat (sleeps start))
        \/ (exists wait_time,
              0 < wait_time < 300
              /\ raise_for_status (offline_runtime rate_limited) forbidden = Throws e
              /\ p' = mk_process
                        (asleep (offline_runtime rate_limited) (VInt (wait_time + 1))
                           1%nat)
                        (sleeps start ++ [VInt (wait_time + 1)]))).
Proof.
  exact (proj1 (github_403_always_fails (offline_runtime rate_limited) github_session
                  None reset_parser (fun _ => 40) "/search/repositories" None start
                  forbidden 1%nat eq_refl)
           eq_refl).
Defined.

(** A title padded with a no-break space; no sentence asked for; and a
    French text whose second sentence starts with an accented capital. *)
Lemma padded_title_gets_an_ellipsis :
  WikipediaTool._extract_sentences sample_isupper (no_break_space ++ "Oslo") 3
  = "Oslo..."
  /\ WikipediaTool._extract_sentences sample_isupper "Oslo is a city. It is cold." 0
     = "..."
  /\ WikipediaTool._extract_sentences sample_isupper "Il pleut. Été arrive." 1
     = "Il pleut....".
Proof.
  split; [ | split ].
  - exact (proj2 (proj2 (extract_sentences_edges sample_isupper
                           (no_break_space ++ "Oslo") 3))
             ltac:(vm_compute; lia) ltac:(lia) eq_refl).
  - exact (proj1 (proj2 (extract_sentences_edges sample_isupper
                           "Oslo is a city. It is cold." 0))
             ltac:(vm_compute; lia) ltac:(lia)).
  - vm_compute. reflexivity.
Defined.
